(** * Onboarding pack generator: fetcher, summarizer and HTML assembler

    A shallow embedding of [streamlit_app/repo_fetcher.py],
    [streamlit_app/ai_summarizer.py], [streamlit_app/html_builder.py] and
    of the three callbacks of [streamlit_app/app.py].

    Modelling conventions.
    - A Python [str] is a [string]; one [ascii] stands for one character.
      Case folding and whitespace are the ASCII ones.
    - A Python [dict] is an insertion-ordered association list ([Dict.t]):
      [d[k] = v] overwrites in place when [k] is present and appends
      otherwise, which is the iteration order Python guarantees.
    - [os.path] is [posixpath].
    - The network, the chat-completion client, [urlparse], [repr] and the
      clock are parameters of the definitions that use them.
    - Printing to the console and sleeping between attempts are left out:
      they do not change what the functions return.
    - Characters outside ASCII in the templates stand as their UTF-8
      bytes. *)

From Stdlib Require Import String Ascii List Arith Bool Lia DecimalString.
Import ListNotations.
Local Open Scope list_scope.
Local Open Scope string_scope.

(** The double-quote character, as a one-character string. *)
Definition dq : string := String "034"%char EmptyString.
(** The line feed, as a one-character string. *)
Definition nl : string := String "010"%char EmptyString.

(** [l.append(x)] *)
Definition list_append {A : Type} (l : list A) (x : A) : list A :=
  (l ++ [x])%list.

(* ===================================================================== *)
(** ** Python string operations used by the program *)
(* ===================================================================== *)

Module PyStr.

Definition is_upper (c : ascii) : bool :=
  ((65 <=? nat_of_ascii c) && (nat_of_ascii c <=? 90))%nat.

Definition lower_char (c : ascii) : ascii :=
  if is_upper c then ascii_of_nat (nat_of_ascii c + 32) else c.

(** [s.lower()] *)
Fixpoint lower (s : string) : string :=
  match s with
  | EmptyString => EmptyString
  | String c t => String (lower_char c) (lower t)
  end.

(** [s.startswith(pre)] *)
Definition startswith (s pre : string) : bool := String.prefix pre s.

(** [s.endswith(suf)] *)
Definition endswith (s suf : string) : bool :=
  (String.length suf <=? String.length s)%nat &&
  (substring (String.length s - String.length suf) (String.length suf) s =? suf).

(** [s.endswith(tuple_of_suffixes)] *)
Definition endswith_any (s : string) (sufs : list string) : bool :=
  existsb (endswith s) sufs.

(** [needle in hay] *)
Fixpoint contains (needle hay : string) : bool :=
  String.prefix needle hay ||
  match hay with
  | EmptyString => false
  | String _ t => contains needle t
  end.

(** [any(k in s for k in keywords)] *)
Definition contains_any (keywords : list string) (s : string) : bool :=
  existsb (fun k => contains k s) keywords.

(** Truthiness of a string: non-empty. *)
Definition truthy (s : string) : bool := negb (s =? "").

(** Characters removed by [s.strip()]. *)
Definition is_space (c : ascii) : bool :=
  let n := nat_of_ascii c in
  (((9 <=? n) && (n <=? 13)) || ((28 <=? n) && (n <=? 32)))%nat.

Definition is_slash (c : ascii) : bool := Ascii.eqb c "/".

Fixpoint lstrip_by (p : ascii -> bool) (s : string) : string :=
  match s with
  | EmptyString => EmptyString
  | String c t => if p c then lstrip_by p t else s
  end.

Fixpoint rstrip_by (p : ascii -> bool) (s : string) : string :=
  match s with
  | EmptyString => EmptyString
  | String c t =>
      match rstrip_by p t with
      | EmptyString => if p c then EmptyString else String c EmptyString
      | t' => String c t'
      end
  end.

(** [s.strip(chars)] for the set of characters recognised by [p]. *)
Definition strip_by (p : ascii -> bool) (s : string) : string :=
  rstrip_by p (lstrip_by p s).

(** [s.strip()] *)
Definition strip (s : string) : string := strip_by is_space s.

(** [s.split(c)] for a one-character separator: never returns []. *)
Fixpoint split_char (c : ascii) (s : string) : list string :=
  match s with
  | EmptyString => [EmptyString]
  | String a t =>
      if Ascii.eqb a c then EmptyString :: split_char c t
      else match split_char c t with
           | h :: r => String a h :: r
           | [] => [String a EmptyString]
           end
  end.

(** [s.split('\n\n')]: leftmost, non-overlapping occurrences. *)
Fixpoint split_blank_line (s : string) : list string :=
  match s with
  | EmptyString => [EmptyString]
  | String a t =>
      match t with
      | String b t' =>
          if Ascii.eqb a "010" && Ascii.eqb b "010"
          then EmptyString :: split_blank_line t'
          else match split_blank_line t with
               | h :: r => String a h :: r
               | [] => [String a EmptyString]
               end
      | EmptyString => [String a EmptyString]
      end
  end.

(** [s.replace(c, rep)] for a one-character pattern. *)
Fixpoint replace_char (c : ascii) (rep : string) (s : string) : string :=
  match s with
  | EmptyString => EmptyString
  | String a t =>
      if Ascii.eqb a c then rep ++ replace_char c rep t
      else String a (replace_char c rep t)
  end.

(** [''.join(parts)] *)
Definition join (parts : list string) : string := String.concat "" parts.

(** [str(n)] for a non-negative integer. *)
Definition str_of_nat (n : nat) : string :=
  NilEmpty.string_of_uint (Nat.to_uint n).

(** [posixpath.split] without the trailing-slash clean-up: the pair
    [(p[:i], p[i:])] with [i = p.rfind('/') + 1]. *)
Fixpoint rsplit_slash (p : string) : string * string :=
  match p with
  | EmptyString => (EmptyString, EmptyString)
  | String c t =>
      match rsplit_slash t with
      | (EmptyString, tl) =>
          if is_slash c then (String c EmptyString, tl)
          else (EmptyString, String c tl)
      | (h, tl) => (String c h, tl)
      end
  end.

(** [os.path.basename(p)] *)
Definition basename (p : string) : string := snd (rsplit_slash p).

Fixpoint all_slashes (s : string) : bool :=
  match s with
  | EmptyString => true
  | String c t => is_slash c && all_slashes t
  end.

(** [os.path.dirname(p)] *)
Definition dirname (p : string) : string :=
  let head := fst (rsplit_slash p) in
  if truthy head && negb (all_slashes head)
  then rstrip_by is_slash head
  else head.

End PyStr.

(* ===================================================================== *)
(** ** Insertion-ordered dictionaries with string keys *)
(* ===================================================================== *)

Module Dict.

Definition t (V : Type) : Type := list (string * V).

Section Ops.
Context {V : Type}.

(** [d.get(k)] *)
Fixpoint get (k : string) (d : t V) : option V :=
  match d with
  | [] => None
  | (k', v) :: r => if k' =? k then Some v else get k r
  end.

(** [d.get(k, dflt)] *)
Definition get_default (k : string) (dflt : V) (d : t V) : V :=
  match get k d with
  | Some v => v
  | None => dflt
  end.

(** [d[k] = v] *)
Fixpoint set (k : string) (v : V) (d : t V) : t V :=
  match d with
  | [] => [(k, v)]
  | (k', v') :: r =>
      if k' =? k then (k, v) :: r else (k', v') :: set k v r
  end.

(** [list(d.keys())] *)
Definition keys (d : t V) : list string := map fst d.

(** [len(d)] *)
Definition len (d : t V) : nat := List.length d.

(** Truthiness of a dict: non-empty. *)
Definition truthy (d : t V) : bool :=
  match d with
  | [] => false
  | _ :: _ => true
  end.
End Ops.

End Dict.

(* ===================================================================== *)
(** ** repo_fetcher.py *)
(* ===================================================================== *)

Module RepoFetcher.
Import PyStr.

Definition GITHUB_API_BASE : string := "https://api.github.com".
Definition RAW_BASE : string := "https://raw.githubusercontent.com".

Definition SUPPORTED_IMAGE_EXTENSIONS : list string :=
  [".png"; ".jpg"; ".jpeg"; ".gif"; ".svg"].

(** Exceptions that leave [fetch_repository_docs]. *)
Inductive exn : Type :=
| ValueError (msg : string)
| HTTPError (status : nat)
| ConnectionError.

(** An entry of the tree listing: [item["type"]] and [item["path"]]. *)
Record TreeItem : Type := mkItem {
  item_type : string;
  item_path : string
}.

(** What the program reads of a [requests] response: the status, the body
    text, and of the decoded JSON body the two keys it looks up
    ([None] when the key is absent). *)
Record Response : Type := mkResponse {
  status_code : nat;
  text : string;
  json_default_branch : option string;
  json_tree : option (list TreeItem)
}.

(** Result of a successful fetch (the returned dict). *)
Record FetchResult : Type := mkFetch {
  markdown_files : Dict.t string;
  image_files : list string;
  branch : string;
  repo : string;
  owner : string
}.

(** Computations that may raise and that log every URL requested. *)
Definition Net (A : Type) : Type := list string -> (exn + A) * list string.

Definition ret {A} (a : A) : Net A := fun tr => (inr a, tr).

Definition raise {A} (e : exn) : Net A := fun tr => (inl e, tr).

Definition bind {A B} (m : Net A) (k : A -> Net B) : Net B :=
  fun tr =>
    match m tr with
    | (inl e, tr') => (inl e, tr')
    | (inr a, tr') => k a tr'
    end.

Definition lift {A} (r : exn + A) : Net A := fun tr => (r, tr).

Declare Scope net_scope.
Delimit Scope net_scope with net.
Notation "x <- m ;; k" := (bind m (fun x => k))
  (at level 61, m at next level, right associativity) : net_scope.
Local Open Scope net_scope.

Section Fetch.
(** [urlparse(url).path] *)
Variable urlparse_path : string -> string.
(** The network as seen through [requests.get]: a response or a
    transport error for every URL. *)
Variable requests_get : string -> exn + Response.

Definition http_get (url : string) : Net Response :=
  fun tr => (requests_get url, list_append tr url).

(** [resp.raise_for_status()] *)
Definition raise_for_status (resp : Response) : Net unit :=
  if ((400 <=? status_code resp) && (status_code resp <? 600))%nat
  then raise (HTTPError (status_code resp))
  else ret tt.

Definition invalid_url_message : string :=
  "Invalid GitHub URL. Expected format: https://github.com/owner/repo".

Definition parse_repo_url (repo_url : string) : exn + (string * string) :=
  let parts := split_char "/" (strip_by is_slash (urlparse_path repo_url)) in
  if (List.length parts <? 2)%nat
  then inl (ValueError invalid_url_message)
  else inr (nth 0 parts "", nth 1 parts "").

Definition repo_api_url (owner repo : string) : string :=
  GITHUB_API_BASE ++ "/repos/" ++ owner ++ "/" ++ repo.

Definition get_repo_default_branch (owner repo : string) : Net string :=
  resp <- http_get (repo_api_url owner repo) ;;
  _ <- raise_for_status resp ;;
  ret (match json_default_branch resp with
       | Some b => b
       | None => "main"
       end).

Definition tree_api_url (owner repo branch : string) : string :=
  GITHUB_API_BASE ++ "/repos/" ++ owner ++ "/" ++ repo
    ++ "/git/trees/" ++ branch ++ "?recursive=1".

Definition get_repo_tree (owner repo branch : string) : Net (list TreeItem) :=
  resp <- http_get (tree_api_url owner repo branch) ;;
  _ <- raise_for_status resp ;;
  ret (match json_tree resp with
       | Some tree => tree
       | None => []
       end).

Definition raw_url (owner repo branch path : string) : string :=
  RAW_BASE ++ "/" ++ owner ++ "/" ++ repo ++ "/" ++ branch ++ "/" ++ path.

Definition download_raw_file (owner repo branch path : string)
  : Net (option string) :=
  resp <- http_get (raw_url owner repo branch path) ;;
  ret (if (status_code resp =? 200)%nat then Some (text resp) else None).

(** One iteration of the loop over the tree. [if content:] holds for a
    downloaded text that is not empty. *)
Definition fetch_item (owner repo branch : string)
    (acc : Dict.t string * list string) (item : TreeItem)
  : Net (Dict.t string * list string) :=
  let '(markdown_files, image_files) := acc in
  if negb (item_type item =? "blob") then ret acc
  else
    let path := lower (item_path item) in
    let original_path := item_path item in
    markdown_files' <-
      (if endswith path ".md" then
         content <- download_raw_file owner repo branch original_path ;;
         ret (match content with
              | Some c =>
                  if truthy c then Dict.set original_path c markdown_files
                  else markdown_files
              | None => markdown_files
              end)
       else ret markdown_files) ;;
    ret (markdown_files',
         if endswith_any path SUPPORTED_IMAGE_EXTENSIONS
         then list_append image_files original_path
         else image_files).

Fixpoint fetch_loop (owner repo branch : string) (tree : list TreeItem)
    (acc : Dict.t string * list string)
  : Net (Dict.t string * list string) :=
  match tree with
  | [] => ret acc
  | item :: rest =>
      acc' <- fetch_item owner repo branch acc item ;;
      fetch_loop owner repo branch rest acc'
  end.

Definition fetch_repository_docs (repo_url : string) : Net FetchResult :=
  parsed <- lift (parse_repo_url repo_url) ;;
  let '(owner, repo) := parsed in
  branch <- get_repo_default_branch owner repo ;;
  tree <- get_repo_tree owner repo branch ;;
  files <- fetch_loop owner repo branch tree ([], []) ;;
  ret (mkFetch (fst files) (snd files) branch repo owner).
End Fetch.

(** A reading of [urlparse(url).path] for URLs of the shape
    [scheme://host/path] without query or fragment: what follows the
    host. Used to run the fetcher on concrete inputs. *)
Fixpoint after_host (s : string) : string :=
  match s with
  | EmptyString => EmptyString
  | String c t => if is_slash c then s else after_host t
  end.

Fixpoint plain_urlparse_path (url : string) : string :=
  match url with
  | EmptyString => EmptyString
  | String c t =>
      match t with
      | String d (String e t') =>
          if Ascii.eqb c ":" && is_slash d && is_slash e
          then after_host t'
          else plain_urlparse_path t
      | _ => EmptyString
      end
  end.

End RepoFetcher.

(* ===================================================================== *)
(** ** ai_summarizer.py *)
(* ===================================================================== *)

Module AiSummarizer.
Import PyStr.

(** The character budget of the truncation step. *)
Definition content_budget : nat := 3000.

Definition truncation_marker : string :=
  nl ++ nl ++ "[... Content truncated for brevity ...]".

Definition image_note : string :=
  nl ++ nl
  ++ "Note: This section includes images/diagrams for improved understanding.".

Definition max_retries : nat := 2.

(** [related_images]: empty unless [image_files] is a non-empty list. *)
Definition related_images (file_dir : string)
    (image_files : option (list string)) : list string :=
  match image_files with
  | Some [] | None => []
  | Some imgs => filter (fun img => startswith img file_dir) imgs
  end.

(** [has_images = len(related_images) > 0] *)
Definition has_images (related : list string) : bool :=
  (0 <? List.length related)%nat.

Definition truncate_content (content : string) : string :=
  if (content_budget <? String.length content)%nat
  then substring 0 content_budget content ++ truncation_marker
  else content.

Definition fallback_summary (path : string) : string :=
  "Documentation file: " ++ basename path
  ++ ". For full details, refer to: [" ++ basename path ++ "](" ++ path ++ ")".

Section Summarize.
(** [repr] of a list of strings, as the f-string prints it. *)
Variable py_repr : list string -> string.
(** The chat-completion client: a state, and a call that consumes a
    prompt and either yields the message content or raises ([None]);
    a response whose content cannot be stripped counts as raising, the
    handler being the same. *)
Variable client : Type.
Variable chat_create : client -> string -> option string * client.

Definition build_prompt (path file_dir : string) (related : list string)
    (truncated_content : string) : string :=
  "
Summarize the following markdown file in 3-5 concise sentences.

File: " ++ path ++ "
Directory: " ++ file_dir ++ "
Related images in same directory: " ++ py_repr related ++ "

If there are related images, mention them in the summary.
End with: " ++ dq ++ "For full details, refer to: [" ++ basename path
  ++ "](" ++ path ++ ")" ++ dq ++ "

Markdown content:
" ++ truncated_content ++ "
".

(** The prompt built for one file. *)
Definition prompt_for (path content : string)
    (image_files : option (list string)) : string :=
  let file_dir := dirname path in
  build_prompt path file_dir (related_images file_dir image_files)
               (truncate_content content).

(** The [while retry_count < max_retries] loop; [fuel] bounds the number
    of iterations. Sleeping between attempts has no effect on the
    result. *)
Fixpoint retry_loop (fuel retry_count : nat) (path prompt : string)
    (with_images : bool) (summaries : Dict.t string) (c : client)
  : Dict.t string * client :=
  match fuel with
  | O => (summaries, c)
  | S fuel' =>
      if (retry_count <? max_retries)%nat then
        match chat_create c prompt with
        | (Some content, c') =>
            let summary_text := strip content in
            let summary_text :=
              if with_images then summary_text ++ image_note
              else summary_text in
            (Dict.set path summary_text summaries, c')
        | (None, c') =>
            let retry_count := retry_count + 1 in
            if (retry_count <? max_retries)%nat
            then retry_loop fuel' retry_count path prompt with_images
                            summaries c'
            else (Dict.set path (fallback_summary path) summaries, c')
        end
      else (summaries, c)
  end.

(** The body of the loop over [markdown_files.items()]. With string
    inputs, and printing that does not raise, nothing outside the inner
    handler raises, so the outer handler (which also stores a text under
    the path) is not reached. *)
Definition summarize_file (image_files : option (list string))
    (acc : Dict.t string * client) (item : string * string)
  : Dict.t string * client :=
  let '(summaries, c) := acc in
  let '(path, content) := item in
  let file_dir := dirname path in
  let related := related_images file_dir image_files in
  let prompt := build_prompt path file_dir related
                             (truncate_content content) in
  retry_loop max_retries 0 path prompt (has_images related) summaries c.

Definition summarize_markdown_files (c : client)
    (markdown_files : Dict.t string) (image_files : option (list string))
  : Dict.t string * client :=
  fold_left (summarize_file image_files) markdown_files ([], c).
End Summarize.

(** Clients used to run the summarizer on concrete inputs: one whose
    calls all raise, and one that answers every call with a fixed text. *)
Definition failing_client (c : unit) (prompt : string)
  : option string * unit := (None, c).

Definition constant_client (answer : string) (c : unit) (prompt : string)
  : option string * unit := (Some answer, c).

(** A client that raises on its first [n] calls and answers afterwards. *)
Definition flaky_client (answer : string) (c : nat) (prompt : string)
  : option string * nat :=
  match c with
  | O => (Some answer, O)
  | S n => (None, n)
  end.

(** A stand-in for [repr] on concrete inputs: items between single
    quotes, separated by commas, inside brackets (what [repr] prints for
    strings without quotes, backslashes or control characters). *)
Definition plain_repr (l : list string) : string :=
  "[" ++ String.concat ", " (map (fun s => "'" ++ s ++ "'") l) ++ "]".

End AiSummarizer.

(* ===================================================================== *)
(** ** html_builder.py *)
(* ===================================================================== *)

Module HtmlBuilder.
Import PyStr.

(** [organized[category][path] = summary]. The five category keys are
    created before the loop, so the lookup always succeeds. *)
Definition set_in (category path summary : string)
    (organized : Dict.t (Dict.t string)) : Dict.t (Dict.t string) :=
  match Dict.get category organized with
  | Some files => Dict.set category (Dict.set path summary files) organized
  | None => organized
  end.

Definition empty_categories : Dict.t (Dict.t string) :=
  [("README and Main Docs", []);
   ("Documentation", []);
   ("Guides and Tutorials", []);
   ("API Reference", []);
   ("Other Files", [])].

(** The body of the loop over [markdown_files.keys()]. *)
Definition organize_step (summaries : Dict.t string)
    (organized : Dict.t (Dict.t string)) (path : string)
  : Dict.t (Dict.t string) :=
  let file_name := lower (basename path) in
  let dir_name := lower (dirname path) in
  if existsb (String.eqb file_name) ["readme.md"; "index.md"] then
    set_in "README and Main Docs" path
           (Dict.get_default path "" summaries) organized
  else if contains "doc" dir_name || contains "guide" dir_name then
    set_in "Documentation" path
           (Dict.get_default path "" summaries) organized
  else if contains "tutorial" dir_name || contains "example" dir_name then
    set_in "Guides and Tutorials" path
           (Dict.get_default path "" summaries) organized
  else if contains "api" dir_name || contains "reference" dir_name then
    set_in "API Reference" path
           (Dict.get_default path "" summaries) organized
  else
    set_in "Other Files" path
           (Dict.get_default path "" summaries) organized.

Definition organize_content_for_html (markdown_files summaries : Dict.t string)
  : Dict.t (Dict.t string) :=
  fold_left (organize_step summaries) (Dict.keys markdown_files)
            empty_categories.

(** [file_path.replace("/", " / ").replace("_", " ").replace("-", " ")] *)
Definition display_name_of (file_path : string) : string :=
  replace_char "-" " " (replace_char "_" " " (replace_char "/" " / " file_path)).

(** The link to a file's page on the host, as built in
    [create_file_section] and in [format_summary_content]. *)
Definition blob_url (owner repo_name file_path : string) : string :=
  "https://github.com/" ++ owner ++ "/" ++ repo_name ++ "/blob/main/"
  ++ file_path.

(** Splits at the first occurrence of [c]: what precedes it and what
    follows it. *)
Fixpoint take_until (c : ascii) (s : string) : option (string * string) :=
  match s with
  | EmptyString => None
  | String a t =>
      if Ascii.eqb a c then Some (EmptyString, t)
      else match take_until c t with
           | Some (h, r) => Some (String a h, r)
           | None => None
           end
  end.

(** The pattern [\[([^\]]+)\]\(([^)]+)\)] tried right after an opening
    bracket: both groups are non-empty runs that stop at the first closing
    character. *)
Definition match_link_at (s : string) : option (string * string) :=
  match take_until "]" s with
  | Some (file_name, String p rest) =>
      if Ascii.eqb p "(" && truthy file_name then
        match take_until ")" rest with
        | Some (file_path, _) =>
            if truthy file_path then Some (file_name, file_path) else None
        | None => None
        end
      else None
  | _ => None
  end.

(** [re.search] of that pattern: the leftmost match, as the pair of its
    two groups. *)
Fixpoint search_link (s : string) : option (string * string) :=
  match s with
  | EmptyString => None
  | String a t =>
      if Ascii.eqb a "[" then
        match match_link_at t with
        | Some groups => Some groups
        | None => search_link t
        end
      else search_link t
  end.

(** The body of the loop over the paragraphs. *)
Definition format_paragraph (owner repo_name : string)
    (formatted_paragraphs : list string) (para : string) : list string :=
  let para := strip para in
  if negb (truthy para) then formatted_paragraphs
  else if startswith para "Note:" then
    list_append formatted_paragraphs ("<div class=" ++ dq ++ "note" ++ dq ++ ">" ++ para ++ "</div>")
  else if contains "For full details, refer to:" para
          && truthy owner && truthy repo_name then
    let para :=
      match search_link para with
      | Some (file_name, file_path) =>
          let github_url := blob_url owner repo_name file_path in
          "For full details, refer to: <a href=" ++ dq ++ github_url ++ dq
          ++ " target=" ++ dq ++ "_blank" ++ dq ++ " class=" ++ dq ++ "file-link" ++ dq
          ++ ">" ++ file_name ++ "</a>"
      | None => para
      end in
    list_append formatted_paragraphs ("<div class=" ++ dq ++ "reference" ++ dq ++ ">" ++ para ++ "</div>")
  else
    list_append formatted_paragraphs ("<p>" ++ para ++ "</p>").

Definition format_summary_content (summary owner repo_name : string)
  : string :=
  join (fold_left (format_paragraph owner repo_name)
                  (split_blank_line summary) []).

Definition create_file_section (file_path summary section_id : string)
    (image_files : option (list string)) (owner repo_name : string)
  : string :=
  let display_name := display_name_of file_path in
  let file_url := blob_url owner repo_name file_path in
  "
        <div class=" ++ dq ++ "section" ++ dq ++ " id=" ++ dq ++ section_id ++ dq ++ ">
            <h2 class=" ++ dq ++ "section-title" ++ dq ++ ">" ++ display_name ++ "</h2>
            <div class=" ++ dq ++ "section-path" ++ dq ++ ">üìÅ <a href=" ++ dq ++ file_url ++ dq ++ " target=" ++ dq ++ "_blank" ++ dq ++ " class=" ++ dq ++ "file-link" ++ dq ++ ">" ++ file_path ++ "</a></div>
            <div class=" ++ dq ++ "section-content" ++ dq ++ ">
                " ++ format_summary_content summary owner repo_name ++ "
            </div>
        </div>
    ".

(** [img_url] of the gallery loops. *)
Definition raw_image_url (owner repo_name img_path : string) : string :=
  "https://raw.githubusercontent.com/" ++ owner ++ "/" ++ repo_name
  ++ "/main/" ++ img_path.

(** The block appended for one image; the three gallery loops share it. *)
Definition gallery_item (owner repo_name : string) (gallery_html : string)
    (img_path : string) : string :=
  let img_url := raw_image_url owner repo_name img_path in
  let img_name := basename img_path in
  gallery_html ++ ("
                <div class=" ++ dq ++ "gallery-item" ++ dq ++ ">
                    <img src=" ++ dq ++ img_url ++ dq ++ " alt=" ++ dq ++ img_name ++ dq ++ " class=" ++ dq ++ "gallery-image" ++ dq ++ " />
                    <div class=" ++ dq ++ "gallery-caption" ++ dq ++ ">
                        <strong>" ++ img_name ++ "</strong><br>
                        <small>üìÅ " ++ img_path ++ "</small>
                    </div>
                </div>
            ").

(** The loop that sorts the images into the three buckets. *)
Definition categorize_image
    (acc : list string * list string * list string) (img_path : string)
  : list string * list string * list string :=
  let '(architecture_images, screenshot_images, other_images) := acc in
  let img_lower := lower img_path in
  if contains_any ["architecture"; "diagram"; "flow"; "design"] img_lower
  then (list_append architecture_images img_path,
        screenshot_images, other_images)
  else if contains_any ["screenshot"; "screen"; "demo"] img_lower
  then (architecture_images,
        list_append screenshot_images img_path, other_images)
  else (architecture_images, screenshot_images,
        list_append other_images img_path).

(** One bucket of the gallery: nothing when the bucket is empty. *)
Definition gallery_bucket (header : string) (owner repo_name : string)
    (gallery_html : string) (images : list string) : string :=
  match images with
  | [] => gallery_html
  | _ :: _ =>
      fold_left (gallery_item owner repo_name) images (gallery_html ++ header)
      ++ "</div>"
  end.

Definition architecture_header : string :=
  "<h2 class=" ++ dq ++ "gallery-category" ++ dq ++ ">üèóÔ∏è Architecture & Diagrams</h2><div class=" ++ dq ++ "image-grid" ++ dq ++ ">".
Definition screenshot_header : string :=
  "<h2 class=" ++ dq ++ "gallery-category" ++ dq ++ ">üì∑ Screenshots & Demos</h2><div class=" ++ dq ++ "image-grid" ++ dq ++ ">".
Definition other_header : string :=
  "<h2 class=" ++ dq ++ "gallery-category" ++ dq ++ ">üñºÔ∏è Other Images</h2><div class=" ++ dq ++ "image-grid" ++ dq ++ ">".

Definition create_image_gallery_section (image_files : option (list string))
    (owner repo_name : string) : string :=
  match image_files with
  | None | Some [] => ""
  | Some images =>
      let '(architecture_images, screenshot_images, other_images) :=
        fold_left categorize_image images ([], [], []) in
      let gallery_html := ("
    <div class=" ++ dq ++ "image-gallery-section" ++ dq ++ ">
        <h1 class=" ++ dq ++ "gallery-title" ++ dq ++ ">üé® Visual Assets & Architecture</h1>
        <div class=" ++ dq ++ "gallery-intro" ++ dq ++ ">
            <p>This section contains all visual assets found in the repository, organized by type.</p>
        </div>
    ") in
      let gallery_html :=
        gallery_bucket architecture_header owner repo_name gallery_html
                       architecture_images in
      let gallery_html :=
        gallery_bucket screenshot_header owner repo_name gallery_html
                       screenshot_images in
      let gallery_html :=
        gallery_bucket other_header owner repo_name gallery_html
                       other_images in
      gallery_html ++ "</div>"
  end.

(** The grouping chosen by [generate_onboarding_html]. *)
Definition organized_content (summaries : Dict.t string)
    (markdown_files : option (Dict.t string)) : Dict.t (Dict.t string) :=
  match markdown_files with
  | Some files =>
      if Dict.truthy files && (20 <? Dict.len summaries)%nat
      then organize_content_for_html files summaries
      else [("Documentation", summaries)]
  | None => [("Documentation", summaries)]
  end.

(** State of the rendering loops: the TOC items, the sections and the
    section counter. *)
Definition render_state : Type := list string * list string * nat.

(** The body of the loop over the files of a category. *)
Definition render_file (owner repo_name : string) (st : render_state)
    (item : string * string) : render_state :=
  let '(toc_items, section_content, section_counter) := st in
  let '(file_path, summary) := item in
  let section_id := "section-" ++ str_of_nat section_counter in
  (list_append toc_items ("<li><a href=" ++ dq ++ "#" ++ section_id ++ dq ++ ">"
                   ++ basename file_path ++ "</a></li>"),
   list_append section_content (create_file_section file_path summary section_id None
                              owner repo_name),
   section_counter + 1).

(** The body of the loop over the categories; [n_categories] is
    [len(organized_content)]. *)
Definition render_category (owner repo_name : string) (n_categories : nat)
    (st : render_state) (entry : string * Dict.t string) : render_state :=
  let '(category, files) := entry in
  if negb (Dict.truthy files) then st
  else
    let '(toc_items, section_content, section_counter) := st in
    let toc_items :=
      if (1 <? n_categories)%nat
      then list_append toc_items ("<li class=" ++ dq ++ "toc-category" ++ dq ++ ">" ++ category
                         ++ " (" ++ str_of_nat (Dict.len files) ++ " files)</li>")
      else toc_items in
    fold_left (render_file owner repo_name) files
              (toc_items, section_content, section_counter).

Definition render_sections (owner repo_name : string)
    (organized : Dict.t (Dict.t string)) : render_state :=
  fold_left (render_category owner repo_name (Dict.len organized))
            organized ([], [], 1).

Definition get_css_styles : string :=
"
        * {
            margin: 0;
            padding: 0;
            box-sizing: border-box;
        }

        body {
            font-family: -apple-system, BlinkMacSystemFont, 'Segoe UI', Roboto, Oxygen, Ubuntu, Cantarell, sans-serif;
            line-height: 1.6;
            color: #333;
            background-color: #ffffff;
        }

        /* Cover Page Styles */
        .cover-page {
            min-height: 100vh;
            display: flex;
            flex-direction: column;
            justify-content: space-between;
            padding: 60px 40px;
            background: linear-gradient(135deg, #667eea 0%, #764ba2 100%);
            color: white;
            page-break-after: always;
        }

        .cover-header {
            text-align: right;
        }

        .company-branding .company-name {
            font-size: 2rem;
            font-weight: 700;
            margin-bottom: 5px;
        }

        .company-tagline {
            font-size: 1.1rem;
            opacity: 0.9;
        }

        .cover-main {
            text-align: center;
            flex: 1;
            display: flex;
            flex-direction: column;
            justify-content: center;
        }

        .project-title {
            font-size: 4rem;
            font-weight: 800;
            margin-bottom: 20px;
            text-shadow: 2px 2px 4px rgba(0,0,0,0.3);
        }

        .subtitle {
            font-size: 1.8rem;
            font-weight: 300;
            margin-bottom: 60px;
            opacity: 0.9;
        }

        .project-info {
            background: rgba(255,255,255,0.1);
            padding: 30px;
            border-radius: 10px;
            backdrop-filter: blur(10px);
            max-width: 600px;
            margin: 0 auto;
        }

        .info-item {
            display: flex;
            justify-content: space-between;
            margin-bottom: 15px;
            padding: 8px 0;
            border-bottom: 1px solid rgba(255,255,255,0.2);
        }

        .info-item:last-child {
            border-bottom: none;
        }

        .label {
            font-weight: 600;
        }

        .value {
            font-weight: 400;
        }

        .repo-link {
            color: #ffffff;
            text-decoration: none;
            border-bottom: 1px dotted rgba(255,255,255,0.5);
        }

        .repo-link:hover {
            border-bottom: 1px solid rgba(255,255,255,0.8);
        }

        .cover-footer {
            text-align: center;
            font-size: 1.1rem;
            opacity: 0.8;
        }

        /* Table of Contents Styles */
        .toc-page {
            min-height: 100vh;
            padding: 60px 40px;
            page-break-after: always;
        }

        .page-title {
            font-size: 3rem;
            font-weight: 700;
            color: #2d3748;
            margin-bottom: 30px;
            text-align: center;
        }

        .toc-summary {
            text-align: center;
            margin-bottom: 50px;
            font-size: 1.1rem;
            color: #666;
        }
        .toc-category {
        font-size: 1.1rem;
        color: #667eea;
        margin: 15px 0 5px 0;
        padding: 8px 15px;
        background: #f0f4ff;
        border-left: 4px solid #667eea;
        font-weight: 600;
        }

        .toc-list {
            list-style: none;
            max-width: 800px;
            margin: 0 auto;
        }

        .toc-list li {
            margin-bottom: 15px;
            padding: 15px 20px;
            background: #f7fafc;
            border-radius: 8px;
            border-left: 4px solid #667eea;
        }

        .toc-list a {
            text-decoration: none;
            color: #2d3748;
            font-size: 1.1rem;
            font-weight: 500;
        }

        .toc-list a:hover {
            color: #667eea;
        }

        /* Content Section Styles */
        .content-pages {
            max-width: 900px;
            margin: 0 auto;
            padding: 40px;
        }

        .section {
            margin-bottom: 60px;
            padding-bottom: 40px;
            border-bottom: 2px solid #e2e8f0;
            page-break-inside: avoid;
        }

        .section:last-child {
            border-bottom: none;
        }

        .section-title {
            font-size: 2rem;
            font-weight: 700;
            color: #2d3748;
            margin-bottom: 10px;
        }

        .section-path {
            font-family: 'Courier New', monospace;
            font-size: 0.9rem;
            color: #666;
            background: #f7fafc;
            padding: 8px 12px;
            border-radius: 5px;
            margin-bottom: 25px;
            display: inline-block;
        }

        .section-content {
            font-size: 1.1rem;
            line-height: 1.7;
        }

        .section-content p {
            margin-bottom: 15px;
        }

        .note {
            background: #fff5cd;
            border: 1px solid #f6e05e;
            border-radius: 5px;
            padding: 15px;
            margin: 20px 0;
            font-style: italic;
        }

        .reference {
            background: #e6fffa;
            border: 1px solid #81e6d9;
            border-radius: 5px;
            padding: 12px;
            margin: 15px 0;
            font-size: 0.95rem;
        }

        /* Footer Styles */
        .document-footer {
            background: #f7fafc;
            padding: 30px;
            text-align: center;
            color: #666;
            border-top: 2px solid #e2e8f0;
            margin-top: 60px;
        }

        .document-footer p {
            margin-bottom: 10px;
        }

        .document-footer a {
            color: #667eea;
            text-decoration: none;
        }
        /* File Link Styles */
        .file-link {
            color: #667eea;
            text-decoration: none;
        }

        .file-link:hover {
            text-decoration: underline;
        }

        /* Image Gallery Styles */
        .image-gallery {
            margin: 25px 0;
            padding: 20px;
            background: #f8fafc;
            border-radius: 8px;
            border: 1px solid #e2e8f0;
        }

        .image-gallery h4 {
            margin-bottom: 15px;
            color: #4a5568;
        }

        .image-item {
            margin: 15px 0;
            text-align: center;
        }

        .content-image {
            max-width: 100%;
            max-height: 300px;
            border-radius: 5px;
            box-shadow: 0 4px 6px rgba(0, 0, 0, 0.1);
            border: 1px solid #e2e8f0;
        }

        .image-caption {
            margin-top: 8px;
            font-size: 0.9rem;
            color: #666;
            font-style: italic;
        }

        /* Print Styles */
        @media print {
            .cover-page,
            .toc-page {
                page-break-after: always;
            }
            
            .section {
                page-break-inside: avoid;
            }
        }

        /* Responsive Design */
        @media (max-width: 768px) {
            .cover-page,
            .toc-page,
            .content-pages {
                padding: 30px 20px;
            }
            
            .project-title {
                font-size: 2.5rem;
            }
            
            .page-title {
                font-size: 2rem;
            }
            
            .info-item {
                flex-direction: column;
                gap: 5px;
            }
        }
    ".

Definition html_head (repo_name : string) : string :=
  "
<!DOCTYPE html>
<html lang=" ++ dq ++ "en" ++ dq ++ ">
<head>
    <meta charset=" ++ dq ++ "UTF-8" ++ dq ++ ">
    <meta name=" ++ dq ++ "viewport" ++ dq ++ " content=" ++ dq ++ "width=device-width, initial-scale=1.0" ++ dq ++ ">
    <title>" ++ repo_name ++ " - Onboarding Documentation</title>
    <style>
        " ++ get_css_styles ++ "
    </style>
</head>
<body>
".

Definition cover_block (company repo_name github_url author current_date
                        branch_field : string) : string :=
  "    <!-- Cover Page -->
    <div class=" ++ dq ++ "cover-page" ++ dq ++ ">
        <div class=" ++ dq ++ "cover-header" ++ dq ++ ">
            <div class=" ++ dq ++ "company-branding" ++ dq ++ ">
                <h1 class=" ++ dq ++ "company-name" ++ dq ++ ">" ++ company ++ "</h1>
                <div class=" ++ dq ++ "company-tagline" ++ dq ++ ">Knowledge Base Documentation</div>
            </div>
        </div>
        
        <div class=" ++ dq ++ "cover-main" ++ dq ++ ">
            <h1 class=" ++ dq ++ "project-title" ++ dq ++ ">" ++ repo_name ++ "</h1>
            <h2 class=" ++ dq ++ "subtitle" ++ dq ++ ">Onboarding Documentation</h2>
            
            <div class=" ++ dq ++ "project-info" ++ dq ++ ">
                <div class=" ++ dq ++ "info-item" ++ dq ++ ">
                    <span class=" ++ dq ++ "label" ++ dq ++ ">Repository:</span>
                    <a href=" ++ dq ++ github_url ++ dq ++ " target=" ++ dq ++ "_blank" ++ dq ++ " class=" ++ dq ++ "repo-link" ++ dq ++ ">" ++ github_url ++ "</a>
                </div>
                <div class=" ++ dq ++ "info-item" ++ dq ++ ">
                    <span class=" ++ dq ++ "label" ++ dq ++ ">Author:</span>
                    <span class=" ++ dq ++ "value" ++ dq ++ ">" ++ author ++ "</span>
                </div>
                <div class=" ++ dq ++ "info-item" ++ dq ++ ">
                    <span class=" ++ dq ++ "label" ++ dq ++ ">Generated:</span>
                    <span class=" ++ dq ++ "value" ++ dq ++ ">" ++ current_date ++ "</span>
                </div>
                <div class=" ++ dq ++ "info-item" ++ dq ++ ">
                    <span class=" ++ dq ++ "label" ++ dq ++ ">Branch:</span>
                    <span class=" ++ dq ++ "value" ++ dq ++ ">" ++ branch_field ++ "</span>
                </div>
            </div>
        </div>
        
        <div class=" ++ dq ++ "cover-footer" ++ dq ++ ">
            <p>This document provides an overview of the repository structure and key documentation files.</p>
        </div>
    </div>
".

Definition toc_block (n_summaries : nat) (toc_items : list string) : string :=
  "
    <!-- Table of Contents Page -->
    <div class=" ++ dq ++ "toc-page" ++ dq ++ ">
        <h1 class=" ++ dq ++ "page-title" ++ dq ++ ">Table of Contents</h1>
        <div class=" ++ dq ++ "toc-summary" ++ dq ++ ">
            <p>This document contains <strong>" ++ str_of_nat n_summaries ++ "</strong> sections covering the main documentation files in the repository.</p>
        </div>
        <ul class=" ++ dq ++ "toc-list" ++ dq ++ ">
            " ++ join toc_items ++ "
        </ul>
    </div>
".

Definition content_block (section_content : list string) : string :=
  "
    <!-- Content Sections -->
    <div class=" ++ dq ++ "content-pages" ++ dq ++ ">
        " ++ join section_content ++ "
    </div>
".

Definition gallery_block (image_gallery_section : string) : string :=
  "
    <!-- Image Gallery Section -->
    " ++ image_gallery_section ++ "
".

Definition footer_block (github_url : string) : string :=
  "
    <!-- Footer -->
    <div class=" ++ dq ++ "document-footer" ++ dq ++ ">
        <p>Generated by AI-Powered Onboarding Documentation System</p>
        <p>For the most up-to-date information, please refer to the repository at <a href=" ++ dq ++ github_url ++ dq ++ ">" ++ github_url ++ "</a></p>
    </div>
".

Definition html_tail : string :=
  "</body>
</html>
".

(** [current_date] is [datetime.now().strftime("%B %d, %Y")], read once
    per call. *)
Definition generate_onboarding_html (current_date : string)
    (summaries : Dict.t string) (repo_meta : Dict.t string)
    (author company : string) (markdown_files : option (Dict.t string))
    (image_files : option (list string)) : string :=
  let repo_name := Dict.get_default "repo" "Repository" repo_meta in
  let owner := Dict.get_default "owner" "Unknown" repo_meta in
  let github_url := "https://github.com/" ++ owner ++ "/" ++ repo_name in
  let organized := organized_content summaries markdown_files in
  let '(toc_items, section_content, _) :=
    render_sections owner repo_name organized in
  let image_gallery_section :=
    create_image_gallery_section image_files owner repo_name in
  html_head repo_name
  ++ cover_block company repo_name github_url author current_date
                 (Dict.get_default "branch" "main" repo_meta)
  ++ toc_block (Dict.len summaries) toc_items
  ++ content_block section_content
  ++ gallery_block image_gallery_section
  ++ footer_block github_url
  ++ html_tail.

End HtmlBuilder.

(* ===================================================================== *)
(** ** app.py: the three callbacks *)
(* ===================================================================== *)

Module App.
Import PyStr.

(** The dict stored under [repo_meta]: [do_fetch] is its only writer and
    always stores these four keys. *)
Record RepoMeta : Type := mkMeta {
  meta_repo : string;
  meta_owner : string;
  meta_branch : string;
  meta_image_files : list string
}.

(** What [generate_onboarding_html] reads of it: the three string
    entries. *)
Definition meta_dict (m : RepoMeta) : Dict.t string :=
  [("repo", meta_repo m); ("owner", meta_owner m); ("branch", meta_branch m)].

(** The session state: the three widget keys ([None] while a key is
    absent) and the slots created by the state initialisation. *)
Record Session : Type := mkSession {
  st_repo_input : option string;
  st_author_input : option string;
  st_company_input : option string;
  st_markdown_files : option (Dict.t string);
  st_image_files : option (list string);
  st_repo_meta : option RepoMeta;
  st_summaries : option (Dict.t string);
  st_fetch_error : option string;
  st_summary_error : option string;
  st_html_content : option string;
  st_html_error : option string;
  st_pdf_content : option string
}.

(** The session after the state initialisation. *)
Definition initial_session : Session :=
  mkSession None None None None None None None None None None None None.

(** Assignments to the slots the callbacks write. *)
Definition set_fetched (s : Session) (md : option (Dict.t string))
    (imgs : option (list string)) (meta : option RepoMeta)
    (err : option string) : Session :=
  mkSession (st_repo_input s) (st_author_input s) (st_company_input s)
            md imgs meta (st_summaries s) err (st_summary_error s)
            (st_html_content s) (st_html_error s) (st_pdf_content s).

Definition set_summaries (s : Session) (summaries : option (Dict.t string))
    (err : option string) : Session :=
  mkSession (st_repo_input s) (st_author_input s) (st_company_input s)
            (st_markdown_files s) (st_image_files s) (st_repo_meta s)
            summaries (st_fetch_error s) err
            (st_html_content s) (st_html_error s) (st_pdf_content s).

Definition set_html_content (s : Session) (html : string) : Session :=
  mkSession (st_repo_input s) (st_author_input s) (st_company_input s)
            (st_markdown_files s) (st_image_files s) (st_repo_meta s)
            (st_summaries s) (st_fetch_error s) (st_summary_error s)
            (Some html) (st_html_error s) (st_pdf_content s).

Definition set_pdf_content (s : Session) (pdf : string) : Session :=
  mkSession (st_repo_input s) (st_author_input s) (st_company_input s)
            (st_markdown_files s) (st_image_files s) (st_repo_meta s)
            (st_summaries s) (st_fetch_error s) (st_summary_error s)
            (st_html_content s) (st_html_error s) (Some pdf).

(** The widgets write their keys. *)
Definition set_inputs (s : Session) (repo author company : option string)
  : Session :=
  mkSession repo author company
            (st_markdown_files s) (st_image_files s) (st_repo_meta s)
            (st_summaries s) (st_fetch_error s) (st_summary_error s)
            (st_html_content s) (st_html_error s) (st_pdf_content s).

(** Truthiness of an optional string, as in [if not x:]. *)
Definition some_text (x : option string) : option string :=
  match x with
  | Some s => if truthy s then Some s else None
  | None => None
  end.

(** Truthiness of an optional dict. *)
Definition some_entries {V : Type} (x : option (Dict.t V))
  : option (Dict.t V) :=
  match x with
  | Some (_ :: _) => x
  | _ => None
  end.

Section Fetch.
Variable urlparse_path : string -> string.
Variable requests_get : string -> RepoFetcher.exn + RepoFetcher.Response.
(** [str(e)] of an exception raised by the fetch. *)
Variable exn_text : RepoFetcher.exn -> string.

(** [do_fetch]; the second component is the log of requested URLs. The
    messages shown with [st.error] and [st.success] are not part of the
    session and are left out, here and below. *)
Definition do_fetch (s : Session) (tr : list string)
  : Session * list string :=
  match some_text (st_repo_input s) with
  | None => (s, tr)
  | Some repo_url =>
      match RepoFetcher.fetch_repository_docs urlparse_path requests_get
                                              repo_url tr with
      | (inr result, tr') =>
          (set_fetched s
             (Some (RepoFetcher.markdown_files result))
             (Some (RepoFetcher.image_files result))
             (Some (mkMeta (RepoFetcher.repo result)
                           (RepoFetcher.owner result)
                           (RepoFetcher.branch result)
                           (RepoFetcher.image_files result)))
             None,
           tr')
      | (inl e, tr') =>
          (set_fetched s None None None (Some (exn_text e)), tr')
      end
  end.
End Fetch.

Section Summarize.
Variable py_repr : list string -> string.
Variable client : Type.
Variable chat_create : client -> string -> option string * client.
(** [OpenAI(api_key=...)]: a client, or the text of the error raised. *)
Variable new_client : string + client.

Definition do_summarize (s : Session) : Session :=
  match some_entries (st_markdown_files s) with
  | None => s
  | Some markdown_files =>
      let s := set_summaries s (st_summaries s) None in
      match new_client with
      | inr c =>
          let summaries :=
            fst (AiSummarizer.summarize_markdown_files py_repr client
                   chat_create c markdown_files (st_image_files s)) in
          set_summaries s (Some summaries) (st_summary_error s)
      | inl text => set_summaries s None (Some text)
      end
  end.
End Summarize.

(** What [requests.post] to the PDF service ends with. *)
Inductive post_outcome : Type :=
| PostTimeout
| PostConnectionError
| PostOtherError
| PostResponse (status : nat) (content : string) (text : string).

Definition PDF_ENDPOINT : string := "http://localhost:5165/api/pdf/generate".

Section Generate.
Variable current_date : string.
(** The PDF service: the address, the [Html] and the [FileName] of the
    payload. *)
Variable requests_post : string -> string -> string -> post_outcome.

Definition do_generate_html (s : Session) : Session :=
  match some_entries (st_summaries s) with
  | None => s
  | Some summaries =>
      match st_repo_meta s with
      | None => s
      | Some meta =>
          let repo_name := meta_repo meta in
          let author :=
            match st_author_input s with
            | Some a => a
            | None => "Riddhi Shah"
            end in
          let company :=
            match st_company_input s with
            | Some c => c
            | None => "Women in AI"
            end in
          let html_content :=
            HtmlBuilder.generate_onboarding_html current_date summaries
              (meta_dict meta) author company
              (st_markdown_files s) (st_image_files s) in
          let s := set_html_content s html_content in
          match requests_post PDF_ENDPOINT html_content
                              (repo_name ++ "_onboarding.pdf") with
          | PostResponse status content _ =>
              if (status =? 200)%nat then set_pdf_content s content else s
          | _ => s
          end
      end
  end.
End Generate.

End App.

(* ===================================================================== *)
(** * Vocabulary of the properties and sample inputs *)
(* ===================================================================== *)

Module FetcherSpec.
Import PyStr RepoFetcher.

(** The non-empty segments of a path. *)
Definition nonempty_segments (path : string) : list string :=
  filter truthy (split_char "/" path).

(** The tree listing the network answers for a repository and branch. *)
Definition listed_tree (requests_get : string -> exn + Response)
    (owner repo branch : string) : list TreeItem :=
  match requests_get (tree_api_url owner repo branch) with
  | inr resp => match json_tree resp with Some tree => tree | None => [] end
  | inl _ => []
  end.

(** A blob of the tree whose path ends in [.md], whatever the case. *)
Definition markdown_blob (tree : list TreeItem) (path : string) : Prop :=
  exists item,
    In item tree /\ item_type item = "blob" /\ item_path item = path
    /\ endswith (lower path) ".md" = true.

(** The text of a download answered with status 200. *)
Definition downloaded_text (requests_get : string -> exn + Response)
    (owner repo branch path : string) : option string :=
  match requests_get (raw_url owner repo branch path) with
  | inr resp => if (status_code resp =? 200)%nat then Some (text resp) else None
  | inl _ => None
  end.

(** A network given by a table from URLs to responses; 404 elsewhere. *)
Definition table_network (table : Dict.t Response) (url : string)
  : exn + Response :=
  match Dict.get url table with
  | Some resp => inr resp
  | None => inr (mkResponse 404 "Not Found" None None)
  end.

(** A repository [acme/widgets] on branch [main] with an empty
    [EMPTY.md], a [README.md], a guide whose download fails and a logo. *)
Definition widgets_network : string -> exn + Response :=
  table_network
    [(repo_api_url "acme" "widgets", mkResponse 200 "" (Some "main") None);
     (tree_api_url "acme" "widgets" "main",
      mkResponse 200 "" None
        (Some [mkItem "blob" "EMPTY.md"; mkItem "tree" "docs";
               mkItem "blob" "README.MD"; mkItem "blob" "docs/guide.md";
               mkItem "blob" "img/logo.png"]));
     (raw_url "acme" "widgets" "main" "EMPTY.md", mkResponse 200 "" None None);
     (raw_url "acme" "widgets" "main" "README.MD",
      mkResponse 200 "# Widgets" None None);
     (raw_url "acme" "widgets" "main" "docs/guide.md",
      mkResponse 500 "oops" None None)].

(** The mapping holds exactly the markdown blobs seen so far whose
    download answered 200 with a text that is not empty. *)
Definition collected_from (requests_get : string -> exn + Response)
    (owner repo branch : string) (seen : list TreeItem)
    (md : Dict.t string) : Prop :=
  forall path txt,
    Dict.get path md = Some txt
    <-> markdown_blob seen path
        /\ downloaded_text requests_get owner repo branch path = Some txt
        /\ txt <> "".

End FetcherSpec.

Module SummarizerSpec.
Import PyStr AiSummarizer.

(** The text stored when an attempt answers [content]. *)
Definition model_summary (content : string) (with_images : bool) : string :=
  if with_images then strip content ++ image_note else strip content.

(** What can be stored for [path]: the fallback text, or the text made
    from some answer of the client. *)
Definition summary_outcome (image_files : option (list string))
    (path summary : string) : Prop :=
  summary = fallback_summary path \/
  exists content,
    summary = model_summary content
                (has_images (related_images (dirname path) image_files)).

(** A content of 3001 characters. *)
Definition long_content : string := String.concat "" (repeat "a" 3001).

End SummarizerSpec.

Module HtmlSpec.
Import PyStr HtmlBuilder.

(** The category of a file, in the words of the specification: the
    basename and the directory name are compared in lower case. *)
Definition spec_category (path : string) : string :=
  let file_name := lower (basename path) in
  let dir_name := lower (dirname path) in
  if (file_name =? "readme.md") || (file_name =? "index.md")
  then "README and Main Docs"
  else if contains "doc" dir_name || contains "guide" dir_name
  then "Documentation"
  else if contains "tutorial" dir_name || contains "example" dir_name
  then "Guides and Tutorials"
  else if contains "api" dir_name || contains "reference" dir_name
  then "API Reference"
  else "Other Files".

Definition category_names : list string :=
  ["README and Main Docs"; "Documentation"; "Guides and Tutorials";
   "API Reference"; "Other Files"].

(** [n] summaries [1.md], [2.md], ... *)
Definition numbered_summaries (n : nat) : Dict.t string :=
  map (fun i => (str_of_nat i ++ ".md", "Summary " ++ str_of_nat i)) (seq 1 n).

(** Twenty-one files, among them a README and an API page. *)
Definition sample_files : Dict.t string :=
  ("README.md", "# Project") :: ("src/API/usage.md", "Usage")
  :: numbered_summaries 19.

(** A repository record whose branch is not [main], and one summary. *)
Definition sample_meta : Dict.t string :=
  [("repo", "widgets"); ("owner", "acme"); ("branch", "develop")].

Definition sample_summaries : Dict.t string :=
  [("docs/setup_guide.md",
    "Explains the setup." ++ nl ++ nl
    ++ "For full details, refer to: [setup_guide.md](docs/setup_guide.md)")].

(** What the loop has built once the files [seen] are processed. *)
Definition grouped (summaries : Dict.t string) (seen : list string)
    (organized : Dict.t (Dict.t string)) : Prop :=
  Dict.keys organized = category_names
  /\ forall category files,
       Dict.get category organized = Some files ->
       (forall path, In path (Dict.keys files)
                     <-> In path seen /\ spec_category path = category)
       /\ (forall path v, Dict.get path files = Some v ->
                          v = Dict.get_default path "" summaries).

(** The sections held by a state of the rendering loops. *)
Definition sections_of (st : render_state) : list string := snd (fst st).

(** A section of the document is the section of one of the [files]. *)
Definition file_section_of (owner repo_name : string) (files : Dict.t string)
    (sec : string) : Prop :=
  exists file_path summary section_id,
    In (file_path, summary) files
    /\ sec = create_file_section file_path summary section_id None
                                 owner repo_name.

(** The TOC items held by a state of the rendering loops. *)
Definition toc_of (st : render_state) : list string := fst (fst st).

(** The quoted address of an image, as the gallery prints it. *)
Definition quoted_image_url (owner repo_name img_path : string) : string :=
  dq ++ raw_image_url owner repo_name img_path ++ dq.

End HtmlSpec.

Module FetcherMore.
Import PyStr RepoFetcher FetcherSpec.

(** The test of the loop for a markdown file: a blob whose lower-cased
    path ends in [.md]. *)
Definition is_markdown_blob (item : TreeItem) : bool :=
  (item_type item =? "blob") && endswith (lower (item_path item)) ".md".

(** The test of the loop for an image: a blob whose lower-cased path ends
    in one of the supported extensions. *)
Definition is_image_blob (item : TreeItem) : bool :=
  (item_type item =? "blob")
  && endswith_any (lower (item_path item)) SUPPORTED_IMAGE_EXTENSIONS.

(** The branch the lookup answers, [main] when the answer names none. *)
Definition answered_branch (resp : Response) : string :=
  match json_default_branch resp with
  | Some b => b
  | None => "main"
  end.

(** A status for which [raise_for_status] raises. *)
Definition error_status (status : nat) : bool :=
  ((400 <=? status) && (status <? 600))%nat.

(** A network that answers the two API calls of [acme/widgets] and whose
    connection drops on the download of [README.MD]. *)
Definition dropping_network (url : string) : exn + Response :=
  if url =? raw_url "acme" "widgets" "main" "README.MD"
  then inl ConnectionError
  else widgets_network url.

(** A network whose repository lookup answers 404. *)
Definition missing_repo_network : string -> exn + Response :=
  table_network [].

(** A network that answers the lookup of [acme/widgets] without naming a
    branch, and 404 to everything else. *)
Definition lookup_only_network : string -> exn + Response :=
  table_network
    [(repo_api_url "acme" "widgets", mkResponse 200 "" None None)].

(** What the fetch of [acme/widgets] returns and requests on
    [widgets_network]. *)
Definition widgets_result : FetchResult :=
  mkFetch [("README.MD", "# Widgets")] ["img/logo.png"]
          "main" "widgets" "acme".

Definition widgets_log : list string :=
  [repo_api_url "acme" "widgets";
   tree_api_url "acme" "widgets" "main";
   raw_url "acme" "widgets" "main" "EMPTY.md";
   raw_url "acme" "widgets" "main" "README.MD";
   raw_url "acme" "widgets" "main" "docs/guide.md"].

End FetcherMore.

Module SummarizerMore.
Import PyStr AiSummarizer SummarizerSpec.

(** A client with a log: it answers as [chat_create] does and records
    every prompt it is called with. *)
Definition logged {client : Type}
    (chat_create : client -> string -> option string * client)
    (st : client * list string) (prompt : string)
  : option string * (client * list string) :=
  let '(c, log) := st in
  let '(answer, c') := chat_create c prompt in
  (answer, (c', list_append log prompt)).

(** A client without state: its answer depends on the prompt only. *)
Definition stateless (answer : string -> option string) (c : unit)
    (prompt : string) : option string * unit :=
  (answer prompt, c).

(** The summary of one file under a client without state. *)
Definition single_summary (py_repr : list string -> string)
    (answer : string -> option string) (image_files : option (list string))
    (path content : string) : string :=
  match answer (prompt_for py_repr path content image_files) with
  | Some a =>
      model_summary a (has_images (related_images (dirname path) image_files))
  | None => fallback_summary path
  end.

(** An answer function that summarizes guides only. *)
Definition guides_only (prompt : string) : option string :=
  if contains "File: docs/" prompt then Some " A guide. " else None.

End SummarizerMore.

Module HtmlMore.
Import PyStr HtmlBuilder HtmlSpec.

(** The two keyword tests of the gallery loop. *)
Definition is_architecture (img_path : string) : bool :=
  contains_any ["architecture"; "diagram"; "flow"; "design"] (lower img_path).

Definition is_screenshot (img_path : string) : bool :=
  contains_any ["screenshot"; "screen"; "demo"] (lower img_path).

(** The files of a grouping, category after category. *)
Definition flat_files (organized : Dict.t (Dict.t string))
  : list (string * string) :=
  concat (map snd organized).

(** The items of a list with their numbers, counted from [start]. *)
Definition numbered {A : Type} (start : nat) (l : list A) : list (nat * A) :=
  combine (seq start (List.length l)) l.

Definition section_id_of (i : nat) : string := "section-" ++ str_of_nat i.

(** The sections of [files], the first one numbered [start]. *)
Definition numbered_sections (owner repo_name : string) (start : nat)
    (files : list (string * string)) : list string :=
  map (fun entry =>
         create_file_section (fst (snd entry)) (snd (snd entry))
                             (section_id_of (fst entry)) None owner repo_name)
      (numbered start files).

(** The TOC entry that links to the section numbered [i]. *)
Definition toc_link (i : nat) (file_path : string) : string :=
  "<li><a href=" ++ dq ++ "#" ++ section_id_of i ++ dq ++ ">"
  ++ basename file_path ++ "</a></li>".

Definition numbered_toc (start : nat) (files : list (string * string))
  : list string :=
  map (fun entry => toc_link (fst entry) (fst (snd entry)))
      (numbered start files).

(** A TOC item that is a link to a section, not a category header. *)
Definition is_toc_link (item : string) : bool :=
  startswith item "<li><a href=".

(** [c] does not occur in [s]. *)
Fixpoint lacks (c : ascii) (s : string) : bool :=
  match s with
  | EmptyString => true
  | String a t => negb (Ascii.eqb a c) && lacks c t
  end.

(** A path without the characters that end a group of the link pattern
    or a paragraph: no bracket, no closing parenthesis, no line feed. *)
Definition plain_path (path : string) : bool :=
  lacks "[" path && lacks "]" path && lacks ")" path && lacks "010" path.

(** The block a reference paragraph with a link is rendered as. *)
Definition reference_block (owner repo_name file_name file_path : string)
  : string :=
  "<div class=" ++ dq ++ "reference" ++ dq ++ ">"
  ++ "For full details, refer to: <a href=" ++ dq
  ++ blob_url owner repo_name file_path ++ dq
  ++ " target=" ++ dq ++ "_blank" ++ dq ++ " class=" ++ dq ++ "file-link" ++ dq
  ++ ">" ++ file_name ++ "</a>" ++ "</div>".

(** The text of the image note, and the block it is rendered as. *)
Definition note_text : string :=
  "Note: This section includes images/diagrams for improved understanding.".

Definition note_block : string :=
  "<div class=" ++ dq ++ "note" ++ dq ++ ">" ++ note_text ++ "</div>".

(** What the split of a text that ends with the image note looks like:
    two paragraphs or more, the last one being the note, after a line
    feed at most. *)
Definition ends_with_note_paragraph (s : string) : Prop :=
  exists first middle last,
    split_blank_line s = (first :: middle ++ [last])%list
    /\ (last = note_text \/ last = nl ++ note_text).

End HtmlMore.

Module AppSpec.
Import PyStr App.

(** One event of a session: the widgets write their keys, or one of the
    three buttons runs its callback, against any network, client, clock
    and PDF service. *)
Inductive step : Session -> Session -> Prop :=
| StepInputs (s : Session) (repo author company : option string) :
    step s (set_inputs s repo author company)
| StepFetch (urlparse_path : string -> string)
    (requests_get : string -> RepoFetcher.exn + RepoFetcher.Response)
    (exn_text : RepoFetcher.exn -> string) (s : Session) (tr : list string) :
    step s (fst (do_fetch urlparse_path requests_get exn_text s tr))
| StepSummarize (py_repr : list string -> string) (client : Type)
    (chat_create : client -> string -> option string * client)
    (new_client : string + client) (s : Session) :
    step s (do_summarize py_repr client chat_create new_client s)
| StepGenerate (current_date : string)
    (requests_post : string -> string -> string -> post_outcome)
    (s : Session) :
    step s (do_generate_html current_date requests_post s).

(** The sessions that events lead to from the initial one. *)
Inductive reachable : Session -> Prop :=
| ReachInitial : reachable initial_session
| ReachStep (s s' : Session) : reachable s -> step s s' -> reachable s'.

(** The fetched data are all there or all absent, and the image list of
    [repo_meta] is the fetched one. *)
Definition fetched_together (s : Session) : Prop :=
  match st_markdown_files s, st_image_files s, st_repo_meta s with
  | None, None, None => True
  | Some _, Some imgs, Some meta => meta_image_files meta = imgs
  | _, _, _ => False
  end.

Definition session_invariant (s : Session) : Prop :=
  fetched_together s
  /\ (st_fetch_error s <> None -> st_markdown_files s = None)
  /\ (st_summary_error s <> None -> st_summaries s = None)
  /\ (st_pdf_content s <> None -> st_html_content s <> None)
  /\ st_html_error s = None.

(** A session in which the address of [acme/widgets] was typed. *)
Definition typed_session : Session :=
  set_inputs initial_session (Some "https://github.com/acme/widgets")
             (Some "Riddhi Shah") (Some "Bazel Inc.").

(** [str(e)], in short. *)
Definition short_exn_text (e : RepoFetcher.exn) : string :=
  match e with
  | RepoFetcher.ValueError msg => msg
  | RepoFetcher.HTTPError status => str_of_nat status
  | RepoFetcher.ConnectionError => "connection error"
  end.

(** A session after a fetch and a summarization. *)
Definition summarized_session : Session :=
  mkSession (Some "https://github.com/acme/widgets") None None
            (Some [("docs/setup_guide.md", "# Setup")]) (Some [])
            (Some (mkMeta "widgets" "acme" "develop" []))
            (Some HtmlSpec.sample_summaries) None None None None
            (Some "%PDF of an earlier run").

(** A PDF service that is not running. *)
Definition no_pdf_service (url html file_name : string) : post_outcome :=
  PostConnectionError.

End AppSpec.

(* ===================================================================== *)
(** * Properties *)
(* ===================================================================== *)

(** ** Dictionaries *)

Module DictFacts.
Import Dict.

Section Facts.
Context {V : Type}.
Implicit Types (d : Dict.t V) (k : string) (v : V).

Lemma get_set_same k v d : get k (set k v d) = Some v.
Proof.
  induction d as [|[k' v'] r IH]; simpl.
  - now rewrite String.eqb_refl.
  - destruct (k' =? k) eqn:E; simpl.
    + now rewrite String.eqb_refl.
    + now rewrite E.
Qed.

Lemma get_set_other k k' v d : k <> k' -> get k (set k' v d) = get k d.
Proof.
  intros Hne. induction d as [|[k0 v0] r IH]; simpl.
  - destruct (k' =? k) eqn:E; [apply String.eqb_eq in E; congruence | reflexivity].
  - destruct (k0 =? k') eqn:E; simpl.
    + apply String.eqb_eq in E. subst k0.
      destruct (k' =? k) eqn:E'; [apply String.eqb_eq in E'; congruence | reflexivity].
    + now rewrite IH.
Qed.

Lemma keys_set_in k k' v d :
  In k (keys (set k' v d)) <-> k = k' \/ In k (keys d).
Proof.
  unfold keys. induction d as [|[k0 v0] r IH]; simpl.
  - intuition.
  - destruct (k0 =? k') eqn:E; simpl.
    + apply String.eqb_eq in E. subst k0. intuition.
    + rewrite IH. intuition.
Qed.

Lemma keys_set_present k v d : In k (keys d) -> keys (set k v d) = keys d.
Proof.
  unfold keys. induction d as [|[k0 v0] r IH]; simpl; intros H.
  - contradiction.
  - destruct (k0 =? k) eqn:E; simpl.
    + apply String.eqb_eq in E. now subst.
    + f_equal. apply IH. destruct H as [H|H]; [|exact H].
      apply String.eqb_neq in E. congruence.
Qed.

Lemma keys_set_fresh k v d :
  ~ In k (keys d) -> keys (set k v d) = list_append (keys d) k.
Proof.
  unfold keys, list_append. induction d as [|[k0 v0] r IH]; simpl; intros H.
  - reflexivity.
  - destruct (k0 =? k) eqn:E; simpl.
    + apply String.eqb_eq in E. subst. exfalso. apply H. now left.
    + f_equal. apply IH. intros Hin. apply H. now right.
Qed.

Lemma keys_set_nodup k v d : NoDup (keys d) -> NoDup (keys (set k v d)).
Proof.
  intros Hnd. destruct (in_dec string_dec k (keys d)) as [Hin|Hout].
  - now rewrite keys_set_present.
  - rewrite keys_set_fresh by assumption. unfold list_append.
    apply NoDup_app; [exact Hnd | repeat constructor; intros [] | ].
    intros x Hx [Hk|[]]. subst. contradiction.
Qed.

Lemma get_some_in_keys k v d : get k d = Some v -> In k (keys d).
Proof.
  unfold keys. induction d as [|[k0 v0] r IH]; simpl; [discriminate|].
  destruct (k0 =? k) eqn:E.
  - apply String.eqb_eq in E. now left.
  - intros H. right. now apply IH.
Qed.

Lemma in_keys_get k d : In k (keys d) -> exists v, get k d = Some v.
Proof.
  unfold keys. induction d as [|[k0 v0] r IH]; simpl; [contradiction|].
  intros [H|H].
  - subst. rewrite String.eqb_refl. now exists v0.
  - destruct (k0 =? k); [now exists v0 | now apply IH].
Qed.

Lemma get_none_not_in k d : get k d = None -> ~ In k (keys d).
Proof.
  intros Hg Hin. apply in_keys_get in Hin. destruct Hin as [v Hv]. congruence.
Qed.
End Facts.

End DictFacts.

(** ** Strings *)

Module StrFacts.
Import PyStr.

Lemma append_assoc (a b c : string) : (a ++ b) ++ c = a ++ (b ++ c).
Proof. induction a as [|x a IH]; simpl; [reflexivity | now rewrite IH]. Qed.

Lemma append_nil_r (a : string) : a ++ "" = a.
Proof. induction a as [|x a IH]; simpl; [reflexivity | now rewrite IH]. Qed.

Lemma length_append (a b : string) :
  String.length (a ++ b) = String.length a + String.length b.
Proof. induction a as [|x a IH]; simpl; [reflexivity | now rewrite IH]. Qed.

Lemma substring_all (s : string) : substring 0 (String.length s) s = s.
Proof. induction s as [|x s IH]; simpl; [reflexivity | now rewrite IH]. Qed.

Lemma substring_skip_append (a b : string) (m : nat) :
  substring (String.length a) m (a ++ b) = substring 0 m b.
Proof. induction a as [|x a IH]; simpl; [reflexivity | exact IH]. Qed.

Lemma substring_length (n : nat) (s : string) :
  n <= String.length s -> String.length (substring 0 n s) = n.
Proof.
  revert s. induction n as [|n IH]; intros s H.
  - now destruct s.
  - destruct s as [|x s]; simpl in *; [lia|]. rewrite IH; [reflexivity | lia].
Qed.

(** A string built by appending [b] ends with [b]. *)
Lemma endswith_append (a b : string) : endswith (a ++ b) b = true.
Proof.
  unfold endswith. rewrite length_append.
  replace (String.length a + String.length b - String.length b)
    with (String.length a) by lia.
  rewrite substring_skip_append, substring_all, String.eqb_refl.
  rewrite andb_true_r. apply Nat.leb_le. lia.
Qed.

(** Every string starts with the empty string. *)
Lemma startswith_empty (s : string) : startswith s "" = true.
Proof. unfold startswith. now destruct s. Qed.

(** Cutting a chain of appended strings at one of its links. *)
Lemma cut_here (x : string) : x = "" ++ x.
Proof. reflexivity. Qed.

Lemma cut_later (a x pre y : string) : x = pre ++ y -> a ++ x = (a ++ pre) ++ y.
Proof. intros ->. now rewrite append_assoc. Qed.

Ltac cut_chain :=
  first [ exact (cut_here _) | eapply cut_later; cut_chain ].

End StrFacts.

(** ** The summarizer *)

Module SummarizerFacts.
Import PyStr AiSummarizer SummarizerSpec.


Section Facts.
Variable py_repr : list string -> string.
Variable client : Type.
Variable chat_create : client -> string -> option string * client.

Local Abbreviation retry := (retry_loop client chat_create).
Local Abbreviation step := (summarize_file py_repr client chat_create).

(** The first attempt answers. *)
Lemma retry_first_success path prompt wi summaries c content c' :
  chat_create c prompt = (Some content, c') ->
  retry max_retries 0 path prompt wi summaries c
  = (Dict.set path (model_summary content wi) summaries, c').
Proof. intros H. simpl. rewrite H. unfold model_summary. now destruct wi. Qed.

(** The first attempt raises and the second answers. *)
Lemma retry_second_success path prompt wi summaries c c1 content c2 :
  chat_create c prompt = (None, c1) ->
  chat_create c1 prompt = (Some content, c2) ->
  retry max_retries 0 path prompt wi summaries c
  = (Dict.set path (model_summary content wi) summaries, c2).
Proof.
  intros H1 H2. simpl. rewrite H1. simpl. rewrite H2.
  unfold model_summary. now destruct wi.
Qed.

(** Both attempts raise: the fallback text, without the image note. *)
Lemma retry_all_fail path prompt wi summaries c c1 c2 :
  chat_create c prompt = (None, c1) ->
  chat_create c1 prompt = (None, c2) ->
  retry max_retries 0 path prompt wi summaries c
  = (Dict.set path (fallback_summary path) summaries, c2).
Proof. intros H1 H2. simpl. rewrite H1. simpl. now rewrite H2. Qed.

(** The loop always stores one text under [path]. *)
Lemma retry_stores path prompt wi summaries c :
  exists v c',
    retry max_retries 0 path prompt wi summaries c
    = (Dict.set path v summaries, c') /\
    (v = fallback_summary path \/ exists content, v = model_summary content wi).
Proof.
  destruct (chat_create c prompt) as [[content|] c1] eqn:H1.
  - exists (model_summary content wi), c1. split.
    + now apply retry_first_success.
    + right. now exists content.
  - destruct (chat_create c1 prompt) as [[content|] c2] eqn:H2.
    + exists (model_summary content wi), c2. split.
      * now apply retry_second_success with (c1 := c1).
      * right. now exists content.
    + exists (fallback_summary path), c2. split.
      * now apply retry_all_fail with (c1 := c1).
      * now left.
Qed.

(** More fuel than [max_retries] changes nothing: the loop has ended. *)
Lemma retry_fuel_enough extra path prompt wi summaries c :
  retry (max_retries + extra) 0 path prompt wi summaries c
  = retry max_retries 0 path prompt wi summaries c.
Proof.
  simpl. destruct (chat_create c prompt) as [[content|] c1]; [reflexivity|].
  simpl. destruct (chat_create c1 prompt) as [[content|] c2]; reflexivity.
Qed.

Lemma step_stores imgs summaries c path content :
  exists v c',
    step imgs (summaries, c) (path, content) = (Dict.set path v summaries, c')
    /\ summary_outcome imgs path v.
Proof.
  unfold summarize_file, summary_outcome. apply retry_stores.
Qed.

(** The prompt handed to the client for a file is [prompt_for]. *)
Lemma step_prompt imgs summaries c path content :
  step imgs (summaries, c) (path, content)
  = retry max_retries 0 path (prompt_for py_repr path content imgs)
          (has_images (related_images (dirname path) imgs)) summaries c.
Proof. reflexivity. Qed.

(** Invariant of the loop over the files. *)
Lemma fold_step_keys imgs files : forall acc k,
  In k (Dict.keys (fst (fold_left (step imgs) files acc)))
  <-> In k (Dict.keys (fst acc)) \/ In k (Dict.keys files).
Proof.
  induction files as [|[path content] rest IH]; intros [summaries c] k;
    cbn [fold_left].
  - simpl. intuition.
  - destruct (step_stores imgs summaries c path content) as (v & c' & E & _).
    rewrite E, IH. simpl. rewrite DictFacts.keys_set_in. intuition.
Qed.



End Facts.

(** With an empty directory prefix the filter keeps every image. *)
Lemma related_images_root (images : list string) :
  related_images "" (Some images) = images.
Proof.
  unfold related_images. destruct images as [|i r]; [reflexivity|].
  assert (H : forall l, filter (fun img => startswith img "") l = l).
  { induction l as [|x l IH]; simpl; [reflexivity|].
    rewrite StrFacts.startswith_empty. now rewrite IH. }
  exact (H (i :: r)).
Qed.

End SummarizerFacts.

(** *** A file's summary, by the outcome of its two attempts *)

Module AttemptFacts.
Import PyStr AiSummarizer SummarizerSpec SummarizerFacts.

(** A string splits at any position within its length. *)
Lemma substring_split (n : nat) : forall s : string,
  n <= String.length s ->
  s = substring 0 n s ++ substring n (String.length s - n) s.
Proof.
  induction n as [|n IH]; intros s H.
  - rewrite Nat.sub_0_r, StrFacts.substring_all. now destruct s.
  - destruct s as [|a t]; simpl in H; [lia|]. simpl.
    f_equal. apply IH. lia.
Qed.

(** [endswith] is sound: the string is some prefix followed by the
    suffix. *)
Lemma endswith_true (s suf : string) :
  endswith s suf = true -> exists pre, s = pre ++ suf.
Proof.
  unfold endswith. intros H. apply andb_true_iff in H.
  destruct H as [Hlen Heq].
  apply Nat.leb_le in Hlen. apply String.eqb_eq in Heq.
  exists (substring 0 (String.length s - String.length suf) s).
  pose proof (substring_split (String.length s - String.length suf) s) as Hs.
  replace (String.length s - (String.length s - String.length suf))
    with (String.length suf) in Hs by lia.
  rewrite Heq in Hs. apply Hs. lia.
Qed.

(** Equal strings have the same last character. *)
Lemma last_char_inj (a b : string) (x y : ascii) :
  a ++ String x "" = b ++ String y "" -> x = y.
Proof.
  revert b. induction a as [|c a IH]; intros [|d b] H; simpl in H.
  - now injection H.
  - injection H as _ H. destruct b; discriminate.
  - injection H as _ H. destruct a; discriminate.
  - injection H as _ H. now apply IH in H.
Qed.

(** The fallback text ends with a closing parenthesis, the image note
    with a full stop: the fallback text of no path ends with the note. *)
Lemma fallback_lacks_note (path : string) :
  endswith (fallback_summary path) image_note = false.
Proof.
  destruct (endswith (fallback_summary path) image_note) eqn:E;
    [|reflexivity].
  apply endswith_true in E. destruct E as [pre E].
  unfold fallback_summary, image_note in E. exfalso.
  assert (H : ")"%char = "."%char); [|discriminate H].
  apply (last_char_inj
           ("Documentation file: " ++ basename path
            ++ ". For full details, refer to: [" ++ basename path
            ++ "](" ++ path)
           (pre ++ nl ++ nl
            ++ "Note: This section includes images/diagrams for improved understanding")).
  repeat rewrite StrFacts.append_assoc. exact E.
Qed.

Section Attempts.
Variable py_repr : list string -> string.
Variable client : Type.
Variable chat_create : client -> string -> option string * client.

Local Abbreviation retry := (retry_loop client chat_create).
Local Abbreviation step := (summarize_file py_repr client chat_create).
Local Abbreviation summarize :=
  (summarize_markdown_files py_repr client chat_create).

(** Files with another path leave the entry of [path] as it is. *)
Lemma fold_step_get_other imgs files : forall acc path,
  ~ In path (Dict.keys files) ->
  Dict.get path (fst (fold_left (step imgs) files acc))
  = Dict.get path (fst acc).
Proof.
  induction files as [|[p content] rest IH]; intros [summaries c] path Hnot;
    cbn [fold_left].
  - reflexivity.
  - destruct (step_stores py_repr client chat_create imgs summaries c
                p content) as (v & c' & E & _).
    rewrite E, IH.
    + simpl. apply DictFacts.get_set_other. intros ->. apply Hnot. now left.
    + intros Hin. apply Hnot. now right.
Qed.

(** The entry of [path] after the whole run is the one written by the
    retry loop of [path], started on the summaries and the client left by
    the files before it. *)
Lemma summarize_at c before path content after imgs :
  ~ In path (Dict.keys after) ->
  Dict.get path
    (fst (summarize c (before ++ (path, content) :: after)%list imgs))
  = Dict.get path
      (fst (retry max_retries 0 path (prompt_for py_repr path content imgs)
              (has_images (related_images (dirname path) imgs))
              (fst (summarize c before imgs))
              (snd (summarize c before imgs)))).
Proof.
  intros Hnot. unfold summarize_markdown_files.
  rewrite fold_left_app. cbn [fold_left].
  rewrite fold_step_get_other by exact Hnot.
  destruct (fold_left (step imgs) before ([], c)) as [s0 c0].
  now rewrite step_prompt.
Qed.

(** The stored text of a file, by the outcome of its attempts: the text
    made from the answer of the first attempt that answers, the fallback
    text when both raise. *)
Lemma stored_by_attempts c before path content after imgs :
  ~ In path (Dict.keys after) ->
  let summaries :=
    fst (summarize c (before ++ (path, content) :: after)%list imgs) in
  let c0 := snd (summarize c before imgs) in
  let prompt := prompt_for py_repr path content imgs in
  let wi := has_images (related_images (dirname path) imgs) in
  (forall a c1,
      chat_create c0 prompt = (Some a, c1) ->
      Dict.get path summaries = Some (model_summary a wi))
  /\ (forall c1 a c2,
      chat_create c0 prompt = (None, c1) ->
      chat_create c1 prompt = (Some a, c2) ->
      Dict.get path summaries = Some (model_summary a wi))
  /\ (forall c1 c2,
      chat_create c0 prompt = (None, c1) ->
      chat_create c1 prompt = (None, c2) ->
      Dict.get path summaries = Some (fallback_summary path)).
Proof.
  intros Hnot summaries c0 prompt wi. subst summaries.
  rewrite (summarize_at c before path content after imgs Hnot).
  fold c0 prompt wi. repeat split.
  - intros a c1 H1.
    rewrite (retry_first_success client chat_create _ _ wi _ _ _ _ H1).
    apply DictFacts.get_set_same.
  - intros c1 a c2 H1 H2.
    rewrite (retry_second_success client chat_create _ _ wi _ _ _ _ _ H1 H2).
    apply DictFacts.get_set_same.
  - intros c1 c2 H1 H2.
    rewrite (retry_all_fail client chat_create _ _ wi _ _ _ _ H1 H2).
    apply DictFacts.get_set_same.
Qed.

(** With a related image the text made from an answer is the stripped
    answer followed by the note. *)
Lemma model_summary_noted imgs path a :
  related_images (dirname path) imgs <> [] ->
  model_summary a (has_images (related_images (dirname path) imgs))
  = strip a ++ image_note.
Proof.
  intros Hrel. unfold model_summary, has_images.
  destruct (related_images (dirname path) imgs); [congruence|reflexivity].
Qed.

(** Without an image list the text made from an answer is the stripped
    answer. *)
Lemma model_summary_plain imgs path a :
  imgs = None \/ imgs = Some [] ->
  model_summary a (has_images (related_images (dirname path) imgs))
  = strip a.
Proof. intros [->| ->]; reflexivity. Qed.

End Attempts.

End AttemptFacts.

Section SummarizerClaims.
Import PyStr AiSummarizer SummarizerSpec SummarizerFacts AttemptFacts.
Variable py_repr : list string -> string.
Variable client : Type.
Variable chat_create : client -> string -> option string * client.

Local Abbreviation summarize := (summarize_markdown_files py_repr client chat_create).


(** C4. The content placed in the prompt of a file: its first 3000
    characters followed by the truncation marker when it is longer than
    3000 characters, the content itself otherwise. The rest of the prompt
    does not depend on the content. *)
Theorem prompt_content_truncated :
  forall (path : string) (image_files : option (list string)),
  exists header : string,
    forall content : string,
      (content_budget < String.length content ->
       prompt_for py_repr path content image_files
       = header ++ (substring 0 3000 content ++ truncation_marker) ++ nl
       /\ String.length (substring 0 3000 content) = 3000)
      /\ (String.length content <= content_budget ->
          prompt_for py_repr path content image_files
          = header ++ content ++ nl).
Proof.
  intros path imgs. eexists. intros content.
  unfold prompt_for, build_prompt, truncate_content, content_budget.
  split; intros H.
  - apply Nat.ltb_lt in H. rewrite H. split.
    + StrFacts.cut_chain.
    + apply StrFacts.substring_length. apply Nat.ltb_lt in H. lia.
  - apply Nat.ltb_ge in H. rewrite H.
    repeat rewrite StrFacts.append_assoc. reflexivity.
Qed.

(** C5, as the code has it. Take a file [path] of the input that has at
    least one related image, the files [before] it and the files [after]
    it (none of which has its path), and the client as the files before
    have left it. If the first attempt answers [a], or the first raises
    and the second answers [a], the summary stored for [path] is [a]
    stripped followed by the image note, and it ends with the note. If
    both attempts raise, the summary stored is the fallback text, which
    does not end with the note. *)
Theorem image_note_on_model_summaries :
  forall (c : client) (before after : Dict.t string) (path content : string)
         (image_files : option (list string)),
    ~ In path (Dict.keys after) ->
    related_images (dirname path) image_files <> [] ->
    let summaries :=
      fst (summarize c (before ++ (path, content) :: after)%list image_files) in
    let c0 := snd (summarize c before image_files) in
    let prompt := prompt_for py_repr path content image_files in
    (forall a c1,
        chat_create c0 prompt = (Some a, c1) ->
        Dict.get path summaries = Some (strip a ++ image_note)
        /\ endswith (strip a ++ image_note) image_note = true)
    /\ (forall c1 a c2,
        chat_create c0 prompt = (None, c1) ->
        chat_create c1 prompt = (Some a, c2) ->
        Dict.get path summaries = Some (strip a ++ image_note)
        /\ endswith (strip a ++ image_note) image_note = true)
    /\ (forall c1 c2,
        chat_create c0 prompt = (None, c1) ->
        chat_create c1 prompt = (None, c2) ->
        Dict.get path summaries = Some (fallback_summary path)
        /\ endswith (fallback_summary path) image_note = false).
Proof.
  intros c before after path content imgs Hnot Hrel summaries c0 prompt.
  destruct (stored_by_attempts py_repr client chat_create
              c before path content after imgs Hnot) as (H1 & H2 & H3).
  fold summaries c0 prompt in H1, H2, H3.
  repeat split.
  - rewrite <- (model_summary_noted imgs path a Hrel). eapply H1; eassumption.
  - apply StrFacts.endswith_append.
  - rewrite <- (model_summary_noted imgs path a Hrel). eapply H2; eassumption.
  - apply StrFacts.endswith_append.
  - eapply H3; eassumption.
  - apply fallback_lacks_note.
Qed.

(** C9, as the code has it. For a file [path] at the root of the
    repository every image of the list is a related image. When the list
    is not empty, and [path] is a file of the input with the files
    [before] and [after] it: if the first attempt answers [a], or the
    first raises and the second answers [a], the summary stored for
    [path] is [a] stripped followed by the image note; if both attempts
    raise, it is the fallback text, which does not end with the note. *)
Theorem root_file_relates_every_image :
  forall (images : list string) (path : string),
    dirname path = "" ->
    related_images (dirname path) (Some images) = images
    /\ (images <> [] ->
        forall (c : client) (before after : Dict.t string) (content : string),
          ~ In path (Dict.keys after) ->
          let summaries :=
            fst (summarize c (before ++ (path, content) :: after)%list
                   (Some images)) in
          let c0 := snd (summarize c before (Some images)) in
          let prompt := prompt_for py_repr path content (Some images) in
          (forall a c1,
              chat_create c0 prompt = (Some a, c1) ->
              Dict.get path summaries = Some (strip a ++ image_note)
              /\ endswith (strip a ++ image_note) image_note = true)
          /\ (forall c1 a c2,
              chat_create c0 prompt = (None, c1) ->
              chat_create c1 prompt = (Some a, c2) ->
              Dict.get path summaries = Some (strip a ++ image_note)
              /\ endswith (strip a ++ image_note) image_note = true)
          /\ (forall c1 c2,
              chat_create c0 prompt = (None, c1) ->
              chat_create c1 prompt = (None, c2) ->
              Dict.get path summaries = Some (fallback_summary path)
              /\ endswith (fallback_summary path) image_note = false)).
Proof.
  intros images path Hroot.
  assert (Hrel : related_images (dirname path) (Some images) = images).
  { rewrite Hroot. apply related_images_root. }
  split; [exact Hrel|].
  intros Hne c before after content Hnot summaries c0 prompt.
  assert (Hrel' : related_images (dirname path) (Some images) <> [])
    by now rewrite Hrel.
  destruct (stored_by_attempts py_repr client chat_create
              c before path content after (Some images) Hnot)
    as (H1 & H2 & H3).
  fold summaries c0 prompt in H1, H2, H3.
  repeat split.
  - rewrite <- (model_summary_noted (Some images) path a Hrel').
    eapply H1; eassumption.
  - apply StrFacts.endswith_append.
  - rewrite <- (model_summary_noted (Some images) path a Hrel').
    eapply H2; eassumption.
  - apply StrFacts.endswith_append.
  - eapply H3; eassumption.
  - apply fallback_lacks_note.
Qed.
End SummarizerClaims.

(** *** Runs of the summarizer on concrete inputs *)

Module SummarizerRuns.
Import PyStr AiSummarizer SummarizerSpec SummarizerFacts.



Lemma prompt_content_truncated_witness :
  exists header,
    prompt_for plain_repr "docs/big.md" long_content None
    = header ++ (substring 0 3000 long_content ++ truncation_marker) ++ nl
    /\ prompt_for plain_repr "docs/big.md" "short" None
       = header ++ "short" ++ nl.
Proof.
  destruct (prompt_content_truncated plain_repr "docs/big.md" None) as [h H].
  exists h. split.
  - apply (H long_content). vm_compute. apply le_n.
  - apply (H "short"). vm_compute. repeat constructor.
Defined.

(** C5 fails on the fallback path: the file has a related image, both
    attempts raise, and the stored text is the fallback text, which does
    not end with the image note. *)
Lemma fallback_summary_lacks_image_note :
  related_images (dirname "docs/guide.md") (Some ["docs/flow.png"])
  = ["docs/flow.png"]
  /\ Dict.get "docs/guide.md"
       (fst (summarize_markdown_files plain_repr unit failing_client tt
               [("docs/guide.md", "# Guide")] (Some ["docs/flow.png"])))
     = Some (fallback_summary "docs/guide.md")
  /\ endswith (fallback_summary "docs/guide.md") image_note = false.
Proof. vm_compute. repeat split. Qed.

(** The first file uses up the one failure of the client; the attempt
    for the second file, which has a related image, answers at once. *)
Lemma image_note_on_model_summaries_witness :
  Dict.get "docs/guide.md"
    (fst (summarize_markdown_files plain_repr nat (flaky_client "  Overview. ") 1
            [("README.md", "# Hi"); ("docs/guide.md", "Guide");
             ("docs/more.md", "More")]
            (Some ["docs/flow.png"])))
  = Some ("Overview." ++ image_note)
  /\ endswith ("Overview." ++ image_note) image_note = true.
Proof.
  destruct (image_note_on_model_summaries plain_repr nat
              (flaky_client "  Overview. ") 1
              [("README.md", "# Hi")] [("docs/more.md", "More")]
              "docs/guide.md" "Guide" (Some ["docs/flow.png"]))
    as (H1 & _ & _).
  - simpl. intuition discriminate.
  - vm_compute. discriminate.
  - apply (H1 "  Overview. " 0). vm_compute. reflexivity.
Defined.

(** C9 fails on the fallback path: a file at the root, one image in the
    repository, both attempts raise, and the stored text has no note. *)
Lemma root_file_fallback_lacks_image_note :
  dirname "README.md" = ""
  /\ related_images (dirname "README.md") (Some ["assets/logo.png"])
     = ["assets/logo.png"]
  /\ Dict.get "README.md"
       (fst (summarize_markdown_files plain_repr unit failing_client tt
               [("README.md", "# Project")] (Some ["assets/logo.png"])))
     = Some (fallback_summary "README.md")
  /\ endswith (fallback_summary "README.md") image_note = false.
Proof. vm_compute. repeat split. Qed.

(** The first attempt for the root file raises, the second answers. *)
Lemma root_file_relates_every_image_witness :
  related_images (dirname "README.md") (Some ["assets/logo.png"; "docs/a.png"])
  = ["assets/logo.png"; "docs/a.png"]
  /\ Dict.get "README.md"
       (fst (summarize_markdown_files plain_repr nat
               (flaky_client "  Overview. ") 1
               [("README.md", "# Project"); ("docs/guide.md", "Guide")]
               (Some ["assets/logo.png"; "docs/a.png"])))
     = Some ("Overview." ++ image_note).
Proof.
  destruct (root_file_relates_every_image plain_repr nat
              (flaky_client "  Overview. ")
              ["assets/logo.png"; "docs/a.png"] "README.md")
    as [Hrel Hnote].
  - vm_compute. reflexivity.
  - split; [exact Hrel|].
    destruct (Hnote ltac:(discriminate) 1 [] [("docs/guide.md", "Guide")]
                "# Project") as (_ & H2 & _).
    + simpl. intuition discriminate.
    + apply (H2 0 "  Overview. " 0); vm_compute; reflexivity.
Defined.

End SummarizerRuns.

(** ** The fetcher *)


Module FetcherFacts.
Import PyStr RepoFetcher FetcherSpec.

Local Abbreviation seg := (split_char "/").

Lemma split_char_cons c s : exists h r, split_char c s = h :: r.
Proof.
  induction s as [|a t (h & r & IH)]; simpl.
  - now exists "", [].
  - destruct (Ascii.eqb a c); [now exists "", (split_char c t)|].
    rewrite IH. now exists (String a h), r.
Qed.

Lemma seg_cons a t :
  seg (String a t)
  = if is_slash a then "" :: seg t
    else match seg t with
         | h :: r => String a h :: r
         | [] => [String a ""]
         end.
Proof. reflexivity. Qed.

Lemma rstrip_cons p a t :
  rstrip_by p (String a t)
  = match rstrip_by p t with
    | EmptyString => if p a then "" else String a ""
    | t' => String a t'
    end.
Proof. reflexivity. Qed.

(** Leading slashes only add empty segments. *)
Lemma segments_lstrip s :
  filter truthy (seg (lstrip_by is_slash s)) = filter truthy (seg s).
Proof.
  induction s as [|a t IH]; [reflexivity|].
  rewrite seg_cons. cbn [lstrip_by].
  destruct (is_slash a) eqn:E.
  - exact IH.
  - now rewrite seg_cons, E.
Qed.

(** Trailing slashes only add empty segments, and leave the first
    segment as it is. *)
Lemma segments_rstrip_head s :
  forall h r, seg s = h :: r ->
  exists r', seg (rstrip_by is_slash s) = h :: r'
             /\ filter truthy r' = filter truthy r.
Proof.
  induction s as [|a t IH]; intros h r H.
  - simpl in H. injection H as <- <-. now exists [].
  - destruct (split_char_cons "/" t) as (h0 & r0 & E0).
    destruct (IH h0 r0 E0) as (r0' & E0' & Hf).
    rewrite seg_cons, E0 in H. rewrite rstrip_cons.
    destruct (rstrip_by is_slash t) as [|b u] eqn:Er.
    + simpl in E0'. injection E0' as <- <-.
      destruct (is_slash a) eqn:Ea; injection H as <- <-.
      * exists []. split; [reflexivity|]. simpl in *. now rewrite <- Hf.
      * exists []. split; [now rewrite seg_cons, Ea | now rewrite <- Hf].
    + rewrite seg_cons, E0'.
      destruct (is_slash a) eqn:Ea; injection H as <- <-.
      * exists (h0 :: r0'). split; [reflexivity|]. simpl. now rewrite Hf.
      * exists r0'. split; [reflexivity | exact Hf].
Qed.

Lemma segments_rstrip s :
  filter truthy (seg (rstrip_by is_slash s)) = filter truthy (seg s).
Proof.
  destruct (split_char_cons "/" s) as (h & r & E).
  destruct (segments_rstrip_head s h r E) as (r' & E' & Hf).
  rewrite E, E'. simpl. now rewrite Hf.
Qed.

Lemma segments_strip s :
  filter truthy (seg (strip_by is_slash s)) = nonempty_segments s.
Proof.
  unfold strip_by, nonempty_segments. now rewrite segments_rstrip, segments_lstrip.
Qed.

(** What [lstrip] returns does not start with a stripped character. *)
Lemma lstrip_head p s c t : lstrip_by p s = String c t -> p c = false.
Proof.
  induction s as [|a u IH]; simpl; [discriminate|].
  destruct (p a) eqn:E; [exact IH|]. intros H. injection H as <- <-. exact E.
Qed.

(** [rstrip] keeps the first character of what it returns. *)
Lemma rstrip_head p s c t :
  rstrip_by p s = String c t -> exists u, s = String c u.
Proof.
  destruct s as [|a u]; simpl; [discriminate|].
  destruct (rstrip_by p u); [destruct (p a); [discriminate|]|];
    intros H; injection H as <- _; now exists u.
Qed.

(** What [rstrip] returns does not end with a slash: its last segment is
    empty only when the whole is. *)
Lemma rstrip_last_segment s :
  last (seg (rstrip_by is_slash s)) "" = "" -> rstrip_by is_slash s = "".
Proof.
  induction s as [|a t IH]; [reflexivity|].
  rewrite rstrip_cons.
  destruct (rstrip_by is_slash t) as [|b u] eqn:Er.
  - destruct (is_slash a) eqn:Ea; [reflexivity|].
    rewrite seg_cons, Ea. simpl. discriminate.
  - intros H. exfalso.
    destruct (split_char_cons "/" (String b u)) as (h & r & E).
    assert (Hl : last (seg (String b u)) "" = "").
    { revert H. rewrite seg_cons, E. destruct (is_slash a).
      - simpl. tauto.
      - destruct r as [|x r]; simpl; [discriminate | tauto]. }
    apply IH in Hl. discriminate.
Qed.

(** After stripping the slashes at both ends, two segments or more mean
    two non-empty segments or more. *)
Lemma stripped_segments_nonempty s :
  2 <= List.length (seg (strip_by is_slash s)) ->
  2 <= List.length (filter truthy (seg (strip_by is_slash s))).
Proof.
  unfold strip_by. set (l := lstrip_by is_slash s).
  destruct (rstrip_by is_slash l) as [|c t] eqn:Eu; [simpl; lia|].
  destruct (rstrip_head _ _ _ _ Eu) as [u El].
  assert (Hc : is_slash c = false) by (eapply lstrip_head; exact El).
  pose proof (rstrip_last_segment l) as Hlast. rewrite Eu in Hlast.
  destruct (split_char_cons "/" t) as (h & r & Et).
  revert Hlast. rewrite seg_cons, Hc, Et.
  destruct r as [|x r]; [simpl; lia|].
  intros Hlast _.
  change (filter truthy (String c h :: x :: r))
    with (String c h :: filter truthy (x :: r)).
  assert (Hin : In (last (x :: r) "") (filter truthy (x :: r))).
  { apply filter_In. split.
    - destruct (exists_last (l := x :: r)) as (l' & y & E); [discriminate|].
      rewrite E, last_last. apply in_or_app. right. now left.
    - unfold truthy. destruct (last (x :: r) "" =? "") eqn:Ee; [|reflexivity].
      apply String.eqb_eq in Ee. exfalso.
      assert (Hd : String c t = "") by (apply Hlast; exact Ee). discriminate. }
  destruct (filter truthy (x :: r)); [contradiction | simpl; lia].
Qed.

(** The guard of [parse_repo_url] fires on every path with fewer than two
    non-empty segments. *)
Lemma few_segments_short_split s :
  List.length (nonempty_segments s) < 2 ->
  List.length (seg (strip_by is_slash s)) < 2.
Proof.
  intros H.
  destruct (le_lt_dec 2 (List.length (seg (strip_by is_slash s)))) as [Hge|Hlt];
    [|exact Hlt].
  apply stripped_segments_nonempty in Hge. rewrite segments_strip in Hge. lia.
Qed.

End FetcherFacts.

Module FetchLoopFacts.
Import PyStr RepoFetcher FetcherSpec.

Section Loop.
Variable requests_get : string -> exn + Response.
Variables owner repo branch : string.

Local Abbreviation item_step := (fetch_item requests_get owner repo branch).
Local Abbreviation loop := (fetch_loop requests_get owner repo branch).
Local Abbreviation collected :=
  (collected_from requests_get owner repo branch).


Lemma markdown_blob_snoc_other seen item path :
  (item_type item = "blob" -> item_path item = path ->
   endswith (lower path) ".md" = true -> False) ->
  markdown_blob (list_append seen item) path <-> markdown_blob seen path.
Proof.
  intros Hno. unfold markdown_blob, list_append. split.
  - intros (it & Hin & Ht & Hp & He). apply in_app_or in Hin.
    destruct Hin as [Hin|[->|[]]]; [now exists it | exfalso; now apply Hno].
  - intros (it & Hin & H). exists it. split; [|exact H].
    apply in_or_app. now left.
Qed.

Lemma markdown_blob_snoc_same seen item :
  item_type item = "blob" ->
  endswith (lower (item_path item)) ".md" = true ->
  markdown_blob (list_append seen item) (item_path item).
Proof.
  intros Ht He. exists item. unfold list_append. repeat split; try assumption.
  apply in_or_app. right. now left.
Qed.

Lemma item_step_collected seen md imgs item tr md' imgs' tr' :
  item_step (md, imgs) item tr = (inr (md', imgs'), tr') ->
  collected seen md -> collected (list_append seen item) md'.
Proof.
  unfold fetch_item. intros Hrun Hinv.
  destruct (item_type item =? "blob") eqn:Eb; simpl in Hrun.
  2:{ injection Hrun as <- <- <-. intros path txt.
      rewrite markdown_blob_snoc_other; [apply Hinv|].
      intros Ht. apply String.eqb_neq in Eb. contradiction. }
  apply String.eqb_eq in Eb.
  destruct (endswith (lower (item_path item)) ".md") eqn:Em.
  2:{ unfold bind, ret in Hrun. injection Hrun as <- <- <-. intros path txt.
      rewrite markdown_blob_snoc_other; [apply Hinv|].
      intros _ Hp He. subst path. congruence. }
  unfold bind, ret, download_raw_file, http_get, bind, ret in Hrun.
  destruct (requests_get (raw_url owner repo branch (item_path item)))
    as [e|resp] eqn:Eget; [discriminate|].
  assert (Hdl : downloaded_text requests_get owner repo branch (item_path item)
                = if (status_code resp =? 200)%nat then Some (text resp) else None).
  { unfold downloaded_text. now rewrite Eget. }
  assert (Hkeep : (forall txt, downloaded_text requests_get owner repo branch
                                 (item_path item) = Some txt -> txt = "") ->
                  collected (list_append seen item) md).
  { intros Hnone path txt. rewrite (Hinv path txt).
    destruct (string_dec (item_path item) path) as [<-|Hne].
    - split; intros (_ & Hd & Hn); exfalso; apply Hn; now apply Hnone.
    - rewrite markdown_blob_snoc_other; [reflexivity|]. intros _ Hp _. contradiction. }
  destruct (status_code resp =? 200)%nat eqn:Es.
  2:{ injection Hrun as <- <- <-. apply Hkeep. intros txt H. congruence. }
  destruct (truthy (text resp)) eqn:Et.
  2:{ injection Hrun as <- <- <-. apply Hkeep. intros txt H.
      rewrite Hdl in H. injection H as <-. unfold truthy in Et.
      apply negb_false_iff in Et. now apply String.eqb_eq in Et. }
  injection Hrun as <- <- <-. intros path txt.
  destruct (string_dec path (item_path item)) as [->|Hne].
  - rewrite DictFacts.get_set_same, Hdl. split.
    + intros H. injection H as <-. split; [|split].
      * now apply markdown_blob_snoc_same.
      * reflexivity.
      * intros Hempty. rewrite Hempty in Et. discriminate.
    + intros (_ & H & _). exact H.
  - rewrite DictFacts.get_set_other by assumption. rewrite (Hinv path txt).
    rewrite markdown_blob_snoc_other; [reflexivity|]. intros _ Hp _. congruence.
Qed.

Lemma item_step_nodup md imgs item tr md' imgs' tr' :
  item_step (md, imgs) item tr = (inr (md', imgs'), tr') ->
  NoDup (Dict.keys md) -> NoDup (Dict.keys md').
Proof.
  unfold fetch_item. intros Hrun Hnd.
  destruct (negb (item_type item =? "blob")); [injection Hrun as <- <- <-; exact Hnd|].
  destruct (endswith (lower (item_path item)) ".md").
  2:{ unfold bind, ret in Hrun. injection Hrun as <- <- <-. exact Hnd. }
  unfold bind, ret, download_raw_file, http_get, bind, ret in Hrun.
  destruct (requests_get (raw_url owner repo branch (item_path item)))
    as [e|resp]; [discriminate|].
  destruct (status_code resp =? 200)%nat;
    [destruct (truthy (text resp))|]; injection Hrun as <- <- <-;
    try exact Hnd. now apply DictFacts.keys_set_nodup.
Qed.

Lemma loop_collected tree : forall seen md imgs tr md' imgs' tr',
  loop tree (md, imgs) tr = (inr (md', imgs'), tr') ->
  collected seen md -> collected (seen ++ tree)%list md'.
Proof.
  induction tree as [|item rest IH]; intros seen md imgs tr md' imgs' tr' Hrun Hinv.
  - injection Hrun as <- <- <-. now rewrite app_nil_r.
  - cbn [fetch_loop] in Hrun. unfold bind at 1 in Hrun.
    destruct (item_step (md, imgs) item tr) as [[e|[md1 imgs1]] tr1] eqn:E1;
      [discriminate|].
    replace (seen ++ item :: rest)%list with (list_append seen item ++ rest)%list
      by (unfold list_append; now rewrite <- app_assoc).
    eapply IH; [exact Hrun|]. eapply item_step_collected; eassumption.
Qed.

Lemma loop_nodup tree : forall md imgs tr md' imgs' tr',
  loop tree (md, imgs) tr = (inr (md', imgs'), tr') ->
  NoDup (Dict.keys md) -> NoDup (Dict.keys md').
Proof.
  induction tree as [|item rest IH]; intros md imgs tr md' imgs' tr' Hrun Hnd.
  - injection Hrun as <- <- <-. exact Hnd.
  - cbn [fetch_loop] in Hrun. unfold bind at 1 in Hrun.
    destruct (item_step (md, imgs) item tr) as [[e|[md1 imgs1]] tr1] eqn:E1;
      [discriminate|].
    eapply IH; [exact Hrun|]. eapply item_step_nodup; eassumption.
Qed.
End Loop.

End FetchLoopFacts.

Section FetcherClaims.
Import PyStr RepoFetcher FetcherSpec FetcherFacts FetchLoopFacts.
Variable urlparse_path : string -> string.
Variable requests_get : string -> exn + Response.

Local Abbreviation fetch := (fetch_repository_docs urlparse_path requests_get).

(** C1, as the code has it. When [fetch_repository_docs] returns, the keys
    of its Markdown mapping are exactly the blobs of the listed tree whose
    path ends in [.md] (whatever the case) and whose download answered
    status 200 with a text that is not empty; each key is mapped to that
    text, and no key occurs twice. *)
Theorem fetched_markdown_is_listed_and_downloaded :
  forall (repo_url : string) (tr tr' : list string) (result : FetchResult),
    fetch repo_url tr = (inr result, tr') ->
    (forall path txt,
        Dict.get path (markdown_files result) = Some txt
        <-> markdown_blob
              (listed_tree requests_get (owner result) (repo result)
                           (branch result)) path
            /\ downloaded_text requests_get (owner result) (repo result)
                               (branch result) path = Some txt
            /\ txt <> "")
    /\ NoDup (Dict.keys (markdown_files result)).
Proof.
  intros repo_url tr tr' result Hrun.
  unfold fetch_repository_docs, bind at 1, lift in Hrun.
  destruct (parse_repo_url urlparse_path repo_url) as [e|[o r]]; [discriminate|].
  unfold bind at 1 in Hrun.
  destruct (get_repo_default_branch requests_get o r tr)
    as [[e|b] tr1]; [discriminate|].
  unfold bind at 1 in Hrun.
  destruct (get_repo_tree requests_get o r b tr1) as [[e|tree] tr2] eqn:Etree;
    [discriminate|].
  unfold bind at 1 in Hrun.
  destruct (fetch_loop requests_get o r b tree ([], []) tr2)
    as [[e|[md imgs]] tr3] eqn:Eloop; [discriminate|].
  unfold ret in Hrun. injection Hrun as <- <-. simpl.
  assert (Htree : listed_tree requests_get o r b = tree).
  { unfold get_repo_tree, bind, http_get, raise_for_status, raise, ret in Etree.
    unfold listed_tree.
    destruct (requests_get (tree_api_url o r b)) as [e|resp]; [discriminate|].
    destruct ((400 <=? status_code resp)%nat && (status_code resp <? 600)%nat);
      [discriminate|]. now injection Etree as <- _. }
  rewrite Htree. split.
  - change tree with ([] ++ tree)%list. eapply loop_collected; [exact Eloop|].
    intros path txt. simpl. split; [discriminate|].
    intros ((it & [] & _) & _).
  - eapply loop_nodup; [exact Eloop | constructor].
Qed.

(** C2. On a URL whose parsed path has fewer than two non-empty segments,
    [fetch_repository_docs] raises [ValueError] and requests nothing: the
    log of requested URLs is left as it was. *)
Theorem short_path_fails_before_any_request :
  forall (repo_url : string) (tr : list string),
    List.length (nonempty_segments (urlparse_path repo_url)) < 2 ->
    fetch repo_url tr = (inl (ValueError invalid_url_message), tr).
Proof.
  intros repo_url tr H. apply few_segments_short_split in H.
  unfold fetch_repository_docs, bind, lift, parse_repo_url.
  apply Nat.ltb_lt in H. now rewrite H.
Qed.
End FetcherClaims.

(** *** Runs of the fetcher on concrete inputs *)

Module FetcherRuns.
Import PyStr RepoFetcher FetcherSpec.

(** C1 fails on an empty file: [EMPTY.md] is a listed markdown blob, its
    download answers 200, and it is not a key of the mapping. *)
Lemma empty_markdown_file_is_skipped :
  exists result tr,
    fetch_repository_docs plain_urlparse_path widgets_network
      "https://github.com/acme/widgets" [] = (inr result, tr)
    /\ In (mkItem "blob" "EMPTY.md")
          (listed_tree widgets_network "acme" "widgets" "main")
    /\ endswith (lower "EMPTY.md") ".md" = true
    /\ widgets_network (raw_url "acme" "widgets" "main" "EMPTY.md")
       = inr (mkResponse 200 "" None None)
    /\ Dict.get "EMPTY.md" (markdown_files result) = None
    /\ markdown_files result = [("README.MD", "# Widgets")].
Proof.
  eexists. eexists. split; [vm_compute; reflexivity|].
  vm_compute. repeat split. now left.
Qed.

Lemma fetched_markdown_witness :
  Dict.get "README.MD" [("README.MD", "# Widgets")] = Some "# Widgets"
  <-> markdown_blob (listed_tree widgets_network "acme" "widgets" "main")
                    "README.MD"
      /\ downloaded_text widgets_network "acme" "widgets" "main" "README.MD"
         = Some "# Widgets"
      /\ "# Widgets" <> "".
Proof.
  refine (proj1 (fetched_markdown_is_listed_and_downloaded
                   plain_urlparse_path widgets_network
                   "https://github.com/acme/widgets" []
                   [repo_api_url "acme" "widgets";
                    tree_api_url "acme" "widgets" "main";
                    raw_url "acme" "widgets" "main" "EMPTY.md";
                    raw_url "acme" "widgets" "main" "README.MD";
                    raw_url "acme" "widgets" "main" "docs/guide.md"]
                   (mkFetch [("README.MD", "# Widgets")] ["img/logo.png"]
                            "main" "widgets" "acme") _)
                "README.MD" "# Widgets").
  vm_compute.
  reflexivity.
Defined.

Lemma short_path_witness :
  fetch_repository_docs plain_urlparse_path widgets_network
    "https://github.com/acme/" []
  = (inl (ValueError invalid_url_message), []).
Proof.
  apply (short_path_fails_before_any_request plain_urlparse_path
           widgets_network "https://github.com/acme/" []).
  vm_compute. lia.
Defined.

End FetcherRuns.

(** ** The document assembler *)


Module OrganizeFacts.
Import PyStr HtmlBuilder HtmlSpec.

Lemma spec_category_named path : In (spec_category path) category_names.
Proof.
  unfold spec_category, category_names.
  repeat match goal with
         | |- context [if ?b then _ else _] => destruct b
         end; simpl; tauto.
Qed.

(** Each branch of the loop body stores the file under its category. *)
Lemma organize_step_stores summaries organized path :
  organize_step summaries organized path
  = set_in (spec_category path) path (Dict.get_default path "" summaries)
           organized.
Proof.
  unfold organize_step, spec_category. cbn [existsb]. rewrite orb_false_r.
  repeat match goal with
         | |- context [if ?b then _ else _] => destruct b
         end; reflexivity.
Qed.


Lemma grouped_empty summaries : grouped summaries [] empty_categories.
Proof.
  split; [reflexivity|]. intros category files H.
  assert (files = []) as ->.
  { unfold empty_categories in H. simpl in H.
    repeat match type of H with
           | (if ?b then _ else _) = _ => destruct b; [now injection H as <-|]
           end. discriminate. }
  split; [|discriminate]. intros path. simpl. tauto.
Qed.

Lemma grouped_step summaries seen organized path :
  grouped summaries seen organized ->
  grouped summaries (list_append seen path)
          (organize_step summaries organized path).
Proof.
  intros [Hkeys Hinv]. rewrite organize_step_stores. unfold set_in.
  assert (Hin : In (spec_category path) (Dict.keys organized))
    by (rewrite Hkeys; apply spec_category_named).
  destruct (DictFacts.in_keys_get _ _ Hin) as [files Hfiles]. rewrite Hfiles.
  destruct (Hinv _ _ Hfiles) as [Hmem Hval].
  split; [now rewrite DictFacts.keys_set_present|].
  intros category files' Hget.
  destruct (string_dec category (spec_category path)) as [->|Hne].
  - rewrite DictFacts.get_set_same in Hget. injection Hget as <-. split.
    + intros p. rewrite DictFacts.keys_set_in, Hmem. unfold list_append.
      rewrite in_app_iff. simpl. split.
      * intros [->|[H1 H2]]; [split; [right; now left | reflexivity]|].
        split; [now left | exact H2].
      * intros [[H1|[->|[]]] H2]; [right; now split | now left].
    + intros p v Hp. destruct (string_dec p path) as [->|Hp'].
      * rewrite DictFacts.get_set_same in Hp. now injection Hp as <-.
      * rewrite DictFacts.get_set_other in Hp by assumption. now apply Hval.
  - rewrite DictFacts.get_set_other in Hget by assumption.
    destruct (Hinv _ _ Hget) as [Hmem' Hval']. split; [|exact Hval'].
    intros p. rewrite Hmem'. unfold list_append. rewrite in_app_iff. simpl.
    split.
    + intros [H1 H2]. split; [now left | exact H2].
    + intros [[H1|[->|[]]] H2]; [now split | congruence].
Qed.

Lemma grouped_fold summaries paths : forall seen organized,
  grouped summaries seen organized ->
  grouped summaries (seen ++ paths)%list
          (fold_left (organize_step summaries) paths organized).
Proof.
  induction paths as [|p rest IH]; intros seen organized H; cbn [fold_left].
  - now rewrite app_nil_r.
  - replace (seen ++ p :: rest)%list with (list_append seen p ++ rest)%list
      by (unfold list_append; now rewrite <- app_assoc).
    apply IH. now apply grouped_step.
Qed.

Lemma organize_grouped markdown_files summaries :
  grouped summaries (Dict.keys markdown_files)
          (organize_content_for_html markdown_files summaries).
Proof.
  unfold organize_content_for_html.
  change (Dict.keys markdown_files) with ([] ++ Dict.keys markdown_files)%list.
  apply grouped_fold, grouped_empty.
Qed.

End OrganizeFacts.

Section OrganizeClaims.
Import PyStr HtmlBuilder HtmlSpec OrganizeFacts.

(** C6, as the code has it. With a markdown-file mapping that is given
    and not empty and more than 20 summaries, the files of the mapping are
    grouped into the five fixed categories, each file in the one category
    the heuristics name and with its summary (or the empty text); in every
    other case the grouping is the single category holding all the
    summaries. *)
Theorem files_grouped_above_threshold :
  forall (summaries : Dict.t string) (markdown_files : option (Dict.t string)),
    (forall files,
        markdown_files = Some files -> files <> [] ->
        20 < Dict.len summaries ->
        let organized := organized_content summaries markdown_files in
        organized = organize_content_for_html files summaries
        /\ Dict.keys organized = category_names
        /\ forall path,
             In path (Dict.keys files) ->
             (exists group,
                 Dict.get (spec_category path) organized = Some group
                 /\ Dict.get path group
                    = Some (Dict.get_default path "" summaries))
             /\ (forall category group,
                    Dict.get category organized = Some group ->
                    In path (Dict.keys group) ->
                    category = spec_category path))
    /\ (markdown_files = None \/ markdown_files = Some []
        \/ Dict.len summaries <= 20 ->
        organized_content summaries markdown_files
        = [("Documentation", summaries)]
        /\ forall owner repo_name,
             render_sections owner repo_name [("Documentation", summaries)]
             = fold_left (render_file owner repo_name) summaries ([], [], 1)).
Proof.
  intros summaries markdown_files. split.
  - intros files -> Hne Hlen organized. subst organized.
    unfold organized_content.
    destruct files as [|f fs]; [congruence|]. cbn [Dict.truthy andb].
    apply Nat.ltb_lt in Hlen. rewrite Hlen.
    destruct (organize_grouped (f :: fs) summaries) as [Hkeys Hinv].
    split; [reflexivity|]. split; [exact Hkeys|]. intros path Hin. split.
    + assert (Hc : In (spec_category path)
                      (Dict.keys (organize_content_for_html (f :: fs) summaries)))
        by (rewrite Hkeys; apply spec_category_named).
      destruct (DictFacts.in_keys_get _ _ Hc) as [group Hgroup].
      exists group. split; [exact Hgroup|].
      destruct (Hinv _ _ Hgroup) as [Hmem Hval].
      assert (Hp : In path (Dict.keys group)) by (apply Hmem; now split).
      destruct (DictFacts.in_keys_get _ _ Hp) as [v Hv].
      rewrite Hv. f_equal. now apply Hval.
    + intros category group Hgroup Hp.
      destruct (Hinv _ _ Hgroup) as [Hmem _]. apply Hmem in Hp.
      destruct Hp as [_ Hp]. now symmetry.
  - intros H. split.
    + destruct H as [->|[->|Hle]]; [reflexivity | reflexivity |].
      unfold organized_content.
      destruct markdown_files as [files|]; [|reflexivity].
      apply Nat.ltb_ge in Hle. rewrite Hle. now rewrite andb_false_r.
    + intros owner repo_name. unfold render_sections.
      destruct summaries as [|s rest]; reflexivity.
Qed.
End OrganizeClaims.

(** *** Groupings of concrete inputs *)

Module OrganizeRuns.
Import PyStr HtmlBuilder HtmlSpec.

(** C6 fails on an empty mapping: it is given, there are 21 summaries,
    and the grouping is the single category with all the summaries, not
    the five categories built from the (zero) files of the mapping. *)
Lemma empty_mapping_is_not_grouped :
  Dict.len (numbered_summaries 21) = 21
  /\ organized_content (numbered_summaries 21) (Some [])
     = [("Documentation", numbered_summaries 21)]
  /\ organize_content_for_html [] (numbered_summaries 21) = empty_categories
  /\ organized_content (numbered_summaries 21) (Some [])
     <> organize_content_for_html [] (numbered_summaries 21).
Proof. vm_compute. repeat split. discriminate. Qed.


Lemma files_grouped_witness :
  (exists group,
      Dict.get "API Reference"
               (organized_content sample_files (Some sample_files))
      = Some group
      /\ Dict.get "src/API/usage.md" group = Some "Usage")
  /\ organized_content (numbered_summaries 20) (Some sample_files)
     = [("Documentation", numbered_summaries 20)].
Proof.
  destruct (files_grouped_above_threshold sample_files (Some sample_files))
    as [Hgrouped _].
  destruct (files_grouped_above_threshold (numbered_summaries 20)
                                          (Some sample_files))
    as [_ Hsingle].
  split.
  - assert (Hlen : 20 < Dict.len sample_files) by (vm_compute; lia).
    assert (Hne : sample_files <> []) by discriminate.
    destruct (Hgrouped sample_files eq_refl Hne Hlen) as (_ & _ & Hfile).
    destruct (Hfile "src/API/usage.md") as [Hin _].
    + vm_compute. tauto.
    + exact Hin.
  - apply Hsingle. right. right. vm_compute. lia.
Defined.

End OrganizeRuns.

Module HtmlFacts.
Import PyStr HtmlBuilder HtmlSpec StrFacts.

(** The cover block holds the date once. *)
Lemma cover_block_date company repo_name github_url author branch_field :
  exists pre post,
    forall current_date,
      cover_block company repo_name github_url author current_date branch_field
      = pre ++ current_date ++ post.
Proof.
  eexists. eexists. intros current_date. unfold cover_block. cut_chain.
Qed.

(** The cover block holds the branch once. *)
Lemma cover_block_branch company repo_name github_url author current_date :
  exists pre post,
    forall branch_field,
      cover_block company repo_name github_url author current_date branch_field
      = pre ++ branch_field ++ post.
Proof.
  eexists. eexists. intros branch_field. unfold cover_block. cut_chain.
Qed.

(** The link of a file section. *)
Lemma file_section_link file_path summary section_id image_files owner repo_name :
  exists pre post,
    create_file_section file_path summary section_id image_files owner repo_name
    = pre ++ dq ++ blob_url owner repo_name file_path ++ dq ++ post.
Proof.
  eexists. eexists. unfold create_file_section.
  cut_chain.
Qed.

(** The image address of a gallery item. *)
Lemma gallery_item_address owner repo_name img_path :
  exists pre post,
    forall gallery_html,
      gallery_item owner repo_name gallery_html img_path
      = gallery_html
        ++ pre ++ dq ++ raw_image_url owner repo_name img_path ++ dq ++ post.
Proof.
  eexists. eexists. intros html. unfold gallery_item. f_equal.
  cut_chain.
Qed.

End HtmlFacts.

Module RenderFacts.
Import PyStr HtmlBuilder HtmlSpec StrFacts HtmlFacts.


Section Loops.
Variables owner repo_name : string.

Local Abbreviation file_step := (render_file owner repo_name).
Local Abbreviation category_step := (render_category owner repo_name).
Local Abbreviation is_file_section := (file_section_of owner repo_name).

Lemma file_step_sections st file_path summary :
  exists section_id,
    sections_of (file_step st (file_path, summary))
    = list_append (sections_of st)
        (create_file_section file_path summary section_id None owner repo_name).
Proof.
  destruct st as [[toc secs] n]. now eexists.
Qed.

Lemma files_fold_sound files : forall st sec,
  In sec (sections_of (fold_left file_step files st)) ->
  In sec (sections_of st) \/ is_file_section files sec.
Proof.
  induction files as [|[p s] rest IH]; intros st sec H; cbn [fold_left] in H.
  - now left.
  - apply IH in H. destruct H as [H|(p' & s' & i' & Hin & Hs)].
    + destruct (file_step_sections st p s) as [i E]. rewrite E in H.
      unfold list_append in H. apply in_app_or in H.
      destruct H as [H|[H|[]]]; [now left|]. right.
      exists p, s, i. split; [now left | now symmetry].
    + right. exists p', s', i'. split; [now right | exact Hs].
Qed.

Lemma files_fold_mono files : forall st sec,
  In sec (sections_of st) ->
  In sec (sections_of (fold_left file_step files st)).
Proof.
  induction files as [|[p s] rest IH]; intros st sec H; cbn [fold_left].
  - exact H.
  - apply IH. destruct (file_step_sections st p s) as [i E]. rewrite E.
    unfold list_append. apply in_or_app. now left.
Qed.

Lemma files_fold_cover files : forall st file_path summary,
  In (file_path, summary) files ->
  exists section_id,
    In (create_file_section file_path summary section_id None owner repo_name)
       (sections_of (fold_left file_step files st)).
Proof.
  induction files as [|[p s] rest IH]; intros st fp sm H; [contradiction|].
  cbn [fold_left]. destruct H as [H|H].
  - injection H as -> ->. destruct (file_step_sections st fp sm) as [i E].
    exists i. apply files_fold_mono. rewrite E. unfold list_append.
    apply in_or_app. right. now left.
  - now apply IH.
Qed.

(** One category: nothing for an empty one, its files otherwise; the
    header goes to the TOC only. *)
Lemma category_step_sections n st category files :
  exists st0,
    sections_of st0 = sections_of st
    /\ category_step n st (category, files) = fold_left file_step files st0.
Proof.
  unfold render_category. destruct files as [|f fs].
  - now exists st.
  - cbn [Dict.truthy negb]. destruct st as [[toc secs] k].
    eexists (_, secs, k). split; cycle 1.
    + cbv iota. reflexivity.
    + reflexivity.
Qed.

Lemma categories_fold_sound n organized : forall st sec,
  In sec (sections_of (fold_left (category_step n) organized st)) ->
  In sec (sections_of st)
  \/ exists category files,
       In (category, files) organized /\ is_file_section files sec.
Proof.
  induction organized as [|[c files] rest IH]; intros st sec H;
    cbn [fold_left] in H.
  - now left.
  - apply IH in H. destruct H as [H|(c' & f' & Hin & Hs)].
    + destruct (category_step_sections n st c files) as (st0 & E0 & E).
      rewrite E in H. apply files_fold_sound in H. rewrite E0 in H.
      destruct H as [H|H]; [now left|]. right. exists c, files.
      split; [now left | exact H].
    + right. exists c', f'. split; [now right | exact Hs].
Qed.

Lemma categories_fold_mono n organized : forall st sec,
  In sec (sections_of st) ->
  In sec (sections_of (fold_left (category_step n) organized st)).
Proof.
  induction organized as [|[c files] rest IH]; intros st sec H; cbn [fold_left].
  - exact H.
  - apply IH. destruct (category_step_sections n st c files) as (st0 & E0 & E).
    rewrite E. apply files_fold_mono. now rewrite E0.
Qed.

Lemma categories_fold_cover n organized : forall st category files fp sm,
  In (category, files) organized -> In (fp, sm) files ->
  exists section_id,
    In (create_file_section fp sm section_id None owner repo_name)
       (sections_of (fold_left (category_step n) organized st)).
Proof.
  induction organized as [|[c fs] rest IH]; intros st cat files fp sm H Hf;
    [contradiction|].
  cbn [fold_left]. destruct H as [H|H].
  - injection H as <- <-.
    destruct (category_step_sections n st c fs) as (st0 & E0 & E).
    destruct (files_fold_cover fs st0 fp sm Hf) as [i Hi].
    exists i. apply categories_fold_mono. rewrite <- E in Hi. exact Hi.
  - eapply IH; eassumption.
Qed.

(** Every section of the document is the section of a file of some
    category. *)
Lemma render_sections_sound organized sec :
  In sec (sections_of (render_sections owner repo_name organized)) ->
  exists category files,
    In (category, files) organized /\ is_file_section files sec.
Proof.
  intros H. apply categories_fold_sound in H.
  destruct H as [[]|H]. exact H.
Qed.

(** Every file of every category has its section in the document. *)
Lemma render_sections_cover organized category files fp sm :
  In (category, files) organized -> In (fp, sm) files ->
  exists section_id,
    In (create_file_section fp sm section_id None owner repo_name)
       (sections_of (render_sections owner repo_name organized)).
Proof. apply categories_fold_cover. Qed.
End Loops.

(** *** The gallery *)

Section Gallery.
Variables owner repo_name : string.

Local Abbreviation item_step := (gallery_item owner repo_name).
Local Abbreviation quoted_image_url :=
  (HtmlSpec.quoted_image_url owner repo_name).


Lemma items_fold_extends images : forall html,
  exists suffix, fold_left item_step images html = html ++ suffix.
Proof.
  induction images as [|img rest IH]; intros html; cbn [fold_left].
  - exists "". now rewrite append_nil_r.
  - destruct (IH (item_step html img)) as [suffix E]. rewrite E.
    destruct (gallery_item_address owner repo_name img) as (pre & post & Ei).
    rewrite Ei. eexists. rewrite append_assoc. reflexivity.
Qed.

Lemma items_fold_contains images : forall html img,
  In img images ->
  exists pre post,
    fold_left item_step images html = pre ++ quoted_image_url img ++ post.
Proof.
  induction images as [|i rest IH]; intros html img H; [contradiction|].
  cbn [fold_left]. destruct H as [->|H]; [|now apply IH].
  destruct (items_fold_extends rest (item_step html img)) as [suffix E].
  rewrite E.
  destruct (gallery_item_address owner repo_name img) as (pre & post & Ei).
  rewrite Ei. exists (html ++ pre), (post ++ suffix). unfold quoted_image_url.
  repeat rewrite append_assoc. reflexivity.
Qed.

Lemma bucket_extends header html images :
  exists suffix,
    gallery_bucket header owner repo_name html images = html ++ suffix.
Proof.
  unfold gallery_bucket. destruct images as [|i rest].
  - exists "". now rewrite append_nil_r.
  - destruct (items_fold_extends (i :: rest) (html ++ header)) as [suffix E].
    rewrite E. eexists. repeat rewrite append_assoc. reflexivity.
Qed.

Lemma bucket_contains header html images img :
  In img images ->
  exists pre post,
    gallery_bucket header owner repo_name html images
    = pre ++ quoted_image_url img ++ post.
Proof.
  intros H. unfold gallery_bucket. destruct images as [|i rest]; [contradiction|].
  destruct (items_fold_contains (i :: rest) (html ++ header) img H)
    as (pre & post & E).
  rewrite E. exists pre, (post ++ "</div>").
  repeat rewrite append_assoc. reflexivity.
Qed.

(** What precedes is kept when more is appended. *)
Lemma contains_extended (x pre mid post suffix : string) :
  x = pre ++ mid ++ post ->
  exists post', x ++ suffix = pre ++ mid ++ post'.
Proof.
  intros ->. exists (post ++ suffix). now repeat rewrite append_assoc.
Qed.

(** Every image lands in one of the three buckets. *)
Lemma categorize_fold_covers images : forall acc img,
  (In img (fst (fst acc)) \/ In img (snd (fst acc)) \/ In img (snd acc)
   \/ In img images) ->
  let out := fold_left categorize_image images acc in
  In img (fst (fst out)) \/ In img (snd (fst out)) \/ In img (snd out).
Proof.
  induction images as [|i rest IH]; intros [[a s] o] img H; cbn [fold_left].
  - simpl in *. tauto.
  - apply IH. unfold categorize_image.
    destruct (contains_any _ (lower i)); [|destruct (contains_any _ (lower i))];
      unfold list_append; simpl in *; rewrite in_app_iff; simpl;
      destruct H as [H|[H|[H|[H|H]]]]; auto 6.
Qed.
End Gallery.

End RenderFacts.

Module DocumentFacts.
Import PyStr HtmlBuilder HtmlSpec StrFacts HtmlFacts RenderFacts.


(** The document is its seven blocks, in order. *)
Lemma generate_blocks current_date summaries repo_meta author company
      markdown_files image_files :
  let repo_name := Dict.get_default "repo" "Repository" repo_meta in
  let owner := Dict.get_default "owner" "Unknown" repo_meta in
  let github_url := "https://github.com/" ++ owner ++ "/" ++ repo_name in
  let st := render_sections owner repo_name
              (organized_content summaries markdown_files) in
  generate_onboarding_html current_date summaries repo_meta author company
                           markdown_files image_files
  = html_head repo_name
    ++ cover_block company repo_name github_url author current_date
                   (Dict.get_default "branch" "main" repo_meta)
    ++ toc_block (Dict.len summaries) (toc_of st)
    ++ content_block (sections_of st)
    ++ gallery_block (create_image_gallery_section image_files owner repo_name)
    ++ footer_block github_url
    ++ html_tail.
Proof.
  intros repo_name owner github_url st. unfold generate_onboarding_html.
  fold repo_name owner github_url st. now destruct st as [[toc secs] n].
Qed.

(** Without summaries the grouping is one empty category. *)
Lemma organized_content_empty markdown_files :
  organized_content [] markdown_files = [("Documentation", [])].
Proof.
  unfold organized_content. destruct markdown_files as [files|]; [|reflexivity].
  cbn [Dict.len List.length]. now rewrite andb_false_r.
Qed.

(** Setting the branch of [repo_meta] leaves the other keys alone. *)
Lemma get_default_set_branch key dflt b (repo_meta : Dict.t string) :
  key <> "branch" ->
  Dict.get_default key dflt (Dict.set "branch" b repo_meta)
  = Dict.get_default key dflt repo_meta.
Proof.
  intros H. unfold Dict.get_default. now rewrite DictFacts.get_set_other.
Qed.

Lemma get_default_branch_set dflt b (repo_meta : Dict.t string) :
  Dict.get_default "branch" dflt (Dict.set "branch" b repo_meta) = b.
Proof. unfold Dict.get_default. now rewrite DictFacts.get_set_same. Qed.

(** The gallery prints the address of every image of the list. *)
Lemma gallery_section_contains owner repo_name images img :
  In img images ->
  exists pre post,
    create_image_gallery_section (Some images) owner repo_name
    = pre ++ quoted_image_url owner repo_name img ++ post.
Proof.
  intros H. destruct images as [|i r]; [contradiction|].
  unfold create_image_gallery_section.
  pose proof (categorize_fold_covers (i :: r) ([], [], []) img) as Hc.
  cbv zeta in Hc.
  destruct (fold_left categorize_image (i :: r) ([], [], [])) as [[a s] o].
  simpl fst in Hc. simpl snd in Hc.
  specialize (Hc (or_intror (or_intror (or_intror H)))).
  match goal with
  | |- context [gallery_bucket architecture_header owner repo_name ?h a] =>
      set (opening := h)
  end.
  set (b1 := gallery_bucket architecture_header owner repo_name opening a).
  set (b2 := gallery_bucket screenshot_header owner repo_name b1 s).
  set (b3 := gallery_bucket other_header owner repo_name b2 o).
  destruct (bucket_extends owner repo_name screenshot_header b1 s) as [suf2 E2].
  destruct (bucket_extends owner repo_name other_header b2 o) as [suf3 E3].
  fold b2 in E2. fold b3 in E3.
  destruct Hc as [Ha|[Hs|Ho]].
  - destruct (bucket_contains owner repo_name architecture_header opening a img Ha)
      as (pre & post & E1). fold b1 in E1.
    exists pre, (post ++ suf2 ++ suf3 ++ "</div>").
    rewrite E3, E2, E1. now repeat rewrite append_assoc.
  - destruct (bucket_contains owner repo_name screenshot_header b1 s img Hs)
      as (pre & post & E). fold b2 in E.
    exists pre, (post ++ suf3 ++ "</div>").
    rewrite E3, E. now repeat rewrite append_assoc.
  - destruct (bucket_contains owner repo_name other_header b2 o img Ho)
      as (pre & post & E). fold b3 in E.
    exists pre, (post ++ "</div>").
    rewrite E. now repeat rewrite append_assoc.
Qed.

End DocumentFacts.

Section DocumentClaims.
Import PyStr HtmlBuilder HtmlSpec StrFacts HtmlFacts RenderFacts DocumentFacts.

(** C7. With no summaries [generate_onboarding_html] returns a document
    (the function is total), and the rendering loops produce no TOC item
    and no section. The document is the text below: the head, the cover
    page with the company, the repository name and address, the author,
    the date and the branch, a table of contents whose list is empty, a
    content element without sections, the gallery, and the footer with
    the repository address. *)
Theorem empty_summaries_render_cover_and_footer :
  forall (current_date : string) (repo_meta : Dict.t string)
         (author company : string) (markdown_files : option (Dict.t string))
         (image_files : option (list string)),
    let repo_name := Dict.get_default "repo" "Repository" repo_meta in
    let owner := Dict.get_default "owner" "Unknown" repo_meta in
    let github_url := "https://github.com/" ++ owner ++ "/" ++ repo_name in
    render_sections owner repo_name (organized_content [] markdown_files)
    = ([], [], 1)
    /\ generate_onboarding_html current_date [] repo_meta author company
                                markdown_files image_files
       = "
<!DOCTYPE html>
<html lang=" ++ dq ++ "en" ++ dq ++ ">
<head>
    <meta charset=" ++ dq ++ "UTF-8" ++ dq ++ ">
    <meta name=" ++ dq ++ "viewport" ++ dq ++ " content=" ++ dq ++ "width=device-width, initial-scale=1.0" ++ dq ++ ">
    <title>" ++ repo_name ++ " - Onboarding Documentation</title>
    <style>
        " ++ get_css_styles ++ "
    </style>
</head>
<body>
    <!-- Cover Page -->
    <div class=" ++ dq ++ "cover-page" ++ dq ++ ">
        <div class=" ++ dq ++ "cover-header" ++ dq ++ ">
            <div class=" ++ dq ++ "company-branding" ++ dq ++ ">
                <h1 class=" ++ dq ++ "company-name" ++ dq ++ ">" ++ company ++ "</h1>
                <div class=" ++ dq ++ "company-tagline" ++ dq ++ ">Knowledge Base Documentation</div>
            </div>
        </div>
        
        <div class=" ++ dq ++ "cover-main" ++ dq ++ ">
            <h1 class=" ++ dq ++ "project-title" ++ dq ++ ">" ++ repo_name ++ "</h1>
            <h2 class=" ++ dq ++ "subtitle" ++ dq ++ ">Onboarding Documentation</h2>
            
            <div class=" ++ dq ++ "project-info" ++ dq ++ ">
                <div class=" ++ dq ++ "info-item" ++ dq ++ ">
                    <span class=" ++ dq ++ "label" ++ dq ++ ">Repository:</span>
                    <a href=" ++ dq ++ github_url ++ dq ++ " target=" ++ dq ++ "_blank" ++ dq ++ " class=" ++ dq ++ "repo-link" ++ dq ++ ">" ++ github_url ++ "</a>
                </div>
                <div class=" ++ dq ++ "info-item" ++ dq ++ ">
                    <span class=" ++ dq ++ "label" ++ dq ++ ">Author:</span>
                    <span class=" ++ dq ++ "value" ++ dq ++ ">" ++ author ++ "</span>
                </div>
                <div class=" ++ dq ++ "info-item" ++ dq ++ ">
                    <span class=" ++ dq ++ "label" ++ dq ++ ">Generated:</span>
                    <span class=" ++ dq ++ "value" ++ dq ++ ">" ++ current_date ++ "</span>
                </div>
                <div class=" ++ dq ++ "info-item" ++ dq ++ ">
                    <span class=" ++ dq ++ "label" ++ dq ++ ">Branch:</span>
                    <span class=" ++ dq ++ "value" ++ dq ++ ">" ++ Dict.get_default "branch" "main" repo_meta ++ "</span>
                </div>
            </div>
        </div>
        
        <div class=" ++ dq ++ "cover-footer" ++ dq ++ ">
            <p>This document provides an overview of the repository structure and key documentation files.</p>
        </div>
    </div>

    <!-- Table of Contents Page -->
    <div class=" ++ dq ++ "toc-page" ++ dq ++ ">
        <h1 class=" ++ dq ++ "page-title" ++ dq ++ ">Table of Contents</h1>
        <div class=" ++ dq ++ "toc-summary" ++ dq ++ ">
            <p>This document contains <strong>0</strong> sections covering the main documentation files in the repository.</p>
        </div>
        <ul class=" ++ dq ++ "toc-list" ++ dq ++ ">
            
        </ul>
    </div>

    <!-- Content Sections -->
    <div class=" ++ dq ++ "content-pages" ++ dq ++ ">
        
    </div>

    <!-- Image Gallery Section -->
    " ++ create_image_gallery_section image_files owner repo_name ++ "

    <!-- Footer -->
    <div class=" ++ dq ++ "document-footer" ++ dq ++ ">
        <p>Generated by AI-Powered Onboarding Documentation System</p>
        <p>For the most up-to-date information, please refer to the repository at <a href=" ++ dq ++ github_url ++ dq ++ ">" ++ github_url ++ "</a></p>
    </div>
</body>
</html>
".
Proof.
  intros current_date repo_meta author company markdown_files image_files
         repo_name owner github_url.
  assert (Hst : render_sections owner repo_name
                  (organized_content [] markdown_files) = ([], [], 1))
    by now rewrite organized_content_empty.
  split; [exact Hst|].
  rewrite generate_blocks. fold repo_name owner github_url. rewrite Hst.
  unfold html_head, cover_block, toc_block, content_block, gallery_block,
    footer_block, html_tail, toc_of, sections_of.
  repeat rewrite append_assoc. reflexivity.
Qed.

(** C8. The document is a function of the date and of the inputs, and the
    date enters it in one place: for given inputs there are two strings,
    the same for every date, between which the date stamp stands. *)
Theorem document_depends_on_date_by_its_stamp :
  forall (summaries repo_meta : Dict.t string) (author company : string)
         (markdown_files : option (Dict.t string))
         (image_files : option (list string)),
  exists pre post : string,
    forall current_date : string,
      generate_onboarding_html current_date summaries repo_meta author company
                               markdown_files image_files
      = pre ++ current_date ++ post.
Proof.
  intros summaries repo_meta author company markdown_files image_files.
  set (repo_name := Dict.get_default "repo" "Repository" repo_meta).
  set (owner := Dict.get_default "owner" "Unknown" repo_meta).
  set (github_url := "https://github.com/" ++ owner ++ "/" ++ repo_name).
  destruct (cover_block_date company repo_name github_url author
              (Dict.get_default "branch" "main" repo_meta))
    as (cpre & cpost & Hcover).
  eexists (html_head repo_name ++ cpre). eexists (cpost ++ _).
  intros current_date. rewrite generate_blocks.
  fold repo_name owner github_url. rewrite Hcover.
  repeat rewrite append_assoc. reflexivity.
Qed.

(** C10. The branch of [repo_meta] enters the document in one place, the
    branch field of the cover. Every section of the document is the
    section of a file and links to [.../blob/main/<path>]; every file of
    the grouping has such a section; and the gallery prints every image
    of the list with the address [.../main/<path>]. *)
Theorem links_use_the_literal_main_branch :
  forall (current_date : string) (summaries repo_meta : Dict.t string)
         (author company : string) (markdown_files : option (Dict.t string))
         (image_files : option (list string)),
    let repo_name := Dict.get_default "repo" "Repository" repo_meta in
    let owner := Dict.get_default "owner" "Unknown" repo_meta in
    let organized := organized_content summaries markdown_files in
    let sections := sections_of (render_sections owner repo_name organized) in
    (exists pre post : string,
        forall b : string,
          generate_onboarding_html current_date summaries
            (Dict.set "branch" b repo_meta) author company
            markdown_files image_files
          = pre ++ b ++ post)
    /\ (forall sec,
           In sec sections ->
           exists file_path pre post,
             sec = pre ++ dq
                   ++ ("https://github.com/" ++ owner ++ "/" ++ repo_name
                       ++ "/blob/main/" ++ file_path)
                   ++ dq ++ post)
    /\ (forall category files file_path summary,
           In (category, files) organized ->
           In (file_path, summary) files ->
           exists pre post,
             In (pre ++ dq
                 ++ ("https://github.com/" ++ owner ++ "/" ++ repo_name
                     ++ "/blob/main/" ++ file_path)
                 ++ dq ++ post) sections)
    /\ (forall images img,
           image_files = Some images ->
           In img images ->
           exists pre post,
             create_image_gallery_section image_files owner repo_name
             = pre ++ dq
               ++ ("https://raw.githubusercontent.com/" ++ owner ++ "/"
                   ++ repo_name ++ "/main/" ++ img)
               ++ dq ++ post).
Proof.
  intros current_date summaries repo_meta author company markdown_files
         image_files repo_name owner organized sections.
  split; [|split; [|split]].
  - set (github_url := "https://github.com/" ++ owner ++ "/" ++ repo_name).
    destruct (cover_block_branch company repo_name github_url author
                current_date) as (cpre & cpost & Hcover).
    eexists (html_head repo_name ++ cpre). eexists (cpost ++ _).
    intros b. rewrite generate_blocks.
    rewrite get_default_branch_set.
    rewrite !get_default_set_branch by discriminate.
    fold repo_name owner github_url. rewrite Hcover.
    repeat rewrite append_assoc. reflexivity.
  - intros sec Hsec. apply render_sections_sound in Hsec.
    destruct Hsec as (c & files & _ & p & s & i & _ & ->).
    destruct (file_section_link p s i None owner repo_name) as (pre & post & E).
    exists p, pre, post. exact E.
  - intros c files p s Hc Hf.
    destruct (render_sections_cover owner repo_name organized c files p s Hc Hf)
      as [i Hi].
    destruct (file_section_link p s i None owner repo_name) as (pre & post & E).
    exists pre, post. fold (blob_url owner repo_name p).
    unfold sections. now rewrite <- E.
  - intros images img -> Hin.
    destruct (gallery_section_contains owner repo_name images img Hin)
      as (pre & post & E).
    exists pre, post. rewrite E. fold (raw_image_url owner repo_name img).
    unfold quoted_image_url. now repeat rewrite append_assoc.
Qed.
End DocumentClaims.

(** *** Documents of concrete inputs *)

Module DocumentRuns.
Import PyStr HtmlBuilder HtmlSpec.

Lemma links_use_main_witness :
  exists pre post,
    create_image_gallery_section (Some ["img/flow.png"]) "acme" "widgets"
    = pre ++ dq
      ++ ("https://raw.githubusercontent.com/" ++ "acme" ++ "/" ++ "widgets"
          ++ "/main/" ++ "img/flow.png")
      ++ dq ++ post.
Proof.
  destruct (links_use_the_literal_main_branch "November 03, 2026"
              sample_summaries sample_meta "Riddhi Shah" "Bazel Inc" None
              (Some ["img/flow.png"])) as (_ & _ & _ & H).
  apply (H ["img/flow.png"] "img/flow.png" eq_refl). now left.
Defined.

(** A document for a repository fetched on branch [develop]: the file
    link and the image address name [main], and [develop] stands in the
    branch field only. *)
Example sample_document_links :
  let html := generate_onboarding_html "November 03, 2026" sample_summaries
                sample_meta "Riddhi Shah" "Bazel Inc" None
                (Some ["img/flow.png"]) in
  contains "https://github.com/acme/widgets/blob/main/docs/setup_guide.md" html
  = true
  /\ contains "https://raw.githubusercontent.com/acme/widgets/main/img/flow.png"
              html = true
  /\ contains "/develop/" html = false
  /\ contains ("<span class=" ++ dq ++ "value" ++ dq ++ ">develop</span>") html
     = true.
Proof. vm_compute. repeat split. Qed.

(** The document of an empty summary set: cover and footer, no section
    and no TOC entry. *)
Example empty_document_blocks :
  let html := generate_onboarding_html "November 03, 2026" [] sample_meta
                "Riddhi Shah" "Bazel Inc" None None in
  contains ("<div class=" ++ dq ++ "cover-page" ++ dq ++ ">") html = true
  /\ contains ("<div class=" ++ dq ++ "document-footer" ++ dq ++ ">") html = true
  /\ contains ("<div class=" ++ dq ++ "section" ++ dq) html = false
  /\ contains "<li>" html = false.
Proof. vm_compute. repeat split. Qed.

End DocumentRuns.

(* ===================================================================== *)
(** * Further properties of the fetcher *)
(* ===================================================================== *)

Module FetcherMoreFacts.
Import PyStr RepoFetcher FetcherSpec FetcherMore FetcherFacts.

Section Loop.
Variable requests_get : string -> exn + Response.
Variables owner repo branch : string.

Local Abbreviation item_step := (fetch_item requests_get owner repo branch).
Local Abbreviation loop := (fetch_loop requests_get owner repo branch).
Local Abbreviation raw_of :=
  (fun item : TreeItem => raw_url owner repo branch (item_path item)).

(** One pass of the loop: the image list grows by the item when it is an
    image blob, and the log by one address when it is a markdown blob,
    which then got a response. *)
Lemma item_step_effects md imgs item tr md' imgs' tr' :
  item_step (md, imgs) item tr = (inr (md', imgs'), tr') ->
  imgs' = (imgs ++ map item_path (filter is_image_blob [item]))%list
  /\ tr' = (tr ++ map raw_of (filter is_markdown_blob [item]))%list
  /\ (is_markdown_blob item = true ->
      exists resp, requests_get (raw_of item) = inr resp).
Proof.
  unfold fetch_item, is_image_blob, is_markdown_blob. intros Hrun.
  cbn [filter map].
  destruct (item_type item =? "blob"); cbn [negb andb] in *.
  2:{ injection Hrun as <- <- <-. rewrite !app_nil_r. repeat split.
      discriminate. }
  destruct (endswith (lower (item_path item)) ".md").
  - unfold bind, ret, download_raw_file, http_get, bind, ret in Hrun.
    destruct (requests_get (raw_url owner repo branch (item_path item)))
      as [e|resp] eqn:Eget; [discriminate|].
    injection Hrun as _ <- <-. repeat split.
    + unfold endswith_any, SUPPORTED_IMAGE_EXTENSIONS; cbn [existsb].
      match goal with |- context [if ?b then _ else _] => destruct b end;
        unfold list_append; simpl; now rewrite ?app_nil_r.
    + intros _. now exists resp.
  - unfold bind, ret in Hrun. injection Hrun as _ <- <-. repeat split.
    + unfold endswith_any, SUPPORTED_IMAGE_EXTENSIONS; cbn [existsb].
      match goal with |- context [if ?b then _ else _] => destruct b end;
        unfold list_append; simpl; now rewrite ?app_nil_r.
    + now rewrite app_nil_r.
    + discriminate.
Qed.

Lemma filter_cons_app {A} (f : A -> bool) (x : A) (l : list A) :
  filter f (x :: l) = (filter f [x] ++ filter f l)%list.
Proof. simpl. now destruct (f x). Qed.

Lemma loop_effects tree : forall md imgs tr md' imgs' tr',
  loop tree (md, imgs) tr = (inr (md', imgs'), tr') ->
  imgs' = (imgs ++ map item_path (filter is_image_blob tree))%list
  /\ tr' = (tr ++ map raw_of (filter is_markdown_blob tree))%list
  /\ (forall item, In item tree -> is_markdown_blob item = true ->
      exists resp, requests_get (raw_of item) = inr resp).
Proof.
  induction tree as [|item rest IH]; intros md imgs tr md' imgs' tr' Hrun.
  - injection Hrun as <- <- <-. simpl. rewrite !app_nil_r.
    repeat split. intros item [].
  - cbn [fetch_loop] in Hrun. unfold bind at 1 in Hrun.
    destruct (item_step (md, imgs) item tr) as [[e|[md1 imgs1]] tr1] eqn:E1;
      [discriminate|].
    apply item_step_effects in E1. destruct E1 as (-> & -> & Hresp).
    apply IH in Hrun. destruct Hrun as (-> & -> & Hrest).
    rewrite (filter_cons_app is_image_blob item rest),
            (filter_cons_app is_markdown_blob item rest).
    rewrite !map_app, !app_assoc. repeat split.
    intros it [<-|Hin] Hmd; [now apply Hresp | now apply Hrest].
Qed.
End Loop.

(** What a returning fetch went through. *)
Lemma fetch_returns_inv urlparse_path requests_get repo_url tr result tr' :
  fetch_repository_docs urlparse_path requests_get repo_url tr
  = (inr result, tr') ->
  exists resp_repo resp_tree md imgs,
    parse_repo_url urlparse_path repo_url = inr (owner result, repo result)
    /\ requests_get (repo_api_url (owner result) (repo result)) = inr resp_repo
    /\ error_status (status_code resp_repo) = false
    /\ branch result = answered_branch resp_repo
    /\ requests_get (tree_api_url (owner result) (repo result) (branch result))
       = inr resp_tree
    /\ error_status (status_code resp_tree) = false
    /\ fetch_loop requests_get (owner result) (repo result) (branch result)
         (listed_tree requests_get (owner result) (repo result) (branch result))
         ([], [])
         (tr ++ [repo_api_url (owner result) (repo result);
                 tree_api_url (owner result) (repo result) (branch result)])%list
       = (inr (md, imgs), tr')
    /\ markdown_files result = md /\ image_files result = imgs.
Proof.
  intros Hrun. unfold fetch_repository_docs, bind at 1, lift in Hrun.
  destruct (parse_repo_url urlparse_path repo_url) as [e|[o r]] eqn:Ep;
    [discriminate|].
  unfold bind at 1 in Hrun.
  unfold get_repo_default_branch, bind at 1, http_get in Hrun.
  destruct (requests_get (repo_api_url o r)) as [e|resp1] eqn:E1;
    [discriminate|].
  unfold bind at 1, raise_for_status, raise, ret in Hrun.
  fold (error_status (status_code resp1)) in Hrun.
  destruct (error_status (status_code resp1)) eqn:Es1; [discriminate|].
  fold (answered_branch resp1) in Hrun.
  unfold bind at 1 in Hrun.
  unfold get_repo_tree, bind at 1, http_get in Hrun.
  destruct (requests_get (tree_api_url o r (answered_branch resp1)))
    as [e|resp2] eqn:E2; [discriminate|].
  unfold bind at 1, raise_for_status, raise, ret in Hrun.
  fold (error_status (status_code resp2)) in Hrun.
  destruct (error_status (status_code resp2)) eqn:Es2; [discriminate|].
  unfold bind at 1 in Hrun.
  match type of Hrun with
  | context [fetch_loop _ _ _ _ ?t _ ?l] =>
      destruct (fetch_loop requests_get o r (answered_branch resp1) t
                           ([], []) l) as [[e|[md imgs]] tr3] eqn:Eloop
  end; [discriminate|].
  unfold ret in Hrun. injection Hrun as <- <-. simpl.
  exists resp1, resp2, md, imgs. unfold listed_tree. rewrite E2.
  unfold list_append in Eloop. rewrite <- app_assoc in Eloop. simpl in Eloop.
  repeat split; assumption.
Qed.

End FetcherMoreFacts.

Module ParseFacts.
Import PyStr RepoFetcher FetcherSpec FetcherFacts.

(** After stripping, the first segment is empty only when the whole is. *)
Lemma stripped_first_segment s :
  strip_by is_slash s = ""
  \/ exists c h r, split_char "/" (strip_by is_slash s) = String c h :: r.
Proof.
  unfold strip_by. set (l := lstrip_by is_slash s).
  destruct (rstrip_by is_slash l) as [|c t] eqn:Eu; [now left|]. right.
  destruct (rstrip_head _ _ _ _ Eu) as [u El].
  assert (Hc : is_slash c = false) by (eapply lstrip_head; exact El).
  destruct (split_char_cons "/" t) as (h & r & Et).
  exists c, h, r. now rewrite seg_cons, Hc, Et.
Qed.
End ParseFacts.

Section FetcherExtras.
Import PyStr RepoFetcher FetcherSpec FetcherMore FetcherFacts
       FetcherMoreFacts ParseFacts.
Variable urlparse_path : string -> string.
Variable requests_get : string -> exn + Response.

Local Abbreviation fetch := (fetch_repository_docs urlparse_path requests_get).
Local Abbreviation parse := (parse_repo_url urlparse_path).

(** X1. The image list of a returning fetch is the paths of the image
    blobs of the listed tree (a blob whose lower-cased path ends in one of
    the five extensions), in tree order, repetitions kept. *)
Theorem fetched_images_are_the_image_blobs :
  forall (repo_url : string) (tr tr' : list string) (result : FetchResult),
    fetch repo_url tr = (inr result, tr') ->
    image_files result
    = map item_path
        (filter is_image_blob
           (listed_tree requests_get (owner result) (repo result)
                        (branch result))).
Proof.
  intros repo_url tr tr' result Hrun.
  destruct (fetch_returns_inv _ _ _ _ _ _ Hrun)
    as (r1 & r2 & md & imgs & _ & _ & _ & _ & _ & _ & Hloop & _ & ->).
  apply loop_effects in Hloop. now destruct Hloop as (-> & _ & _).
Qed.

(** X2. The requests of a returning fetch, in order: the repository
    lookup, the tree listing for the answered branch ([main] when the
    answer names none), then one download per markdown blob of the tree,
    by its path as listed. Nothing is requested for an image or for an
    entry that is not a blob, and nothing is requested twice unless the
    tree lists a path twice. *)
Theorem fetch_requests_in_order :
  forall (repo_url : string) (tr tr' : list string) (result : FetchResult),
    fetch repo_url tr = (inr result, tr') ->
    let o := owner result in
    let r := repo result in
    let b := branch result in
    (exists resp, requests_get (repo_api_url o r) = inr resp
                  /\ b = answered_branch resp)
    /\ tr' = (tr ++ [repo_api_url o r; tree_api_url o r b]
                 ++ map (fun item => raw_url o r b (item_path item))
                        (filter is_markdown_blob
                                (listed_tree requests_get o r b)))%list.
Proof.
  intros repo_url tr tr' result Hrun o r b.
  destruct (fetch_returns_inv _ _ _ _ _ _ Hrun)
    as (r1 & r2 & md & imgs & _ & E1 & _ & Hb & _ & _ & Hloop & _ & _).
  split; [now exists r1|].
  apply loop_effects in Hloop. destruct Hloop as (_ & -> & _).
  now rewrite <- app_assoc.
Qed.

(** X3. A fetch returns only if every markdown blob of the tree got a
    response to its download: a transport error on one download is not
    skipped the way a status other than 200 is, it ends the fetch. *)
Theorem fetch_returns_only_if_downloads_answered :
  forall (repo_url : string) (tr tr' : list string) (result : FetchResult),
    fetch repo_url tr = (inr result, tr') ->
    forall item,
      In item (listed_tree requests_get (owner result) (repo result)
                           (branch result)) ->
      is_markdown_blob item = true ->
      exists resp,
        requests_get (raw_url (owner result) (repo result) (branch result)
                              (item_path item)) = inr resp.
Proof.
  intros repo_url tr tr' result Hrun item Hin Hmd.
  destruct (fetch_returns_inv _ _ _ _ _ _ Hrun)
    as (r1 & r2 & md & imgs & _ & _ & _ & _ & _ & _ & Hloop & _ & _).
  apply loop_effects in Hloop. destruct Hloop as (_ & _ & H). now apply H.
Qed.

(** X4. When the repository lookup fails, by a transport error or by a
    status from 400 to 599, the fetch raises that error after this one
    request: the tree is not listed and nothing is downloaded. *)
Theorem failed_lookup_ends_fetch :
  forall (repo_url o r : string) (tr : list string),
    parse repo_url = inr (o, r) ->
    (forall e,
        requests_get (repo_api_url o r) = inl e ->
        fetch repo_url tr = (inl e, tr ++ [repo_api_url o r])%list)
    /\ (forall resp,
           requests_get (repo_api_url o r) = inr resp ->
           error_status (status_code resp) = true ->
           fetch repo_url tr
           = (inl (HTTPError (status_code resp)),
              tr ++ [repo_api_url o r])%list).
Proof.
  intros repo_url o r tr Hp. split.
  - intros e He. unfold fetch_repository_docs, bind at 1, lift. rewrite Hp.
    unfold bind at 1, get_repo_default_branch, bind at 1, http_get.
    now rewrite He.
  - intros resp He Hs. unfold fetch_repository_docs, bind at 1, lift.
    rewrite Hp.
    unfold bind at 1, get_repo_default_branch, bind at 1, http_get.
    rewrite He. unfold bind at 1, raise_for_status, raise.
    unfold error_status in Hs. now rewrite Hs.
Qed.

(** X5. When the lookup succeeds and the tree listing fails, by a
    transport error or by a status from 400 to 599, the fetch raises that
    error after these two requests: nothing is downloaded. *)
Theorem failed_tree_listing_ends_fetch :
  forall (repo_url o r : string) (tr : list string) (resp : Response),
    parse repo_url = inr (o, r) ->
    requests_get (repo_api_url o r) = inr resp ->
    error_status (status_code resp) = false ->
    let b := answered_branch resp in
    (forall e,
        requests_get (tree_api_url o r b) = inl e ->
        fetch repo_url tr
        = (inl e, tr ++ [repo_api_url o r; tree_api_url o r b])%list)
    /\ (forall resp',
           requests_get (tree_api_url o r b) = inr resp' ->
           error_status (status_code resp') = true ->
           fetch repo_url tr
           = (inl (HTTPError (status_code resp')),
              tr ++ [repo_api_url o r; tree_api_url o r b])%list).
Proof.
  intros repo_url o r tr resp Hp He Hs b.
  assert (Hbranch :
    get_repo_default_branch requests_get o r tr
    = (inr b, list_append tr (repo_api_url o r))).
  { unfold get_repo_default_branch, bind at 1, http_get. rewrite He.
    unfold bind, raise_for_status, ret. unfold error_status in Hs.
    now rewrite Hs. }
  split.
  - intros e He'. unfold fetch_repository_docs, bind at 1, lift. rewrite Hp.
    unfold bind at 1. rewrite Hbranch.
    unfold bind at 1, get_repo_tree, bind at 1, http_get. rewrite He'.
    unfold list_append. now rewrite <- app_assoc.
  - intros resp' He' Hs'. unfold fetch_repository_docs, bind at 1, lift.
    rewrite Hp. unfold bind at 1. rewrite Hbranch.
    unfold bind at 1, get_repo_tree, bind at 1, http_get. rewrite He'.
    unfold bind at 1, raise_for_status, raise. unfold error_status in Hs'.
    rewrite Hs'. unfold list_append. now rewrite <- app_assoc.
Qed.

(** X6. [parse_repo_url] returns exactly when the parsed path has two
    non-empty segments or more; the owner it returns is then the first
    non-empty segment, and what follows the second part is ignored. *)
Theorem parse_repo_url_needs_two_segments :
  forall repo_url : string,
    let segments := nonempty_segments (urlparse_path repo_url) in
    ((exists o r, parse repo_url = inr (o, r))
     <-> 2 <= List.length segments)
    /\ (forall o r, parse repo_url = inr (o, r) ->
                    o = hd "" segments /\ o <> "").
Proof.
  intros repo_url segments. subst segments.
  rewrite <- segments_strip. unfold parse_repo_url.
  set (parts := split_char "/" (strip_by is_slash (urlparse_path repo_url))).
  split.
  - split.
    + intros (o & r & H).
      destruct (List.length parts <? 2)%nat eqn:E; [discriminate|].
      apply Nat.ltb_ge in E. now apply stripped_segments_nonempty.
    + intros H. pose proof (filter_length_le truthy parts) as Hle.
      assert (E : (List.length parts <? 2)%nat = false)
        by (apply Nat.ltb_ge; lia).
      rewrite E. now eexists; eexists.
  - intros o r H.
    destruct (List.length parts <? 2)%nat eqn:E; [discriminate|].
    injection H as <- _.
    destruct (stripped_first_segment (urlparse_path repo_url))
      as [Hempty|(c & h & rest & Hparts)].
    + subst parts. rewrite Hempty in E. discriminate.
    + subst parts. rewrite Hparts. simpl. split; [reflexivity|discriminate].
Qed.
End FetcherExtras.

(** *** Further runs of the fetcher *)

Module FetcherMoreRuns.
Import PyStr RepoFetcher FetcherSpec FetcherMore.

Lemma widgets_fetch :
  fetch_repository_docs plain_urlparse_path widgets_network
    "https://github.com/acme/widgets" []
  = (inr widgets_result, widgets_log).
Proof. vm_compute. reflexivity. Qed.

Lemma fetched_images_witness :
  ["img/logo.png"]
  = map item_path
      (filter is_image_blob
              (listed_tree widgets_network "acme" "widgets" "main")).
Proof.
  apply (fetched_images_are_the_image_blobs plain_urlparse_path
           widgets_network _ _ _ widgets_result widgets_fetch).
Defined.

Lemma fetch_requests_witness :
  widgets_log
  = ([] ++ [repo_api_url "acme" "widgets";
            tree_api_url "acme" "widgets" "main"]
        ++ map (fun item => raw_url "acme" "widgets" "main" (item_path item))
               (filter is_markdown_blob
                       (listed_tree widgets_network "acme" "widgets" "main")))%list.
Proof.
  apply (fetch_requests_in_order plain_urlparse_path widgets_network
           _ _ _ widgets_result widgets_fetch).
Defined.

Lemma downloads_answered_witness :
  exists resp,
    widgets_network (raw_url "acme" "widgets" "main" "docs/guide.md")
    = inr resp.
Proof.
  apply (fetch_returns_only_if_downloads_answered plain_urlparse_path
           widgets_network _ _ _ widgets_result widgets_fetch
           (mkItem "blob" "docs/guide.md")).
  - vm_compute. tauto.
  - vm_compute. reflexivity.
Defined.

(** The connection drops on one download: the fetch ends with that error
    and returns no partial result. *)
Example dropped_download_ends_fetch :
  fst (fetch_repository_docs plain_urlparse_path dropping_network
         "https://github.com/acme/widgets" [])
  = inl ConnectionError.
Proof. vm_compute. reflexivity. Qed.

Lemma failed_lookup_witness :
  fetch_repository_docs plain_urlparse_path missing_repo_network
    "https://github.com/acme/widgets" []
  = (inl (HTTPError 404), [] ++ [repo_api_url "acme" "widgets"])%list.
Proof.
  apply (proj2 (failed_lookup_ends_fetch plain_urlparse_path
                  missing_repo_network "https://github.com/acme/widgets"
                  "acme" "widgets" [] eq_refl)
               (mkResponse 404 "Not Found" None None)).
  - vm_compute. reflexivity.
  - vm_compute. reflexivity.
Defined.

Lemma failed_tree_listing_witness :
  fetch_repository_docs plain_urlparse_path lookup_only_network
    "https://github.com/acme/widgets" []
  = (inl (HTTPError 404),
     [] ++ [repo_api_url "acme" "widgets";
            tree_api_url "acme" "widgets" "main"])%list.
Proof.
  apply (proj2 (failed_tree_listing_ends_fetch plain_urlparse_path
                  lookup_only_network "https://github.com/acme/widgets"
                  "acme" "widgets" [] (mkResponse 200 "" None None)
                  eq_refl eq_refl eq_refl)
               (mkResponse 404 "Not Found" None None)).
  - vm_compute. reflexivity.
  - vm_compute. reflexivity.
Defined.

Lemma parse_repo_url_witness :
  "acme" = hd "" (nonempty_segments
                    (plain_urlparse_path
                       "https://github.com/acme/widgets/tree/main"))
  /\ "acme" <> "".
Proof.
  apply (proj2 (parse_repo_url_needs_two_segments plain_urlparse_path
                  "https://github.com/acme/widgets/tree/main")
               "acme" "widgets").
  vm_compute. reflexivity.
Defined.

End FetcherMoreRuns.

(* ===================================================================== *)
(** * Further properties of the summarizer *)
(* ===================================================================== *)

Module SummarizerMoreFacts.
Import PyStr AiSummarizer SummarizerSpec SummarizerMore SummarizerFacts.

(** A string starts with [p] exactly when it is [p] followed by
    something. *)
Lemma prefix_iff_append (p s : string) :
  String.prefix p s = true <-> exists suffix, s = p ++ suffix.
Proof.
  revert s. induction p as [|a p IH]; intros s.
  - split; [intros _; now exists s | intros _; now destruct s].
  - destruct s as [|b s]; simpl.
    + split; [discriminate | intros [x H]; discriminate].
    + destruct (ascii_dec a b) as [->|Hne].
      * rewrite IH. split; intros [x H]; exists x; [now rewrite H|].
        now injection H.
      * split; [discriminate|]. intros [x H]. injection H as H _. congruence.
Qed.

Lemma set_fresh {V} (k : string) (v : V) (d : Dict.t V) :
  ~ In k (Dict.keys d) -> Dict.set k v d = list_append d (k, v).
Proof.
  unfold Dict.keys, list_append. induction d as [|[k0 v0] r IH]; simpl; intros H.
  - reflexivity.
  - destruct (k0 =? k) eqn:E.
    + apply String.eqb_eq in E. subst. exfalso. apply H. now left.
    + f_equal. apply IH. intros Hin. apply H. now right.
Qed.

Section Logged.
Variable py_repr : list string -> string.
Variable client : Type.
Variable chat_create : client -> string -> option string * client.

Local Abbreviation retry := (retry_loop client chat_create).
Local Abbreviation retry_logged :=
  (retry_loop (client * list string) (logged chat_create)).
Local Abbreviation step := (summarize_file py_repr client chat_create).
Local Abbreviation step_logged :=
  (summarize_file py_repr (client * list string) (logged chat_create)).

(** With the log, the loop stores what it stores without it, and the log
    grows by the prompt, once or twice. *)
Lemma retry_logged_calls path prompt wi summaries c log :
  exists extra,
    retry_logged max_retries 0 path prompt wi summaries (c, log)
    = (fst (retry max_retries 0 path prompt wi summaries c),
       (snd (retry max_retries 0 path prompt wi summaries c),
        (log ++ extra)%list))
    /\ (extra = [prompt] \/ extra = [prompt; prompt]).
Proof.
  simpl. unfold logged at 1.
  destruct (chat_create c prompt) as [[a|] c1].
  - exists [prompt]. split; [reflexivity | now left].
  - simpl.
    destruct (chat_create c1 prompt) as [[a|] c2];
      exists [prompt; prompt]; unfold list_append; rewrite <- app_assoc;
      split; try reflexivity; now right.
Qed.

Lemma fold_logged files imgs : forall summaries c log,
  exists extra,
    fold_left (step_logged imgs) files (summaries, (c, log))
    = (fst (fold_left (step imgs) files (summaries, c)),
       (snd (fold_left (step imgs) files (summaries, c)),
        (log ++ extra)%list))
    /\ List.length files <= List.length extra <= 2 * List.length files
    /\ (forall prompt, In prompt extra ->
        exists path content,
          In (path, content) files
          /\ prompt = prompt_for py_repr path content imgs).
Proof.
  induction files as [|[path content] rest IH]; intros summaries c log.
  - exists []. simpl. rewrite app_nil_r. repeat split; try lia.
  - cbn [fold_left].
    rewrite (step_prompt py_repr client chat_create imgs summaries c path content).
    rewrite (step_prompt py_repr _ (logged chat_create) imgs summaries (c, log)
                         path content).
    destruct (retry_logged_calls path (prompt_for py_repr path content imgs)
                (has_images (related_images (dirname path) imgs))
                summaries c log) as (e1 & E1 & He1).
    rewrite E1.
    destruct (retry max_retries 0 path (prompt_for py_repr path content imgs)
                (has_images (related_images (dirname path) imgs)) summaries c)
      as [summaries1 c1].
    cbn [fst snd].
    destruct (IH summaries1 c1 (log ++ e1)%list) as (e2 & E2 & Hlen & Hin).
    exists (e1 ++ e2)%list. rewrite E2, app_assoc. split; [reflexivity|].
    rewrite length_app. cbn [List.length]. split.
    + destruct He1 as [->| ->]; simpl; lia.
    + intros prompt Hp. apply in_app_or in Hp. destruct Hp as [Hp|Hp].
      * exists path, content. split; [now left|].
        destruct He1 as [->| ->]; simpl in Hp; intuition.
      * destruct (Hin prompt Hp) as (p' & c' & Hin' & ->).
        exists p', c'. split; [now right | reflexivity].
Qed.
End Logged.

Section Stateless.
Variable py_repr : list string -> string.
Variable answer : string -> option string.

Local Abbreviation step :=
  (summarize_file py_repr unit (stateless answer)).

Lemma stateless_step imgs summaries path content :
  step imgs (summaries, tt) (path, content)
  = (Dict.set path (single_summary py_repr answer imgs path content) summaries,
     tt).
Proof.
  rewrite step_prompt. unfold single_summary.
  set (prompt := prompt_for py_repr path content imgs).
  unfold max_retries. cbn [retry_loop Nat.ltb Nat.leb Nat.add]. unfold stateless.
  destruct (answer prompt) as [a|].
  - unfold model_summary. now destruct (has_images _).
  - reflexivity.
Qed.

Lemma stateless_fold imgs files : forall summaries,
  NoDup (Dict.keys summaries ++ Dict.keys files)%list ->
  fold_left (step imgs) files (summaries, tt)
  = ((summaries
      ++ map (fun item =>
                (fst item,
                 single_summary py_repr answer imgs (fst item) (snd item)))
             files)%list, tt).
Proof.
  induction files as [|[path content] rest IH]; intros summaries Hnd.
  - simpl. now rewrite app_nil_r.
  - cbn [fold_left]. rewrite stateless_step.
    assert (Hfresh : ~ In path (Dict.keys summaries)).
    { simpl in Hnd. apply NoDup_remove_2 in Hnd. intros Hin. apply Hnd.
      apply in_or_app. now left. }
    rewrite set_fresh by assumption. rewrite IH.
    + unfold list_append. rewrite <- app_assoc. reflexivity.
    + unfold list_append, Dict.keys in *. rewrite map_app. simpl.
      rewrite <- app_assoc. simpl in *. exact Hnd.
Qed.
End Stateless.

End SummarizerMoreFacts.

Section SummarizerExtras.
Import PyStr AiSummarizer SummarizerSpec SummarizerMore SummarizerFacts
       SummarizerMoreFacts.
Variable py_repr : list string -> string.

(** X7. The summarizer calls the client once or twice per file, never
    more: with a client that records its prompts, the summaries and the
    client's final state are those of the run without the record, the
    number of calls lies between the number of files and twice that
    number, and every prompt sent is the prompt of one of the files. *)
Theorem client_called_once_or_twice_per_file :
  forall (client : Type)
         (chat_create : client -> string -> option string * client)
         (c : client) (markdown_files : Dict.t string)
         (image_files : option (list string)),
    let plain :=
      summarize_markdown_files py_repr client chat_create c
                               markdown_files image_files in
    let recorded :=
      summarize_markdown_files py_repr (client * list string)
                               (logged chat_create) (c, [])
                               markdown_files image_files in
    let calls := snd (snd recorded) in
    fst recorded = fst plain
    /\ fst (snd recorded) = snd plain
    /\ List.length markdown_files <= List.length calls
       <= 2 * List.length markdown_files
    /\ (forall prompt,
           In prompt calls ->
           exists path content,
             In (path, content) markdown_files
             /\ prompt = prompt_for py_repr path content image_files).
Proof.
  intros client chat_create c mf imgs plain recorded calls.
  destruct (fold_logged py_repr client chat_create mf imgs [] c [])
    as (extra & E & Hlen & Hin).
  assert (E' : recorded = (fst plain, (snd plain, extra))) by exact E.
  subst calls. rewrite E'. cbn [fst snd].
  repeat split; try apply Hlen. exact Hin.
Qed.

(** X8. Under a client whose answer depends on the prompt only, and for
    an input whose keys are distinct, the summaries are the input mapped
    file by file, in the input's order: each file's summary depends on its
    own path and content and on the image list, not on the other files. *)
Theorem stateless_client_summarizes_file_by_file :
  forall (answer : string -> option string) (markdown_files : Dict.t string)
         (image_files : option (list string)),
    NoDup (Dict.keys markdown_files) ->
    fst (summarize_markdown_files py_repr unit (stateless answer) tt
                                  markdown_files image_files)
    = map (fun item =>
             (fst item,
              single_summary py_repr answer image_files (fst item) (snd item)))
          markdown_files.
Proof.
  intros answer mf imgs Hnd. unfold summarize_markdown_files.
  now rewrite stateless_fold.
Qed.

(** X9. Whatever the content, what is placed in the prompt is at most
    3041 characters long: the budget of 3000 and the 41 characters of the
    marker. *)
Theorem truncated_content_is_bounded :
  forall content : string,
    String.length (truncate_content content) <= 3041.
Proof.
  intros content. unfold truncate_content, content_budget.
  destruct (3000 <? String.length content)%nat eqn:E.
  - apply Nat.ltb_lt in E. rewrite StrFacts.length_append.
    rewrite StrFacts.substring_length by lia.
    change (String.length truncation_marker) with 41. lia.
  - apply Nat.ltb_ge in E. lia.
Qed.

(** X10. The related images of a directory are the images of the list
    whose path is the directory name followed by anything: a plain prefix
    match, so [docs] also relates the images of [docs2/] and of
    [docs-old/], and the empty directory name relates them all. *)
Theorem related_images_are_prefix_matches :
  forall (file_dir : string) (images : list string) (img : string),
    In img (related_images file_dir (Some images))
    <-> In img images /\ exists suffix, img = file_dir ++ suffix.
Proof.
  intros file_dir images img.
  assert (H : related_images file_dir (Some images)
              = filter (fun i => startswith i file_dir) images)
    by now destruct images.
  rewrite H, filter_In. unfold startswith. now rewrite prefix_iff_append.
Qed.
End SummarizerExtras.

(** *** Further runs of the summarizer *)

Module SummarizerMoreRuns.
Import PyStr AiSummarizer SummarizerSpec SummarizerMore.

Lemma client_calls_witness :
  2 <= List.length
         (snd (snd (summarize_markdown_files plain_repr (nat * list string)
                      (logged (flaky_client " Overview. ")) (1, [])
                      [("README.md", "# Hi"); ("docs/guide.md", "Guide")]
                      None)))
    <= 4.
Proof.
  pose proof (client_called_once_or_twice_per_file plain_repr nat
                (flaky_client " Overview. ") 1
                [("README.md", "# Hi"); ("docs/guide.md", "Guide")] None) as H.
  cbv zeta in H. destruct H as (_ & _ & H & _). exact H.
Defined.

Lemma stateless_summaries_witness :
  fst (summarize_markdown_files plain_repr unit (stateless guides_only) tt
         [("README.md", "# Hi"); ("docs/guide.md", "Guide")]
         (Some ["docs/flow.png"]))
  = [("README.md", fallback_summary "README.md");
     ("docs/guide.md", "A guide." ++ image_note)].
Proof.
  rewrite (stateless_client_summarizes_file_by_file plain_repr guides_only
             [("README.md", "# Hi"); ("docs/guide.md", "Guide")]
             (Some ["docs/flow.png"])).
  - vm_compute. reflexivity.
  - repeat constructor; simpl; intuition discriminate.
Defined.

Lemma related_images_witness :
  In "docs2/x.png"
     (related_images "docs" (Some ["img/a.png"; "docs2/x.png"; "docs/y.png"])).
Proof.
  apply (related_images_are_prefix_matches "docs"
           ["img/a.png"; "docs2/x.png"; "docs/y.png"] "docs2/x.png").
  split.
  - simpl. tauto.
  - now exists "2/x.png".
Defined.

End SummarizerMoreRuns.

(* ===================================================================== *)
(** * Further properties of the document assembler *)
(* ===================================================================== *)

Module NumberingFacts.
Import PyStr HtmlBuilder HtmlSpec HtmlMore StrFacts.

Lemma numbered_cons {A} start (x : A) (l : list A) :
  numbered start (x :: l) = (start, x) :: numbered (S start) l.
Proof. reflexivity. Qed.

Lemma numbered_app {A} start (l1 l2 : list A) :
  numbered start (l1 ++ l2)
  = (numbered start l1 ++ numbered (start + List.length l1) l2)%list.
Proof.
  revert start. induction l1 as [|x l1 IH]; intros start.
  - simpl. now rewrite Nat.add_0_r.
  - cbn [app]. rewrite !numbered_cons, IH. cbn [app List.length].
    now rewrite Nat.add_succ_r.
Qed.

Section Loops.
Variables owner repo_name : string.

Local Abbreviation file_step := (render_file owner repo_name).
Local Abbreviation category_step := (render_category owner repo_name).
Local Abbreviation sections_from := (numbered_sections owner repo_name).

Lemma files_fold_numbered files : forall toc secs n,
  fold_left file_step files (toc, secs, n)
  = ((toc ++ numbered_toc n files)%list,
     (secs ++ sections_from n files)%list,
     n + List.length files).
Proof.
  induction files as [|[p s] rest IH]; intros toc secs n.
  - simpl. now rewrite !app_nil_r, Nat.add_0_r.
  - cbn [fold_left]. unfold render_file at 2. rewrite IH.
    unfold numbered_toc, numbered_sections, list_append.
    rewrite !numbered_cons. cbn [map fst snd List.length].
    rewrite <- !app_assoc. cbn [app].
    rewrite !Nat.add_1_r. now rewrite Nat.add_succ_r.
Qed.

Lemma toc_links_kept start files :
  filter is_toc_link (numbered_toc start files) = numbered_toc start files.
Proof.
  unfold numbered_toc. induction (numbered start files) as [|e l IH].
  - reflexivity.
  - cbn [map filter]. now rewrite IH.
Qed.

(** One category: a header at most, then the links and the sections of
    its files. *)
Lemma category_step_numbered k toc secs n category files :
  exists header,
    category_step k (toc, secs, n) (category, files)
    = ((toc ++ header ++ numbered_toc n files)%list,
       (secs ++ sections_from n files)%list,
       n + List.length files)
    /\ filter is_toc_link header = []
    /\ ((1 <? k)%nat = false -> header = []).
Proof.
  unfold render_category. destruct files as [|f fs].
  - exists []. simpl. now rewrite !app_nil_r, Nat.add_0_r.
  - cbn [Dict.truthy negb]. cbv iota. destruct (1 <? k)%nat.
    + eexists [_]. rewrite files_fold_numbered. unfold list_append.
      rewrite <- app_assoc. repeat split; try reflexivity. discriminate.
    + exists []. rewrite files_fold_numbered. repeat split; reflexivity.
Qed.

Lemma categories_fold_numbered k organized : forall toc secs n,
  exists toc_items,
    fold_left (category_step k) organized (toc, secs, n)
    = ((toc ++ toc_items)%list,
       (secs ++ sections_from n (flat_files organized))%list,
       n + List.length (flat_files organized))
    /\ filter is_toc_link toc_items = numbered_toc n (flat_files organized)
    /\ ((1 <? k)%nat = false ->
        toc_items = numbered_toc n (flat_files organized)).
Proof.
  induction organized as [|[c files] rest IH]; intros toc secs n.
  - exists []. simpl. now rewrite !app_nil_r, Nat.add_0_r.
  - cbn [fold_left].
    destruct (category_step_numbered k toc secs n c files)
      as (h & E & Hh & Hh0).
    match goal with
    | |- context [fold_left _ rest ?st] =>
        replace st with ((toc ++ h ++ numbered_toc n files)%list,
                         (secs ++ sections_from n files)%list,
                         n + List.length files) by (symmetry; exact E)
    end.
    destruct (IH (toc ++ h ++ numbered_toc n files)%list
                 (secs ++ sections_from n files)%list
                 (n + List.length files)) as (t & E' & Ht & Ht0).
    exists (h ++ numbered_toc n files ++ t)%list. rewrite E'.
    unfold flat_files. cbn [map concat snd]. fold (flat_files rest).
    unfold numbered_sections, numbered_toc in *.
    rewrite !numbered_app, !map_app, !length_app, <- !app_assoc, Nat.add_assoc.
    split; [reflexivity|]. split.
    + rewrite !filter_app, Hh, Ht. cbn [app]. f_equal.
      apply (toc_links_kept n files).
    + intros Hk. now rewrite (Hh0 Hk), (Ht0 Hk).
Qed.
End Loops.

End NumberingFacts.

Module GalleryFacts.
Import PyStr HtmlBuilder HtmlSpec HtmlMore.

(** The loop over the images is three filters. *)
Lemma categorize_fold_filters images : forall a s o,
  fold_left categorize_image images (a, s, o)
  = ((a ++ filter is_architecture images)%list,
     (s ++ filter (fun i => negb (is_architecture i) && is_screenshot i)
                  images)%list,
     (o ++ filter (fun i => negb (is_architecture i)
                            && negb (is_screenshot i)) images)%list).
Proof.
  induction images as [|i rest IH]; intros a s o.
  - simpl. now rewrite !app_nil_r.
  - cbn [fold_left]. unfold categorize_image at 2.
    fold (is_architecture i). fold (is_screenshot i).
    cbn [filter].
    destruct (is_architecture i); [|destruct (is_screenshot i)];
      rewrite IH; unfold list_append; cbn [negb andb];
      now rewrite <- ?app_assoc.
Qed.
End GalleryFacts.

Module FormatFacts.
Import PyStr HtmlBuilder HtmlSpec HtmlMore StrFacts.

Lemma join_snoc (l : list string) (x : string) :
  join (l ++ [x])%list = join l ++ x.
Proof.
  unfold join. induction l as [|a l IH].
  - reflexivity.
  - destruct l as [|b l].
    + reflexivity.
    + change (String.concat "" ((a :: b :: l) ++ [x])%list)
        with (a ++ "" ++ String.concat "" ((b :: l) ++ [x])%list).
      rewrite IH. change (String.concat "" (a :: b :: l))
        with (a ++ "" ++ String.concat "" (b :: l)).
      simpl. now rewrite append_assoc.
Qed.

(** Cutting a chain at two of its links. *)
Lemma cut_here_then (x rest mid post : string) :
  rest = mid ++ post -> x ++ rest = "" ++ x ++ mid ++ post.
Proof. now intros ->. Qed.

Ltac cut_chain_twice :=
  first [ eapply cut_here_then; [cut_chain]
        | eapply cut_later; cut_chain_twice ].

(** One-step unfolding of the paragraph split. *)
Lemma split_blank_line_pair t :
  split_blank_line (String "010" (String "010" t))
  = "" :: split_blank_line t.
Proof. reflexivity. Qed.

Lemma split_blank_line_other a b t :
  (Ascii.eqb a "010" && Ascii.eqb b "010") = false ->
  split_blank_line (String a (String b t))
  = match split_blank_line (String b t) with
    | h :: r => String a h :: r
    | [] => [String a ""]
    end.
Proof. intros H. cbn [split_blank_line]. now rewrite H. Qed.

Lemma split_before_note body :
  ends_with_note_paragraph (body ++ nl ++ nl ++ note_text)
  /\ forall a, ends_with_note_paragraph (String a body ++ nl ++ nl ++ note_text).
Proof.
  unfold ends_with_note_paragraph.
  induction body as [|b t [IH0 IH1]].
  - split.
    + exists "", [], note_text. split; [reflexivity | now left].
    + intros a. destruct (Ascii.eqb a "010") eqn:Ea.
      * apply Ascii.eqb_eq in Ea. subst a.
        exists "", [], (nl ++ note_text). split; [reflexivity | now right].
      * exists (String a ""), [], note_text. split; [|now left].
        change (String a "" ++ nl ++ nl ++ note_text)
          with (String a (String "010" (nl ++ note_text))).
        rewrite split_blank_line_other by (now rewrite Ea). reflexivity.
  - split; [apply IH1|]. intros a.
    change (String a (String b t) ++ nl ++ nl ++ note_text)
      with (String a (String b (t ++ nl ++ nl ++ note_text))).
    destruct (Ascii.eqb a "010" && Ascii.eqb b "010") eqn:E.
    + apply andb_true_iff in E. destruct E as [Ea Eb].
      apply Ascii.eqb_eq in Ea, Eb. subst a b.
      rewrite split_blank_line_pair.
      destruct IH0 as (f & m & l & E & Hl).
      exists "", (f :: m), l. rewrite E. split; [reflexivity | exact Hl].
    + rewrite split_blank_line_other by exact E.
      destruct (IH1 b) as (f & m & l & E' & Hl).
      change (String b t ++ nl ++ nl ++ note_text)
        with (String b (t ++ nl ++ nl ++ note_text)) in E'.
      rewrite E'. exists (String a f), m, l. split; [reflexivity | exact Hl].
Qed.

End FormatFacts.

Section DocumentExtras.
Import PyStr HtmlBuilder HtmlSpec HtmlMore StrFacts HtmlFacts RenderFacts
       DocumentFacts NumberingFacts GalleryFacts FormatFacts OrganizeFacts.

(** X11. The document has one section per file of the grouping, category
    after category and file after file, with the identifiers section-1,
    section-2, and so on; the link entries of the TOC are, in the same
    order, one per section, the i-th pointing at section-i; with a single
    category the TOC holds nothing else. *)
Theorem sections_and_toc_links_are_numbered_alike :
  forall (owner repo_name : string) (organized : Dict.t (Dict.t string)),
    let st := render_sections owner repo_name organized in
    let files := flat_files organized in
    sections_of st = numbered_sections owner repo_name 1 files
    /\ filter is_toc_link (toc_of st) = numbered_toc 1 files
    /\ snd st = 1 + List.length files
    /\ (Dict.len organized <= 1 -> toc_of st = numbered_toc 1 files).
Proof.
  intros owner repo_name organized st files. subst st files.
  unfold render_sections.
  destruct (categories_fold_numbered owner repo_name (Dict.len organized)
              organized [] [] 1) as (t & E & Ht & Ht0).
  rewrite E. cbn [sections_of toc_of fst snd app]. repeat split; try assumption.
  intros Hk. apply Ht0. apply Nat.ltb_ge. exact Hk.
Qed.

(** X12. The gallery loop sorts every image into one bucket, keeping the
    order of the list: the architecture bucket takes the images whose
    lower-cased path contains one of its four keywords, the screenshot
    bucket those of the others that contain one of its three keywords,
    and the last bucket the rest. *)
Theorem gallery_buckets_are_filters :
  forall images : list string,
    fold_left categorize_image images ([], [], [])
    = (filter is_architecture images,
       filter (fun i => negb (is_architecture i) && is_screenshot i) images,
       filter (fun i => negb (is_architecture i) && negb (is_screenshot i))
              images).
Proof. intros images. now rewrite categorize_fold_filters. Qed.

(** X13. A summary to which the summarizer appended the image note is
    rendered with the note as its last block, a [note] block, whatever
    precedes the note in the summary. *)
Theorem image_note_is_rendered_as_note_block :
  forall body owner repo_name : string,
  exists html : string,
    format_summary_content (body ++ AiSummarizer.image_note) owner repo_name
    = html ++ note_block.
Proof.
  intros body owner repo_name. unfold format_summary_content.
  destruct (split_before_note body) as [(f & m & l & E & Hl) _].
  change AiSummarizer.image_note with (nl ++ nl ++ note_text).
  rewrite E.
  change (f :: m ++ [l])%list with ((f :: m) ++ [l])%list.
  rewrite fold_left_app.
  set (done := fold_left (format_paragraph owner repo_name) (f :: m) []).
  change (fold_left (format_paragraph owner repo_name) [l] done)
    with (format_paragraph owner repo_name done l).
  exists (join done).
  assert (Hlast : format_paragraph owner repo_name done l
                  = (done ++ [note_block])%list).
  { destruct Hl as [->| ->]; reflexivity. }
  rewrite Hlast. apply join_snoc.
Qed.

(** X14. The author and the company are placed in the document as they
    are given, without escaping: for the other inputs fixed, the document
    is three fixed strings with the company and the author between
    them. *)
Theorem author_and_company_are_inserted_verbatim :
  forall (current_date : string) (summaries repo_meta : Dict.t string)
         (markdown_files : option (Dict.t string))
         (image_files : option (list string)),
  exists before between after : string,
    forall author company : string,
      generate_onboarding_html current_date summaries repo_meta author company
                               markdown_files image_files
      = before ++ company ++ between ++ author ++ after.
Proof.
  intros current_date summaries repo_meta markdown_files image_files.
  set (repo_name := Dict.get_default "repo" "Repository" repo_meta).
  set (owner := Dict.get_default "owner" "Unknown" repo_meta).
  set (github_url := "https://github.com/" ++ owner ++ "/" ++ repo_name).
  assert (Hcover : exists p1 p2 p3, forall author company,
    cover_block company repo_name github_url author current_date
                (Dict.get_default "branch" "main" repo_meta)
    = p1 ++ company ++ p2 ++ author ++ p3).
  { eexists. eexists. eexists. intros author company. unfold cover_block.
    cut_chain_twice. }
  destruct Hcover as (p1 & p2 & p3 & Hcover).
  eexists (html_head repo_name ++ p1). exists p2. eexists (p3 ++ _).
  intros author company. rewrite generate_blocks.
  fold repo_name owner github_url. rewrite Hcover.
  repeat rewrite append_assoc. reflexivity.
Qed.

(** X15. In the grouping built from a file mapping, every entry of every
    category is a file of the mapping, with its summary or, when it has
    none, the empty text: a summary whose path is not a key of the
    mapping appears in no category. *)
Theorem grouping_holds_only_files_of_the_mapping :
  forall (markdown_files summaries : Dict.t string)
         (category : string) (group : Dict.t string) (path v : string),
    Dict.get category (organize_content_for_html markdown_files summaries)
    = Some group ->
    Dict.get path group = Some v ->
    In path (Dict.keys markdown_files)
    /\ spec_category path = category
    /\ v = Dict.get_default path "" summaries.
Proof.
  intros mf summaries category group path v Hg Hp.
  destruct (organize_grouped mf summaries) as [_ Hinv].
  destruct (Hinv _ _ Hg) as [Hmem Hval].
  apply DictFacts.get_some_in_keys in Hp as Hin. apply Hmem in Hin.
  destruct Hin as [Hin Hc]. repeat split; try assumption. now apply Hval.
Qed.
End DocumentExtras.

Module LinkFacts.
Import PyStr HtmlBuilder HtmlSpec HtmlMore StrFacts FormatFacts
       SummarizerMoreFacts.

Lemma lacks_append c x y : lacks c (x ++ y) = lacks c x && lacks c y.
Proof.
  induction x as [|a x IH]; simpl; [reflexivity|].
  now rewrite IH, andb_assoc.
Qed.

(** The basename of a path has no character the path has not. *)
Lemma lacks_rsplit c p :
  lacks c p = true -> lacks c (snd (rsplit_slash p)) = true.
Proof.
  induction p as [|a p IH]; simpl; [reflexivity|].
  intros H. apply andb_true_iff in H. destruct H as [Ha Hp].
  specialize (IH Hp). destruct (rsplit_slash p) as [[|h0 h] tl]; simpl in *.
  - destruct (is_slash a); simpl; [exact IH | now rewrite Ha, IH].
  - exact IH.
Qed.

Lemma lacks_basename c p : lacks c p = true -> lacks c (basename p) = true.
Proof. apply lacks_rsplit. Qed.

(** A text without line feed is one paragraph. *)
Lemma split_one_paragraph s :
  lacks "010" s = true -> split_blank_line s = [s].
Proof.
  induction s as [|a t IH]; [reflexivity|].
  intros H. simpl in H. apply andb_true_iff in H. destruct H as [Ha Ht].
  destruct t as [|b t']; [reflexivity|].
  rewrite split_blank_line_other.
  - now rewrite (IH Ht).
  - apply negb_true_iff in Ha. now rewrite Ha.
Qed.

(** [rstrip] leaves a text whose last character it does not strip. *)
Lemma rstrip_keeps p x c :
  p c = false -> rstrip_by p (x ++ String c "") = x ++ String c "".
Proof.
  intros Hc. induction x as [|a x IH]; simpl.
  - now rewrite Hc.
  - rewrite IH. now destruct x.
Qed.

Lemma take_until_found c x y :
  lacks c x = true -> take_until c (x ++ String c y) = Some (x, y).
Proof.
  induction x as [|a x IH]; simpl.
  - now rewrite Ascii.eqb_refl.
  - intros H. apply andb_true_iff in H. destruct H as [Ha Hx].
    apply negb_true_iff in Ha. now rewrite Ha, (IH Hx).
Qed.

(** The search passes over a text without opening bracket. *)
Lemma search_link_skips x y :
  lacks "[" x = true ->
  search_link (x ++ String "[" y)
  = match match_link_at y with
    | Some groups => Some groups
    | None => search_link y
    end.
Proof.
  induction x as [|a x IH]; simpl; [reflexivity|].
  intros H. apply andb_true_iff in H. destruct H as [Ha Hx].
  apply negb_true_iff in Ha. now rewrite Ha, (IH Hx).
Qed.

Lemma contains_unfold n h :
  contains n h
  = String.prefix n h
    || match h with
       | EmptyString => false
       | String _ t => contains n t
       end.
Proof. now destruct h. Qed.

Lemma contains_middle n x y : contains n (x ++ n ++ y) = true.
Proof.
  induction x as [|a x IH].
  - rewrite contains_unfold.
    assert (H : String.prefix n (n ++ y) = true)
      by (apply prefix_iff_append; now exists y).
    cbn [append]. now rewrite H.
  - rewrite contains_unfold. cbn [append]. rewrite IH. apply orb_true_r.
Qed.

Lemma truthy_nonempty s : s <> "" -> truthy s = true.
Proof. destruct s; [congruence | reflexivity]. Qed.

End LinkFacts.

Section LinkExtras.
Import PyStr HtmlBuilder HtmlSpec HtmlMore StrFacts FormatFacts LinkFacts.

(** X16. The fallback summary of a file is rendered as one reference
    block that holds only the link sentence, rewritten to the file's page
    on the host under [main]; the sentence that names the documentation
    file is not rendered. This holds for a path without bracket, closing
    parenthesis or line feed that does not end in a slash, and an owner
    and a repository name that are not empty. *)
Theorem fallback_summary_is_rendered_as_the_link :
  forall path owner repo_name : string,
    plain_path path = true ->
    basename path <> "" ->
    owner <> "" ->
    repo_name <> "" ->
    format_summary_content (AiSummarizer.fallback_summary path) owner repo_name
    = reference_block owner repo_name (basename path) path.
Proof.
  intros path owner repo_name Hplain Hbase Ho Hr.
  unfold plain_path in Hplain.
  apply andb_true_iff in Hplain. destruct Hplain as [Hplain Hnl].
  apply andb_true_iff in Hplain. destruct Hplain as [Hplain Hparen].
  apply andb_true_iff in Hplain. destruct Hplain as [Hopen Hclose].
  assert (Hpath : path <> "") by (intros ->; now apply Hbase).
  set (b := basename path) in *.
  assert (Hb_nl : lacks "010" b = true) by now apply lacks_basename.
  assert (Hb_open : lacks "[" b = true) by now apply lacks_basename.
  assert (Hb_close : lacks "]" b = true) by now apply lacks_basename.
  set (para := AiSummarizer.fallback_summary path).
  assert (Epara : para
    = ("Documentation file: " ++ b ++ ". For full details, refer to: ")
      ++ String "[" (b ++ String "]" (String "(" (path ++ String ")" "")))).
  { subst para. unfold AiSummarizer.fallback_summary. fold b.
    now repeat rewrite append_assoc. }
  assert (Hsplit : split_blank_line para = [para]).
  { apply split_one_paragraph. rewrite Epara.
    repeat (rewrite lacks_append || cbn [lacks]).
    rewrite Hb_nl, Hnl. reflexivity. }
  assert (Hstrip : strip para = para).
  { unfold strip, strip_by.
    assert (Hl : lstrip_by is_space para = para) by reflexivity.
    rewrite Hl.
    assert (Eend : para
      = ("Documentation file: " ++ b ++ ". For full details, refer to: ["
         ++ b ++ "](" ++ path) ++ String ")" "").
    { subst para. unfold AiSummarizer.fallback_summary. fold b.
      now repeat rewrite append_assoc. }
    rewrite Eend. now apply rstrip_keeps. }
  assert (Hnote : startswith para "Note:" = false) by reflexivity.
  assert (Hphrase : contains "For full details, refer to:" para = true).
  { assert (E : para
      = ("Documentation file: " ++ b ++ ". ")
        ++ "For full details, refer to:"
        ++ (" [" ++ b ++ "](" ++ path ++ ")")).
    { subst para. unfold AiSummarizer.fallback_summary. fold b.
      now repeat rewrite append_assoc. }
    rewrite E. apply contains_middle. }
  assert (Hsearch : search_link para = Some (b, path)).
  { rewrite Epara, search_link_skips.
    - unfold match_link_at. rewrite take_until_found by assumption.
      rewrite Ascii.eqb_refl, (truthy_nonempty b Hbase).
      cbn [andb]. rewrite take_until_found by assumption.
      now rewrite (truthy_nonempty path Hpath).
    - repeat (rewrite lacks_append || cbn [lacks]).
      now rewrite Hb_open. }
  unfold format_summary_content. fold para. rewrite Hsplit.
  cbn [fold_left]. unfold format_paragraph. rewrite Hstrip.
  assert (Htruthy : truthy para = true) by reflexivity.
  rewrite Htruthy, Hnote, Hphrase, (truthy_nonempty owner Ho),
          (truthy_nonempty repo_name Hr), Hsearch.
  cbn [negb andb]. unfold list_append, reference_block, join. cbn [app].
  cbn [String.concat]. now repeat rewrite append_assoc.
Qed.
End LinkExtras.

(* ===================================================================== *)
(** * Properties of the callbacks *)
(* ===================================================================== *)

Module AppFacts.
Import PyStr App AppSpec StrFacts.

Lemma some_entries_some {V} (x : option (Dict.t V)) d :
  some_entries x = Some d -> x = Some d /\ d <> [].
Proof.
  destruct x as [[|e l]|]; simpl; try discriminate.
  intros H. injection H as <-. split; [reflexivity | discriminate].
Qed.

Lemma some_entries_nonempty {V} (d : Dict.t V) :
  d <> [] -> some_entries (Some d) = Some d.
Proof. destruct d; [congruence | reflexivity]. Qed.

Ltac close_invariant :=
  repeat split; simpl;
  first [ assumption
        | reflexivity
        | discriminate
        | let H := fresh in intros H; exfalso; now apply H
        | trivial ].

Lemma do_fetch_invariant urlparse_path requests_get exn_text s tr :
  session_invariant s ->
  session_invariant (fst (do_fetch urlparse_path requests_get exn_text s tr)).
Proof.
  intros Hs. unfold do_fetch. destruct (some_text (st_repo_input s)); [|exact Hs].
  destruct Hs as (_ & _ & H3 & H4 & H5).
  destruct (RepoFetcher.fetch_repository_docs _ _ _ _) as [[e|result] tr'];
    close_invariant.
Qed.

Lemma do_summarize_invariant py_repr client chat_create new_client s :
  session_invariant s ->
  session_invariant (do_summarize py_repr client chat_create new_client s).
Proof.
  intros Hs. unfold do_summarize.
  destruct (some_entries (st_markdown_files s)); [|exact Hs].
  destruct Hs as (H1 & H2 & _ & H4 & H5).
  destruct new_client as [text|c]; close_invariant.
Qed.

Lemma do_generate_invariant current_date requests_post s :
  session_invariant s ->
  session_invariant (do_generate_html current_date requests_post s).
Proof.
  intros Hs. unfold do_generate_html.
  destruct (some_entries (st_summaries s)); [|exact Hs].
  destruct (st_repo_meta s) eqn:Em; [|exact Hs].
  destruct Hs as (H1 & H2 & H3 & H4 & H5).
  assert (Hbase : session_invariant
    (set_html_content s
       (HtmlBuilder.generate_onboarding_html current_date t (meta_dict r)
          match st_author_input s with Some a => a | None => "Riddhi Shah" end
          match st_company_input s with Some c => c | None => "Women in AI" end
          (st_markdown_files s) (st_image_files s)))).
  { close_invariant. }
  cbv zeta.
  destruct (requests_post _ _ _) as [| | |status content text];
    try exact Hbase.
  destruct (status =? 200)%nat; [|exact Hbase].
  close_invariant.
Qed.

Lemma get_in {V} k (v : V) d : Dict.get k d = Some v -> In (k, v) d.
Proof.
  induction d as [|[k0 v0] r IH]; simpl; [discriminate|].
  destruct (k0 =? k) eqn:E.
  - apply String.eqb_eq in E. intros H. injection H as <-. subst. now left.
  - intros H. right. now apply IH.
Qed.

Lemma join_cons x l : join (x :: l) = x ++ join l.
Proof.
  unfold join. destruct l; simpl; [now rewrite append_nil_r | reflexivity].
Qed.

Lemma join_contains sec l :
  In sec l -> exists before after, join l = before ++ sec ++ after.
Proof.
  induction l as [|x l IH]; [contradiction|].
  intros [->|H]; rewrite join_cons.
  - now exists "", (join l).
  - destruct (IH H) as (a & b & E). exists (x ++ a), b.
    now rewrite E, append_assoc.
Qed.

End AppFacts.

Section AppExtras.
Import PyStr App AppSpec AppFacts StrFacts HtmlBuilder HtmlSpec.

(** X17. Whatever the user types and clicks, and whatever the network,
    the client and the PDF service answer, the session keeps these
    facts: the markdown files, the image list and [repo_meta] are all
    present or all absent, and [repo_meta] holds the fetched image list;
    a recorded fetch error goes with absent markdown files and a recorded
    summary error with absent summaries; there is a PDF only if there is
    an HTML document; and the [html_error] slot is never written. *)
Theorem reachable_sessions_keep_the_invariant :
  forall s : Session, reachable s -> session_invariant s.
Proof.
  intros s H. induction H as [|s s' _ IH Hstep].
  - close_invariant.
  - destruct Hstep.
    + destruct IH as (H1 & H2 & H3 & H4 & H5). close_invariant.
    + now apply do_fetch_invariant.
    + now apply do_summarize_invariant.
    + now apply do_generate_invariant.
Qed.

(** X18. A fetch that fails records the error and clears the fetched
    data, but leaves the summaries, the HTML and the PDF of the previous
    fetch in place; and until a fetch succeeds, [do_generate_html] changes
    nothing, whatever the PDF service would answer, although summaries
    are there. *)
Theorem failed_fetch_disables_generation :
  forall (urlparse_path : string -> string)
         (requests_get : string -> RepoFetcher.exn + RepoFetcher.Response)
         (exn_text : RepoFetcher.exn -> string)
         (s : Session) (tr tr' : list string) (repo_url : string)
         (e : RepoFetcher.exn),
    some_text (st_repo_input s) = Some repo_url ->
    RepoFetcher.fetch_repository_docs urlparse_path requests_get repo_url tr
    = (inl e, tr') ->
    let s' := fst (do_fetch urlparse_path requests_get exn_text s tr) in
    st_fetch_error s' = Some (exn_text e)
    /\ st_markdown_files s' = None
    /\ st_summaries s' = st_summaries s
    /\ st_html_content s' = st_html_content s
    /\ st_pdf_content s' = st_pdf_content s
    /\ (forall current_date requests_post,
           do_generate_html current_date requests_post s' = s').
Proof.
  intros urlparse_path requests_get exn_text s tr tr' repo_url e Hin Hfail s'.
  subst s'. unfold do_fetch. rewrite Hin, Hfail. cbn [fst].
  repeat split. intros current_date requests_post. unfold do_generate_html.
  now destruct (some_entries _).
Qed.

(** X19. [do_generate_html] stores the HTML before it calls the PDF
    service, so the document is kept when the conversion times out,
    cannot connect, raises or answers another status than 200; the PDF
    slot changes only on status 200 and otherwise keeps the PDF of an
    earlier run. *)
Theorem html_is_kept_when_conversion_fails :
  forall (current_date : string)
         (requests_post : string -> string -> string -> post_outcome)
         (s : Session) (summaries : Dict.t string) (meta : RepoMeta),
    some_entries (st_summaries s) = Some summaries ->
    st_repo_meta s = Some meta ->
    let s' := do_generate_html current_date requests_post s in
    exists html,
      st_html_content s' = Some html
      /\ (forall content text,
             requests_post PDF_ENDPOINT html (meta_repo meta ++ "_onboarding.pdf")
             = PostResponse 200 content text ->
             st_pdf_content s' = Some content)
      /\ ((forall content text,
              requests_post PDF_ENDPOINT html
                            (meta_repo meta ++ "_onboarding.pdf")
              <> PostResponse 200 content text) ->
          st_pdf_content s' = st_pdf_content s).
Proof.
  intros current_date requests_post s summaries meta Hs Hm s'. subst s'.
  unfold do_generate_html. rewrite Hs, Hm. cbv zeta.
  eexists. split; [|split].
  - destruct (requests_post _ _ _) as [| | |status content text];
      try reflexivity.
    now destruct (status =? 200)%nat.
  - intros content text H. now rewrite H.
  - intros H.
    destruct (requests_post _ _ _) as [| | |status content text] eqn:E;
      try reflexivity.
    destruct (status =? 200)%nat eqn:Es; [|reflexivity].
    apply Nat.eqb_eq in Es. subst status. exfalso. now apply (H content text).
Qed.
End AppExtras.

Module PipelineFacts.
Import PyStr App AppSpec AppFacts StrFacts HtmlBuilder HtmlSpec HtmlFacts
       RenderFacts DocumentFacts OrganizeFacts.

(** A file of the mapping is a file of some category of the grouping,
    when summaries and mapping have the same keys. *)
Lemma file_is_grouped summaries files path :
  (forall k, In k (Dict.keys summaries) <-> In k (Dict.keys files)) ->
  In path (Dict.keys files) ->
  exists category group v,
    In (category, group) (organized_content summaries (Some files))
    /\ In (path, v) group.
Proof.
  intros Hkeys Hin. unfold organized_content.
  destruct (Dict.truthy files && (20 <? Dict.len summaries)%nat).
  - destruct (organize_grouped files summaries) as [Hnames Hinv].
    assert (Hc : In (spec_category path)
                    (Dict.keys (organize_content_for_html files summaries)))
      by (rewrite Hnames; apply spec_category_named).
    destruct (DictFacts.in_keys_get _ _ Hc) as [group Hgroup].
    destruct (Hinv _ _ Hgroup) as [Hmem _].
    assert (Hp : In path (Dict.keys group)) by (apply Hmem; now split).
    destruct (DictFacts.in_keys_get _ _ Hp) as [v Hv].
    exists (spec_category path), group, v. split; now apply get_in.
  - apply Hkeys in Hin. destruct (DictFacts.in_keys_get _ _ Hin) as [v Hv].
    exists "Documentation", summaries, v. split; [now left | now apply get_in].
Qed.

(** The content block is the joined sections between two fixed
    strings. *)
Lemma content_block_holds_sections :
  exists before after,
    forall section_content,
      content_block section_content
      = before ++ join section_content ++ after.
Proof.
  eexists. eexists. intros section_content. unfold content_block. cut_chain.
Qed.

(** The document holds a section for every file of the mapping, when
    summaries and mapping have the same keys. *)
Lemma document_has_section_for current_date summaries repo_meta author
      company files image_files path :
  (forall k, In k (Dict.keys summaries) <-> In k (Dict.keys files)) ->
  In path (Dict.keys files) ->
  exists summary section_id before after,
    generate_onboarding_html current_date summaries repo_meta author company
                             (Some files) image_files
    = before
      ++ create_file_section path summary section_id None
           (Dict.get_default "owner" "Unknown" repo_meta)
           (Dict.get_default "repo" "Repository" repo_meta)
      ++ after.
Proof.
  intros Hkeys Hin.
  destruct (file_is_grouped summaries files path Hkeys Hin)
    as (c & group & v & Hc & Hv).
  set (owner := Dict.get_default "owner" "Unknown" repo_meta).
  set (repo_name := Dict.get_default "repo" "Repository" repo_meta).
  destruct (render_sections_cover owner repo_name _ _ _ _ _ Hc Hv) as [i Hi].
  destruct (join_contains _ _ Hi) as (a & b & Ejoin).
  destruct content_block_holds_sections as (p & q & Hcontent).
  exists v, i. rewrite generate_blocks. fold owner repo_name.
  rewrite Hcontent, Ejoin.
  match goal with
  | |- exists before after, ?head ++ ?cover ++ ?toc ++ _ ++ ?rest = _ =>
      exists (head ++ cover ++ toc ++ p ++ a), (b ++ q ++ rest)
  end.
  repeat rewrite append_assoc. reflexivity.
Qed.

End PipelineFacts.

Section PipelineExtras.
Import PyStr App AppSpec AppFacts PipelineFacts HtmlBuilder.

(** X20. Fetch, summarize and generate, run in this order with a fetch
    that returns at least one markdown file and a client that can be
    built, leave an HTML document in the session that holds a section for
    every fetched markdown file, whatever the client and the PDF service
    answer and however many files there are. *)
Theorem every_fetched_file_has_a_section :
  forall (urlparse_path : string -> string)
         (requests_get : string -> RepoFetcher.exn + RepoFetcher.Response)
         (exn_text : RepoFetcher.exn -> string)
         (py_repr : list string -> string) (client : Type)
         (chat_create : client -> string -> option string * client)
         (c : client) (current_date : string)
         (requests_post : string -> string -> string -> post_outcome)
         (s : Session) (tr tr' : list string) (repo_url : string)
         (result : RepoFetcher.FetchResult),
    some_text (st_repo_input s) = Some repo_url ->
    RepoFetcher.fetch_repository_docs urlparse_path requests_get repo_url tr
    = (inr result, tr') ->
    RepoFetcher.markdown_files result <> [] ->
    let s1 := fst (do_fetch urlparse_path requests_get exn_text s tr) in
    let s2 := do_summarize py_repr client chat_create (inr c) s1 in
    let s3 := do_generate_html current_date requests_post s2 in
    exists html,
      st_html_content s3 = Some html
      /\ forall path,
           In path (Dict.keys (RepoFetcher.markdown_files result)) ->
           exists summary section_id before after,
             html = before
                    ++ create_file_section path summary section_id None
                         (RepoFetcher.owner result) (RepoFetcher.repo result)
                    ++ after.
Proof.
  intros urlparse_path requests_get exn_text py_repr client chat_create c
         current_date requests_post s tr tr' repo_url result Hin Hfetch Hne
         s1 s2 s3.
  set (files := RepoFetcher.markdown_files result) in *.
  set (images := RepoFetcher.image_files result).
  set (summaries :=
         fst (AiSummarizer.summarize_markdown_files py_repr client chat_create
                c files (Some images))).
  set (meta := mkMeta (RepoFetcher.repo result) (RepoFetcher.owner result)
                      (RepoFetcher.branch result) images).
  assert (Hkeys : forall k,
             In k (Dict.keys summaries) <-> In k (Dict.keys files)).
  { intros k. subst summaries. unfold AiSummarizer.summarize_markdown_files.
    rewrite SummarizerFacts.fold_step_keys. simpl. tauto. }
  assert (Hsum : summaries <> []).
  { destruct files as [|[k v] rest] eqn:Ef; [congruence|].
    intros E. assert (Hk : In k (Dict.keys summaries))
      by (apply Hkeys; now left).
    rewrite E in Hk. exact Hk. }
  assert (E1 : s1 = set_fetched s (Some files) (Some images) (Some meta) None).
  { subst s1. unfold do_fetch. now rewrite Hin, Hfetch. }
  assert (E2 : s2 = set_summaries
                      (set_summaries s1 (st_summaries s1) None)
                      (Some summaries) None).
  { subst s2. unfold do_summarize. rewrite E1. cbn [st_markdown_files set_fetched].
    now rewrite (some_entries_nonempty files Hne). }
  set (html := generate_onboarding_html current_date summaries (meta_dict meta)
                 match st_author_input s with Some a => a | None => "Riddhi Shah" end
                 match st_company_input s with Some x => x | None => "Women in AI" end
                 (Some files) (Some images)).
  exists html. split.
  - subst s3. unfold do_generate_html. rewrite E2, E1.
    cbn [st_summaries set_summaries set_fetched st_repo_meta].
    rewrite (some_entries_nonempty summaries Hsum). cbv zeta.
    cbn [st_author_input st_company_input st_markdown_files st_image_files
         set_summaries set_fetched set_html_content].
    fold html.
    destruct (requests_post _ _ _) as [| | |status content text];
      try reflexivity.
    now destruct (status =? 200)%nat.
  - intros path Hpath. subst html.
    exact (document_has_section_for current_date summaries (meta_dict meta)
             _ _ files (Some images) path Hkeys Hpath).
Qed.
End PipelineExtras.

(** *** Runs of the assembler and of the callbacks *)

Module MoreRuns.
Import PyStr RepoFetcher FetcherSpec FetcherMore AiSummarizer HtmlBuilder
       HtmlSpec HtmlMore App AppSpec.

Lemma numbered_alike_witness :
  toc_of (render_sections "acme" "widgets"
            [("Documentation", sample_summaries)])
  = numbered_toc 1 (flat_files [("Documentation", sample_summaries)]).
Proof.
  destruct (sections_and_toc_links_are_numbered_alike "acme" "widgets"
              [("Documentation", sample_summaries)]) as (_ & _ & _ & H).
  apply H. vm_compute. lia.
Defined.

Lemma grouping_witness :
  In "src/API/usage.md" (Dict.keys sample_files)
  /\ spec_category "src/API/usage.md" = "API Reference"
  /\ "Usage" = Dict.get_default "src/API/usage.md" "" sample_files.
Proof.
  apply (grouping_holds_only_files_of_the_mapping sample_files sample_files
           "API Reference" [("src/API/usage.md", "Usage")]
           "src/API/usage.md" "Usage").
  - vm_compute. reflexivity.
  - vm_compute. reflexivity.
Defined.

Lemma fallback_rendering_witness :
  format_summary_content (fallback_summary "docs/setup_guide.md")
                         "acme" "widgets"
  = reference_block "acme" "widgets" (basename "docs/setup_guide.md")
                    "docs/setup_guide.md".
Proof.
  apply (fallback_summary_is_rendered_as_the_link "docs/setup_guide.md"
           "acme" "widgets").
  - vm_compute. reflexivity.
  - vm_compute. discriminate.
  - discriminate.
  - discriminate.
Defined.

Lemma session_invariant_witness :
  session_invariant
    (fst (do_fetch plain_urlparse_path widgets_network short_exn_text
                   typed_session [])).
Proof.
  apply reachable_sessions_keep_the_invariant.
  eapply ReachStep; [|apply StepFetch].
  eapply ReachStep; [apply ReachInitial|].
  apply (StepInputs initial_session (Some "https://github.com/acme/widgets")
                    (Some "Riddhi Shah") (Some "Bazel Inc.")).
Defined.

Lemma failed_fetch_witness :
  st_summaries
    (fst (do_fetch plain_urlparse_path missing_repo_network short_exn_text
                   summarized_session []))
  = st_summaries summarized_session
  /\ do_generate_html "November 03, 2026" no_pdf_service
       (fst (do_fetch plain_urlparse_path missing_repo_network short_exn_text
                      summarized_session []))
     = fst (do_fetch plain_urlparse_path missing_repo_network short_exn_text
                     summarized_session []).
Proof.
  destruct (failed_fetch_disables_generation plain_urlparse_path
              missing_repo_network short_exn_text summarized_session []
              [repo_api_url "acme" "widgets"]
              "https://github.com/acme/widgets" (HTTPError 404))
    as (_ & _ & Hs & _ & _ & Hg).
  - reflexivity.
  - vm_compute. reflexivity.
  - split; [exact Hs | apply Hg].
Defined.

Lemma kept_html_witness :
  st_pdf_content
    (do_generate_html "November 03, 2026" no_pdf_service summarized_session)
  = st_pdf_content summarized_session.
Proof.
  destruct (html_is_kept_when_conversion_fails "November 03, 2026"
              no_pdf_service summarized_session sample_summaries
              (mkMeta "widgets" "acme" "develop" []) eq_refl eq_refl)
    as (html & _ & _ & H).
  apply H. intros content text. discriminate.
Defined.

Lemma pipeline_witness :
  exists html,
    st_html_content
      (do_generate_html "November 03, 2026" no_pdf_service
         (do_summarize plain_repr nat (flaky_client " Overview. ") (inr 1)
            (fst (do_fetch plain_urlparse_path widgets_network short_exn_text
                           typed_session []))))
    = Some html
    /\ exists summary section_id before after,
         html = before
                ++ create_file_section "README.MD" summary section_id None
                                       "acme" "widgets"
                ++ after.
Proof.
  destruct (every_fetched_file_has_a_section plain_urlparse_path
              widgets_network short_exn_text plain_repr nat
              (flaky_client " Overview. ") 1 "November 03, 2026"
              no_pdf_service typed_session [] widgets_log
              "https://github.com/acme/widgets" widgets_result)
    as (html & E & H).
  - reflexivity.
  - vm_compute. reflexivity.
  - discriminate.
  - exists html. split; [exact E|]. apply (H "README.MD"). now left.
Defined.

End MoreRuns.

Section NoImagesExtra.
Import PyStr AiSummarizer SummarizerSpec SummarizerFacts AttemptFacts.

(** X21. When the image list is not given or is empty, nothing is
    appended to a summary. For a file [path] of the input, with the files
    [before] and [after] it and the client as the files before have left
    it: if the first attempt answers [a], or the first raises and the
    second answers [a], the summary stored for [path] is exactly [a]
    stripped; if both attempts raise, it is the fallback text. *)
Theorem no_image_list_means_no_note :
  forall (py_repr : list string -> string) (client : Type)
         (chat_create : client -> string -> option string * client)
         (c : client) (before after : Dict.t string) (path content : string)
         (image_files : option (list string)),
    image_files = None \/ image_files = Some [] ->
    ~ In path (Dict.keys after) ->
    let summarize := summarize_markdown_files py_repr client chat_create in
    let summaries :=
      fst (summarize c (before ++ (path, content) :: after)%list
             image_files) in
    let c0 := snd (summarize c before image_files) in
    let prompt := prompt_for py_repr path content image_files in
    (forall a c1,
        chat_create c0 prompt = (Some a, c1) ->
        Dict.get path summaries = Some (strip a))
    /\ (forall c1 a c2,
        chat_create c0 prompt = (None, c1) ->
        chat_create c1 prompt = (Some a, c2) ->
        Dict.get path summaries = Some (strip a))
    /\ (forall c1 c2,
        chat_create c0 prompt = (None, c1) ->
        chat_create c1 prompt = (None, c2) ->
        Dict.get path summaries = Some (fallback_summary path)).
Proof.
  intros py_repr client chat_create c before after path content imgs
    Himgs Hnot summarize summaries c0 prompt.
  destruct (stored_by_attempts py_repr client chat_create
              c before path content after imgs Hnot) as (H1 & H2 & H3).
  fold summarize in H1, H2, H3. fold summaries c0 prompt in H1, H2, H3.
  repeat split.
  - intros a c1 E. rewrite <- (model_summary_plain imgs path a Himgs).
    eapply H1; eassumption.
  - intros c1 a c2 E1 E2. rewrite <- (model_summary_plain imgs path a Himgs).
    eapply H2; eassumption.
  - exact H3.
Qed.
End NoImagesExtra.

Module NoImagesRuns.
Import PyStr AiSummarizer.

(** No image list: the answer is stored stripped, without the note. *)
Lemma no_image_list_witness :
  Dict.get "README.md"
    (fst (summarize_markdown_files plain_repr unit
            (constant_client "  Overview. ") tt
            [("README.md", "# Hi"); ("docs/guide.md", "Guide")] None))
  = Some "Overview."
  /\ endswith "Overview." image_note = false.
Proof.
  split; [|vm_compute; reflexivity].
  destruct (no_image_list_means_no_note plain_repr unit
              (constant_client "  Overview. ") tt
              [] [("docs/guide.md", "Guide")] "README.md" "# Hi" None)
    as (H1 & _ & _).
  - now left.
  - simpl. intuition discriminate.
  - apply (H1 "  Overview. " tt). vm_compute. reflexivity.
Defined.

End NoImagesRuns.
